(** * sitegen: the blog and project build pipeline of [sitegen/build.py]

    A shallow embedding of the content aggregation and page assembly code:
    descriptors are parsed from JSON, posts are rendered, sorted, grouped by
    tag and associated with projects, and pages and static assets are written
    to the output tree.

    Conventions of the embedding.
    - A function that may raise returns [result]; a function that touches the
      file system takes the file system and returns the new one.  When an
      exception is raised the build stops, so the file system is not tracked
      past a [Raise].
    - Output on the terminal ([verbose]) is not modelled.
    - The template engine, the document converter, the JSON decoder, the
      string hash and the order in which a set is walked are collaborators
      of the code; the pipeline takes them as the records [Templates] and
      [Runtime]. *)

From stdpp Require Import base decidable option list sorting strings gmap pretty.
From Stdlib Require Import ZArith Ascii.

#[local] Set Warnings "-register-all,-clear-no-such-hyp".

Open Scope string_scope.
Open Scope list_scope.
Open Scope Z_scope.

(** ** Exceptions and results *)

Inductive exn : Type :=
  | ValueError (msg : string)
  | TypeError
  | OverflowError
  | KeyError (key : string)
  | FileNotFoundError
  | FileExistsError
  | IsADirectoryError
  | NotADirectoryError
  | JSONDecodeError
  | ConversionError
  | ShutilError
  (** Not a Python exception: a descriptor gives a field a value outside the
      type its record annotates.  The source carries such a value on
      unchecked; the model stops there. *)
  | AnnotationViolated (field : string).

Inductive result (A : Type) : Type :=
  | Ok (a : A)
  | Raise (e : exn).
Arguments Ok {A} a.
Arguments Raise {A} e.

Definition rbind {A B} (m : result A) (f : A → result B) : result B :=
  match m with
  | Ok a => f a
  | Raise e => Raise e
  end.

Global Instance result_ret : MRet result := λ A a, Ok a.
Global Instance result_bind : MBind result := λ A B f m, rbind m f.

Definition raises {A} (m : result A) : Prop :=
  match m with Ok _ => False | Raise _ => True end.

(** [[f(x) for x in l]]: elements are processed in order, the first exception
    ends the comprehension. *)
Fixpoint mapR {A B} (f : A → result B) (l : list A) : result (list B) :=
  match l with
  | [] => Ok []
  | x :: l' => y ← f x; ys ← mapR f l'; Ok (y :: ys)
  end.

(** [for x in l: s = f(x, s)] over a threaded state. *)
Fixpoint foldR {A S} (f : A → S → result S) (l : list A) (s : S) : result S :=
  match l with
  | [] => Ok s
  | x :: l' => s' ← f x s; foldR f l' s'
  end.

(** A comprehension whose body also changes the threaded state. *)
Fixpoint mapS {A B S} (f : A → S → result (B * S)) (l : list A) (s : S)
  : result (list B * S) :=
  match l with
  | [] => Ok ([], s)
  | x :: l' =>
      '(y, s1) ← f x s;
      '(ys, s2) ← mapS f l' s1;
      Ok (y :: ys, s2)
  end.

(** ** Strings *)

(** [sep.join(l)] *)
Fixpoint join (sep : string) (l : list string) : string :=
  match l with
  | [] => ""
  | [x] => x
  | x :: l' => x +:+ sep +:+ join sep l'
  end.

(** [n * s] for an integer [n]: the empty string when [n <= 0]. *)
Definition str_repeat (n : Z) (s : string) : string :=
  String.concat "" (replicate (Z.to_nat n) s).

(** [s.split(c)] for a one character separator. *)
Fixpoint split_on (c : ascii) (s : string) : list string :=
  match s with
  | EmptyString => [EmptyString]
  | String a s' =>
      if Ascii.eqb a c then EmptyString :: split_on c s'
      else match split_on c s' with
           | [] => [String a EmptyString]
           | w :: ws => String a w :: ws
           end
  end.

(** [s.rfind(c)] as an option: the index of the last occurrence. *)
Fixpoint rfind (c : ascii) (s : string) : option nat :=
  match s with
  | EmptyString => None
  | String a s' =>
      match rfind c s' with
      | Some i => Some (S i)
      | None => if Ascii.eqb a c then Some 0%nat else None
      end
  end.

(** ** Paths (pathlib, POSIX flavour)

    A path is its anchor and its components.  Parsing drops empty and ["."]
    components and keeps [".."]; nothing is resolved against the file system. *)

Record Path : Type := mkPath {
  anchored : bool;
  parts : list string;
}.

Global Instance Path_eq_dec : EqDecision Path.
Proof. solve_decision. Defined.

Global Instance Path_countable : Countable Path.
Proof.
  refine (inj_countable' (λ p, (anchored p, parts p))
                         (λ t, mkPath t.1 t.2) _).
  by intros [].
Defined.

Definition starts_with_slash (s : string) : bool :=
  match s with
  | String a _ => Ascii.eqb a "/"
  | EmptyString => false
  end.

Definition path_component (w : string) : bool :=
  negb (String.eqb w "") && negb (String.eqb w ".").

(** [Path(s)] *)
Definition Path_of_string (s : string) : Path :=
  {| anchored := starts_with_slash s;
     parts := List.filter path_component (split_on "/" s) |}.

(** [str(p)] *)
Definition Path_str (p : Path) : string :=
  match parts p with
  | [] => if anchored p then "/" else "."
  | ps => (if anchored p then "/" else "") +:+ join "/" ps
  end.

(** [p.joinpath(q)]: an anchored argument replaces what came before. *)
Definition joinpath (p q : Path) : Path :=
  if anchored q then q
  else {| anchored := anchored p; parts := parts p ++ parts q |}.

Definition joinpaths (p : Path) (qs : list Path) : Path :=
  foldl joinpath p qs.

(** The path [rel] components below [p]. *)
Definition extend (p : Path) (rel : list string) : Path :=
  {| anchored := anchored p; parts := parts p ++ rel |}.

(** [p.parent] *)
Definition parent (p : Path) : Path :=
  {| anchored := anchored p; parts := removelast (parts p) |}.

(** [p.name] *)
Definition name_of (p : Path) : string := List.last (parts p) "".

(** [p.stem]: the final component without its last suffix. *)
Definition stem (p : Path) : string :=
  let n := name_of p in
  match rfind "." n with
  | Some i =>
      if bool_decide (0 < i < String.length n - 1)%nat
      then String.substring 0 i n
      else n
  | None => n
  end.

(** ** Calendar dates ([datetime.date]) *)

Record date : Type := mkDate {
  year : Z;
  month : Z;
  day : Z;
}.

Global Instance date_eq_dec : EqDecision date.
Proof. solve_decision. Defined.

Definition is_leap (y : Z) : bool :=
  (y mod 4 =? 0) && (negb (y mod 100 =? 0) || (y mod 400 =? 0)).

Definition days_in_month (y m : Z) : Z :=
  if m =? 2 then (if is_leap y then 29 else 28)
  else if (m =? 4) || (m =? 6) || (m =? 9) || (m =? 11) then 30
  else 31.

(** [datetime.date(day=d, month=m, year=y)] on integers. *)
Definition datetime_date (d m y : Z) : result date :=
  if negb ((1 <=? y) && (y <=? 9999)) then Raise (ValueError "year is out of range")
  else if negb ((1 <=? m) && (m <=? 12)) then Raise (ValueError "month must be in 1..12")
  else if negb ((1 <=? d) && (d <=? days_in_month y m))
       then Raise (ValueError "day is out of range for month")
  else Ok {| year := y; month := m; day := d |}.

(** Dates compare as the triples (year, month, day). *)
Definition date_leb (a b : date) : bool :=
  (year a <? year b)
  || ((year a =? year b)
      && ((month a <? month b)
          || ((month a =? month b) && (day a <=? day b)))).

Definition month_name (m : Z) : string :=
  match m with
  | 1 => "January" | 2 => "February" | 3 => "March" | 4 => "April"
  | 5 => "May" | 6 => "June" | 7 => "July" | 8 => "August"
  | 9 => "September" | 10 => "October" | 11 => "November"
  | 12 => "December" | _ => ""
  end.

(** [date.strftime("%B %-d, %Y")] *)
Definition render_date_string (d : date) : string :=
  month_name (month d) +:+ " " +:+ pretty (day d) +:+ ", " +:+ pretty (year d).

(** ** JSON values, as [json.load] returns them *)

Inductive json : Type :=
  | JNull
  | JBool (b : bool)
  | JInt (z : Z)
  | JFloat (literal : string)
  | JStr (s : string)
  | JList (l : list json)
  | JObj (items : list (string * json)).

(** [d[key]]: only a dict can be indexed by a string. *)
Definition getitem (j : json) (key : string) : result json :=
  match j with
  | JObj items =>
      match List.find (λ kv, String.eqb kv.1 key) items with
      | Some kv => Ok kv.2
      | None => Raise (KeyError key)
      end
  | _ => Raise TypeError
  end.

(** [Path(v)]: the argument has to be a string. *)
Definition Path_of_json (v : json) : result Path :=
  match v with
  | JStr s => Ok (Path_of_string s)
  | _ => Raise TypeError
  end.

(** An integer argument of [datetime.date]: it has to fit a C [int], and
    [bool] is a subclass of [int]. *)
Definition int_of_json (v : json) : result Z :=
  match v with
  | JInt z =>
      if (-2147483648 <=? z) && (z <=? 2147483647) then Ok z
      else Raise OverflowError
  | JBool b => Ok (if b then 1 else 0)
  | _ => Raise TypeError
  end.

(** The annotation [str]. *)
Definition as_str (field : string) (v : json) : result string :=
  match v with
  | JStr s => Ok s
  | _ => Raise (AnnotationViolated field)
  end.

(** The annotation [List[str]]. *)
Definition as_str_list (field : string) (v : json) : result (list string) :=
  match v with
  | JList l => mapR (as_str field) l
  | _ => Raise (AnnotationViolated field)
  end.

(** The annotation [Optional[List[str]]]. *)
Definition as_opt_str_list (field : string) (v : json)
  : result (option (list string)) :=
  match v with
  | JNull => Ok None
  | _ => l ← as_str_list field v; Ok (Some l)
  end.

(** ** Posts *)

Record PostData : Type := mkPostData {
  post_path : Path;
  post_directory : Path;
  post_format : string;
  post_static : option Path;
  title : string;
  authors : list string;
  post_date : date;
  post_description : string;
  post_thumbnail : Path;
  project : option (list string);
  tags : list string;
}.

Global Instance PostData_eq_dec : EqDecision PostData.
Proof. solve_decision. Defined.

(** The fields of [post.json] are read in the order of the constructor call;
    the annotations are looked at once every read has succeeded. *)
Definition parse_post_json (post_json : json) : result PostData :=
  path ← (v ← getitem post_json "file_path"; Path_of_json v);
  directory ← (v ← getitem post_json "post_dir"; Path_of_json v);
  fmt ← getitem post_json "format";
  static ← (v ← getitem post_json "static_dir";
            match v with
            | JNull => Ok None
            | _ => p ← Path_of_json v; Ok (Some p)
            end);
  ttl ← getitem post_json "title";
  auth ← getitem post_json "authors";
  d ← getitem post_json "day";
  m ← getitem post_json "month";
  y ← getitem post_json "year";
  dt ← (d ← int_of_json d; m ← int_of_json m; y ← int_of_json y;
        datetime_date d m y);
  descr ← getitem post_json "description";
  thumb ← (v ← getitem post_json "thumbnail"; Path_of_json v);
  projs ← getitem post_json "projects";
  tgs ← getitem post_json "tags";
  fmt ← as_str "format" fmt;
  ttl ← as_str "title" ttl;
  auth ← as_str_list "authors" auth;
  descr ← as_str "description" descr;
  projs ← as_opt_str_list "projects" projs;
  tgs ← as_str_list "tags" tgs;
  Ok {| post_path := path; post_directory := directory; post_format := fmt;
        post_static := static; title := ttl; authors := auth; post_date := dt;
        post_description := descr; post_thumbnail := thumb; project := projs;
        tags := tgs |}.

Record PostHTML : Type := mkPostHTML {
  post_data : PostData;
  post_src : string;
}.

(** The expression of the last branch of [render_authors_string]:
    [" ".join([f"{name}, " for name in author_list[:-1]]) + f"and {author_list[-1]}"] *)
Definition join_authors (author_list : list string) : string :=
  join " " ((λ name, name +:+ ", ") <$> removelast author_list)
  +:+ "and " +:+ List.last author_list "".

(** [render_authors_string]: the third test, [len(author_list) < 1], can not
    hold once the first two have failed, and a call that falls off the end of
    the function returns [None]. *)
Definition render_authors_string (author_list : list string)
  : result (option string) :=
  if bool_decide (length author_list = 0%nat) then
    Raise (ValueError "No authors provided")
  else if bool_decide (length author_list = 1%nat) then
    Ok (Some (List.nth 0 author_list ""))
  else if bool_decide (length author_list < 1)%nat then
    Ok (Some (join_authors author_list))
  else Ok None.

Record PostBuildData : Type := mkPostBuildData {
  build_path : Path;
  build_directory : Path;
  data : PostData;
}.

Global Instance PostBuildData_eq_dec : EqDecision PostBuildData.
Proof. solve_decision. Defined.

(** ** [sorted(l, key=k, reverse=r)]

    Python's sort is stable, also with [reverse=True]: elements with equal
    keys keep the order they had in the input.  Any stable sort returns the
    same list; the model inserts each element in front of the sorted rest. *)

Section sorted.
Context {A : Type} (key : A → date).

Definition goes_first (reverse : bool) (x y : A) : bool :=
  if reverse then date_leb (key y) (key x) else date_leb (key x) (key y).

Fixpoint insert_sorted (reverse : bool) (x : A) (l : list A) : list A :=
  match l with
  | [] => [x]
  | y :: l' =>
      if goes_first reverse x y then x :: y :: l'
      else y :: insert_sorted reverse x l'
  end.

Definition sorted (reverse : bool) (l : list A) : list A :=
  foldr (insert_sorted reverse) [] l.
End sorted.

Definition date_sort (x : PostBuildData) : date := post_date (data x).

(** ** A [set] of [PostBuildData]

    [PostBuildData] overrides [__hash__] with the hash of the title and keeps
    the [__eq__] of tuples.  [add] looks for an element with the same hash
    that is equal to the new one, and inserts the new one when there is none.
    The set is kept in insertion order. *)

Section pyset.
Variable str_hash : string → Z.

Definition PostBuildData_hash (p : PostBuildData) : Z :=
  str_hash (title (data p)).

Definition pyset_contains (s : list PostBuildData) (x : PostBuildData) : bool :=
  existsb (λ y, (PostBuildData_hash y =? PostBuildData_hash x)
                && bool_decide (y = x)) s.

Definition pyset_add (x : PostBuildData) (s : list PostBuildData)
  : list PostBuildData :=
  if pyset_contains s x then s else s ++ [x].
End pyset.

(** ** The file system

    A finite map from paths to nodes.  The working directory and the root
    (the paths without components) always exist. *)

Inductive node : Type :=
  | Dir
  | File (content : string).

Global Instance node_eq_dec : EqDecision node.
Proof. solve_decision. Defined.

Abbreviation FS := (gmap Path node).

Definition is_dir (fs : FS) (p : Path) : bool :=
  match parts p with
  | [] => true
  | _ => bool_decide (fs !! p = Some Dir)
  end.

(** [p.exists()] *)
Definition path_exists (fs : FS) (p : Path) : bool :=
  match parts p with
  | [] => true
  | _ => bool_decide (is_Some (fs !! p))
  end.

(** The path itself and the paths above it, outermost first. *)
Definition ancestors (p : Path) : list Path :=
  (λ n, mkPath (anchored p) (take n (parts p))) <$> seq 1 (length (parts p)).

(** The error of a system call that does not reach its path.  The path is
    resolved from the outside in: a regular file on the way is [ENOTDIR]
    ([NotADirectoryError]), a missing component is [ENOENT]
    ([FileNotFoundError]). *)
Fixpoint walk_error (fs : FS) (l : list Path) : exn :=
  match l with
  | [] => FileNotFoundError
  | q :: l' =>
      match fs !! q with
      | Some Dir => walk_error fs l'
      | Some (File _) => NotADirectoryError
      | None => FileNotFoundError
      end
  end.

Definition lookup_error (fs : FS) (p : Path) : exn :=
  walk_error fs (ancestors p).

(** [os.mkdir(p)] and [p.mkdir()] *)
Definition os_mkdir (p : Path) (fs : FS) : result FS :=
  if path_exists fs p then Raise FileExistsError
  else if is_dir fs (parent p) then Ok (<[p := Dir]> fs)
  else Raise (lookup_error fs (parent p)).

(** One step of [mkdir_parents] on the way to [target]: a directory that is
    there is kept, a missing one is made; a file in the place of [target]
    is [FileExistsError], a file above it [NotADirectoryError]. *)
Definition mkdir_exist_ok (target p : Path) (fs : FS) : result FS :=
  if is_dir fs p then Ok fs
  else if path_exists fs p then
    Raise (if bool_decide (p = target) then FileExistsError
           else NotADirectoryError)
  else Ok (<[p := Dir]> fs).

(** [p.mkdir(parents=True, exist_ok=True)] and [os.makedirs(p, exist_ok=True)] *)
Definition mkdir_parents (p : Path) (fs : FS) : result FS :=
  foldR (mkdir_exist_ok p) (ancestors p) fs.

(** [with open(p, "w") as f: f.write(text)] *)
Definition write_text (p : Path) (text : string) (fs : FS) : result FS :=
  if is_dir fs p then Raise IsADirectoryError
  else if is_dir fs (parent p) then Ok (<[p := File text]> fs)
  else Raise (lookup_error fs (parent p)).

(** [with open(p, "r") as f: f.read()] *)
Definition read_text (p : Path) (fs : FS) : result string :=
  match parts p with
  | [] => Raise IsADirectoryError
  | _ =>
      match fs !! p with
      | Some (File c) => Ok c
      | Some Dir => Raise IsADirectoryError
      | None => Raise (lookup_error fs p)
      end
  end.

(** [strip_prefix pre l] is [Some rel] when [l = pre ++ rel]. *)
Fixpoint strip_prefix (pre l : list string) : option (list string) :=
  match pre, l with
  | [], _ => Some l
  | a :: pre', b :: l' => if decide (a = b) then strip_prefix pre' l' else None
  | _ :: _, [] => None
  end.

(** The place below [dst] of a path strictly below [src]. *)
Definition reroot (src dst k : Path) : option Path :=
  if bool_decide (anchored k = anchored src) then
    match strip_prefix (parts src) (parts k) with
    | Some (c :: rel) => Some (extend dst (c :: rel))
    | _ => None
    end
  else None.

(** The tree below [src], placed below [dst]. *)
Definition copy_image (src dst : Path) (fs : FS) : list (Path * node) :=
  omap (λ kn, (λ k', (k', kn.2)) <$> reroot src dst kn.1) (map_to_list fs).

(** Where an entry is copied to: [shutil.copy2] puts a file whose
    destination is a directory inside that directory, under its own name. *)
Definition copy_target (fs : FS) (kn : Path * node) : Path * node :=
  match kn.2, fs !! kn.1 with
  | File _, Some Dir => (extend kn.1 [name_of kn.1], kn.2)
  | _, _ => kn
  end.

(** A directory can not replace a file, nor a file a directory. *)
Definition kind_conflict (fs : FS) (kn : Path * node) : bool :=
  match fs !! kn.1, kn.2 with
  | Some (File _), Dir => true
  | Some Dir, File _ => true
  | _, _ => false
  end.

(** [shutil.copytree(src, dst, dirs_exist_ok=True)]: the destination and the
    directories above it are created when missing, then every entry below
    [src] is copied to the same place below [dst]; files that are already
    there are overwritten, everything else below [dst] stays.  An entry that
    can not be copied makes the call raise once the others are done.  The
    source tree is read as it is when the call starts. *)
Definition copytree (src dst : Path) (fs : FS) : result FS :=
  if negb (path_exists fs src) then Raise (lookup_error fs src)
  else if negb (is_dir fs src) then Raise NotADirectoryError
  else
    fs1 ← mkdir_parents dst fs;
    let image := copy_target fs1 <$> copy_image src dst fs in
    if existsb (kind_conflict fs1) image then Raise ShutilError
    else Ok (list_to_map image ∪ fs1).

(** A name that patterns without a leading dot do not match. *)
Definition hidden (n : string) : bool :=
  match n with
  | String a _ => Ascii.eqb a "."
  | EmptyString => false
  end.

(** [glob.glob("*/" + file, root_dir=root)]: one result for every visible
    directory right below [root] that has an entry [file].  The results come
    in the order of the directory listing. *)
Definition glob_subdirs (file : string) (root : Path) (fs : FS) : list string :=
  if negb (is_dir fs root) then [] else
  omap (λ kn : Path * node,
          let k := kn.1 in
          if bool_decide (parts k ≠ [] ∧ parent k = root ∧ kn.2 = Dir)
             && negb (hidden (name_of k))
             && path_exists fs (extend k [file])
          then Some (name_of k +:+ "/" +:+ file)
          else None)
       (map_to_list fs).

(** ** Collaborators *)

(** The Jinja templates of the site, each as the function of the values it is
    rendered with.  A value that Python leaves out ([depth] on top-level
    pages) or that is [None] (an author string) is an [option]. *)
Record Templates : Type := {
  header_tmpl : string → option string → string;
  navbar_tmpl : option string → string;
  post_tmpl : string → string → string → option string → string → string → string;
  post_block_tmpl :
    string → string → string → string → option string → string → string → string;
  blog_tmpl : string → string → string → string → string;
  tag_tmpl : string → string → string;
  project_page_tmpl : string → string → string → string → string → string;
}.

(** What the interpreter and the libraries decide: the hash of strings, the
    order in which a set of built posts is walked, the JSON decoder and the
    document converter (source format, source text). *)
Record Runtime : Type := {
  str_hash : string → Z;
  set_iter : list PostBuildData → list PostBuildData;
  set_iter_perm : ∀ s, set_iter s ≡ₚ s;
  json_load : string → result json;
  pandoc_html : string → string → result string;
}.

Definition newline : string := String "010"%char "".

(** ** Projects: data *)

Record ProjectData : Type := mkProjectData {
  proj_path : Path;
  proj_directory : Path;
  proj_format : string;
  proj_static : option Path;
  proj_thumbnail : Path;
  name : string;
  proj_date : date;
  proj_description : string;
}.

Record ProjectHTML : Type := mkProjectHTML {
  proj_html_data : ProjectData;
  proj_src : string;
}.

Record ProjectBuildData : Type := mkProjectBuildData {
  proj_build_path : Path;
  proj_build_directory : Path;
  proj_data : ProjectData;
}.

(** [Path(proj_json["static_dir"])] has no test for [None]. *)
Definition parse_proj_json (proj_json : json) : result ProjectData :=
  path ← (v ← getitem proj_json "file_path"; Path_of_json v);
  directory ← (v ← getitem proj_json "proj_dir"; Path_of_json v);
  fmt ← getitem proj_json "format";
  static ← (v ← getitem proj_json "static_dir"; Path_of_json v);
  thumb ← (v ← getitem proj_json "thumbnail"; Path_of_json v);
  nm ← getitem proj_json "project";
  d ← getitem proj_json "day";
  m ← getitem proj_json "month";
  y ← getitem proj_json "year";
  dt ← (d ← int_of_json d; m ← int_of_json m; y ← int_of_json y;
        datetime_date d m y);
  descr ← getitem proj_json "description";
  fmt ← as_str "format" fmt;
  nm ← as_str "project" nm;
  descr ← as_str "description" descr;
  Ok {| proj_path := path; proj_directory := directory; proj_format := fmt;
        proj_static := Some static; proj_thumbnail := thumb; name := nm;
        proj_date := dt; proj_description := descr |}.

(** The title of the header of a project page.  The source writes
    [f"project.name - Alia Lescoulie"]: the f-string has no braces, so
    nothing of the project is substituted. *)
Definition project_header_title (proj : ProjectData) : string :=
  "project.name - Alia Lescoulie".

(** The title of the header of a post page,
    [f"{Post.post_data.title} - Alia Lescoulie"]. *)
Definition post_header_title (Post : PostHTML) : string :=
  title (post_data Post) +:+ " - Alia Lescoulie".

(** [post.data.project is not None and project.name in post.data.project] *)
Definition in_project (proj : ProjectData) (post : PostBuildData) : bool :=
  match project (data post) with
  | None => false
  | Some l => bool_decide (name proj ∈ l)
  end.

(** ** The pipeline *)

Section pipeline.
Context (T : Templates) (R : Runtime).

(** *** Posts *)

Definition parse_post (post_json_path : Path) (fs : FS) : result PostData :=
  text ← read_text post_json_path fs;
  post_json ← json_load R text;
  parse_post_json post_json.

Definition collect_posts (posts_src_dir : Path) (fs : FS)
  : result (list PostData) :=
  let post_list := glob_subdirs "post.json" posts_src_dir fs in
  if bool_decide (length post_list = 0%nat) then Ok []
  else
    mapR (λ json_path,
            parse_post (joinpath posts_src_dir (Path_of_string json_path)) fs)
         post_list.

Definition build_post_html (post_src_dir : Path) (fs : FS) (pd : PostData)
  : result PostHTML :=
  let post_src_path :=
    joinpaths post_src_dir [post_directory pd; post_path pd] in
  post_text ← read_text post_src_path fs;
  post_html ← pandoc_html R (post_format pd) post_text;
  Ok (mkPostHTML pd post_html).

Definition build_post_page (site_build_dir post_build_dir : Path)
    (Post : PostHTML) (fs : FS) : result (PostBuildData * FS) :=
  let header_text := header_tmpl T (post_header_title Post) (Some "../../") in
  author ← render_authors_string (authors (post_data Post));
  let post_text :=
    post_tmpl T header_text (navbar_tmpl T (Some "../../"))
      (title (post_data Post)) author
      (render_date_string (post_date (post_data Post))) (post_src Post) in
  let post_dir :=
    joinpaths site_build_dir [post_build_dir; post_directory (post_data Post)] in
  let post_file :=
    joinpath post_dir
      (Path_of_string (stem (post_path (post_data Post)) +:+ ".html")) in
  fs1 ← mkdir_parents post_dir fs;
  fs2 ← write_text post_file post_text fs1;
  Ok (mkPostBuildData post_file post_dir (post_data Post), fs2).

Definition copy_post_files (site_build_dir post_src_dir post_build_dir : Path)
    (post : PostBuildData) (fs : FS) : result FS :=
  match post_static (data post) with
  | None => Ok fs
  | Some static =>
      let new_static_dir :=
        joinpaths site_build_dir
          [post_build_dir; post_directory (data post); Path_of_string "static"] in
      fs1 ← (if negb (path_exists fs new_static_dir)
             then os_mkdir new_static_dir fs else Ok fs);
      copytree (joinpaths post_src_dir [post_directory (data post); static])
               new_static_dir fs1
  end.

(** [Path('.') if link_depth <= 0 else Path(link_depth * "../")] *)
Definition link_root (link_depth : Z) : Path :=
  if link_depth <=? 0 then Path_of_string "."
  else Path_of_string (str_repeat link_depth "../").

Definition render_tags (tgs : list string) (link_depth : Z) : string :=
  let root_dir := link_root link_depth in
  join ", "
    ((λ tag,
        tag_tmpl T
          (Path_str (joinpath root_dir (Path_of_string (tag +:+ ".html"))))
          tag) <$> tgs).

Definition render_block (post_build_dir : Path) (link_depth : Z)
    (post : PostBuildData) : result string :=
  let root_dir := link_root link_depth in
  author ← render_authors_string (authors (data post));
  Ok (post_block_tmpl T
        (title (data post))
        (Path_str (joinpaths root_dir
           [post_build_dir; post_directory (data post);
            post_thumbnail (data post)]))
        (Path_str (joinpaths root_dir
           [post_build_dir; post_directory (data post);
            Path_of_string (stem (post_path (data post)) +:+ ".html")]))
        (render_date_string (post_date (data post)))
        author
        (post_description (data post))
        (render_tags (tags (data post)) link_depth)).

Definition build_post_blocks (posts : list PostBuildData)
    (post_build_dir : Path) (link_depth : Z)
    (post_sort_lambda : PostBuildData → date) (reverse_cron : bool)
  : result (list string) :=
  let sorted_posts := sorted post_sort_lambda reverse_cron posts in
  mapR (render_block post_build_dir link_depth) sorted_posts.

(** The text of a listing page: the blocks are built with the defaults of
    [build_post_blocks], depth 0, sorted by date and [reverse_cron=True]. *)
Definition blog_page_text (posts : list PostBuildData) (post_build_dir : Path)
    (page_title : string) : result string :=
  post_blocks ← build_post_blocks posts post_build_dir 0 date_sort true;
  Ok (blog_tmpl T (header_tmpl T "Blog" None) (navbar_tmpl T None)
        page_title (join newline post_blocks)).

Definition build_blog_page (posts : list PostBuildData)
    (site_build_dir post_build_dir blog_page_path : Path)
    (page_title : string) (fs : FS) : result FS :=
  blog_page_text ← blog_page_text posts post_build_dir page_title;
  write_text (joinpath site_build_dir blog_page_path) blog_page_text fs.

(** [tags_map[tag].append(post)] *)
Definition tags_map_append (post : PostBuildData) (tag : string)
    (tags_map : gmap string (list PostBuildData))
  : result (gmap string (list PostBuildData)) :=
  match tags_map !! tag with
  | Some l => Ok (<[tag := l ++ [post]]> tags_map)
  | None => Raise (KeyError tag)
  end.

(** The set of all tags. *)
Definition tags_set (posts : list PostBuildData) : gset string :=
  list_to_set (posts ≫= λ post, tags (data post)).

(** The dictionary from each tag to the posts that carry it. *)
Definition tags_map (posts : list PostBuildData)
  : result (gmap string (list PostBuildData)) :=
  foldR (λ post m, foldR (tags_map_append post) (tags (data post)) m)
        posts (gset_to_gmap [] (tags_set posts)).

(** The dictionary is walked in the order its keys were inserted, which is
    the order in which the comprehension walked the set of tags. *)
Definition build_tags_pages (posts : list PostBuildData)
    (site_build_dir post_build_dir : Path) (fs : FS) : result FS :=
  tags_map ← tags_map posts;
  foldR (λ tag fs,
           tagged ← match tags_map !! tag with
                    | Some l => Ok l
                    | None => Raise (KeyError tag)
                    end;
           build_blog_page tagged site_build_dir post_build_dir
             (Path_of_string (tag +:+ ".html")) (tag +:+ " Blog Posts") fs)
        (elements (tags_set posts)) fs.

Definition build_blog (post_src_dir post_build_dir site_build_dir : Path)
    (fs : FS) : result (list PostBuildData * FS) :=
  posts ← collect_posts post_src_dir fs;
  if bool_decide (length posts = 0%nat) then Ok ([], fs)
  else
    htmls ← mapR (build_post_html post_src_dir fs) posts;
    '(built, fs1) ← mapS (build_post_page site_build_dir post_build_dir) htmls fs;
    fs2 ← foldR (copy_post_files site_build_dir post_src_dir post_build_dir)
                built fs1;
    fs3 ← build_blog_page built site_build_dir post_build_dir
            (Path_of_string "blog.html") "Blog" fs2;
    fs4 ← build_tags_pages built site_build_dir post_build_dir fs3;
    Ok (built, fs4).

(** *** Projects *)

Definition parse_proj (proj_json_path : Path) (fs : FS) : result ProjectData :=
  text ← read_text proj_json_path fs;
  proj_json ← json_load R text;
  parse_proj_json proj_json.

Definition collect_projects (proj_src_dir : Path) (fs : FS)
  : result (list ProjectData) :=
  mapR (λ json_path,
          parse_proj (joinpath proj_src_dir (Path_of_string json_path)) fs)
       (glob_subdirs "proj.json" proj_src_dir fs).

(** The posts of a project, as the set the loop builds. *)
Definition proj_posts (proj : ProjectData) (posts : list PostBuildData)
  : list PostBuildData :=
  foldl (λ s post,
           if in_project proj post then pyset_add (str_hash R) post s else s)
        [] posts.

Definition build_project_page_html (proj : ProjectData)
    (posts : list PostBuildData) (projects_src_dir post_build_dir : Path)
    (fs : FS) : result ProjectHTML :=
  let posts_of_proj := proj_posts proj posts in
  let proj_src_path :=
    joinpaths projects_src_dir [proj_directory proj; proj_path proj] in
  proj_text ← read_text proj_src_path fs;
  proj_html ← pandoc_html R (proj_format proj) proj_text;
  proj_post_blocks ←
    build_post_blocks (set_iter R posts_of_proj) post_build_dir 2
                      date_sort false;
  Ok (mkProjectHTML proj
        (project_page_tmpl T
           (header_tmpl T (project_header_title proj) (Some "../../"))
           (navbar_tmpl T (Some "../../"))
           (name proj) proj_html (join newline proj_post_blocks))).

Definition write_project (site_build_dir projects_build_dir : Path)
    (ph : ProjectHTML) (fs : FS) : result (ProjectBuildData * FS) :=
  let proj_dir :=
    joinpaths site_build_dir
      [projects_build_dir; proj_directory (proj_html_data ph)] in
  let proj_file :=
    joinpath proj_dir
      (Path_of_string (stem (proj_path (proj_html_data ph)) +:+ ".html")) in
  fs1 ← mkdir_parents proj_dir fs;
  fs2 ← write_text proj_file (proj_src ph) fs1;
  Ok (mkProjectBuildData proj_file proj_dir (proj_html_data ph), fs2).

Definition copy_project_files
    (site_build_dir projects_src_dir projects_build_dir : Path)
    (pb : ProjectBuildData) (fs : FS) : result FS :=
  match proj_static (proj_data pb) with
  | None => Ok fs
  | Some static =>
      let new_static_dir :=
        joinpaths site_build_dir
          [projects_build_dir; proj_directory (proj_data pb);
           Path_of_string "static"] in
      fs1 ← (if negb (path_exists fs new_static_dir)
             then os_mkdir new_static_dir fs else Ok fs);
      copytree
        (joinpaths projects_src_dir [proj_directory (proj_data pb); static])
        new_static_dir fs1
  end.

End pipeline.

(** ** Sample collaborators and inputs

    Templates that write their values out with separators, a runtime with a
    constant hash (every title collides), and a few descriptors; they serve
    the examples further down. *)

Definition opt_str (o : option string) : string :=
  match o with Some s => s | None => "None" end.

Definition plain_templates : Templates := {|
  header_tmpl := λ ttl depth, "<head " +:+ opt_str depth +:+ ">" +:+ ttl;
  navbar_tmpl := λ depth, "<nav " +:+ opt_str depth +:+ ">";
  post_tmpl := λ h n ttl author dt html,
    join "|" [h; n; ttl; opt_str author; dt; html];
  post_block_tmpl := λ ttl img link dt author summary tgs,
    join "|" [ttl; img; link; dt; opt_str author; summary; tgs];
  blog_tmpl := λ h n ttl posts, join "|" [h; n; ttl; posts];
  tag_tmpl := λ link tag, link +:+ "#" +:+ tag;
  project_page_tmpl := λ h n nm text posts, join "|" [h; n; nm; text; posts];
|}.

Definition plain_runtime : Runtime := {|
  str_hash := λ _, 0;
  set_iter := λ s, s;
  set_iter_perm := λ s, reflexivity s;
  json_load := λ _, Raise JSONDecodeError;
  pandoc_html := λ _ text, Ok text;
|}.

Definition sample_post (dir ttl : string) (d : date)
    (projs : option (list string)) (tgs : list string) : PostBuildData :=
  let pd := {| post_path := Path_of_string "post.md";
               post_directory := Path_of_string dir;
               post_format := "markdown";
               post_static := None;
               title := ttl;
               authors := ["Ann"];
               post_date := d;
               post_description := "";
               post_thumbnail := Path_of_string "thumb.png";
               project := projs;
               tags := tgs |} in
  {| build_path := Path_of_string ("site_out/posts/" +:+ dir +:+ "/post.html");
     build_directory := Path_of_string ("site_out/posts/" +:+ dir);
     data := pd |}.

Definition sample_project (nm : string) : ProjectData :=
  {| proj_path := Path_of_string "proj.md";
     proj_directory := Path_of_string nm;
     proj_format := "markdown";
     proj_static := Some (Path_of_string "static");
     proj_thumbnail := Path_of_string "thumb.png";
     name := nm;
     proj_date := mkDate 2024 1 1;
     proj_description := "" |}.

Definition sample_proj_json (static_dir : json) : json :=
  JObj [("file_path", JStr "proj.md"); ("proj_dir", JStr "siteA");
        ("format", JStr "markdown"); ("static_dir", static_dir);
        ("thumbnail", JStr "thumb.png"); ("project", JStr "siteA");
        ("day", JInt 1); ("month", JInt 1); ("year", JInt 2024);
        ("description", JStr "")].

(** Two posts of project siteA with the same title, in different
    directories. *)
Definition notes_2023 : PostBuildData :=
  sample_post "notes-2023" "Notes" (mkDate 2023 5 1) (Some ["siteA"]) ["rust"].
Definition notes_2024 : PostBuildData :=
  sample_post "notes-2024" "Notes" (mkDate 2024 5 1) (Some ["siteA"]) ["rust"; "webdev"].

(** Identity by title: elements of a set with equal titles are one element. *)
Definition title_is_identity (s : list PostBuildData) : Prop :=
  ∀ p q, p ∈ s → q ∈ s → title (data p) = title (data q) → p = q.

(** A source tree with a directory of drafts but no post descriptor. *)
Definition fs_without_posts : FS :=
  list_to_map
    [(Path_of_string "blog_posts", Dir);
     (Path_of_string "blog_posts/drafts", Dir);
     (Path_of_string "blog_posts/drafts/idea.md", File "to do");
     (Path_of_string "site_out", Dir);
     (Path_of_string "site_out/index.html", File "<html>")].


Definition january_post : PostBuildData :=
  sample_post "january" "Winter" (mkDate 2024 1 1) None [].
Definition june_post : PostBuildData :=
  sample_post "june" "Summer" (mkDate 2024 6 1) None [].

(** The posts that carry a tag, in the order of the posts; a post that lists
    the tag several times is there as many times. *)
Definition tagged_with (tag : string) (posts : list PostBuildData)
  : list PostBuildData :=
  posts ≫= λ post, (λ _, post) <$> filter (λ t, t = tag) (tags (data post)).

(** The output file of the page of a tag. *)
Definition tag_page_path (site_build_dir : Path) (tag : string) : Path :=
  joinpath site_build_dir (Path_of_string (tag +:+ ".html")).

Definition rust_webdev_post : PostBuildData :=
  sample_post "wasm" "Wasm" (mkDate 2024 2 2) None ["rust"; "webdev"].
Definition python_post : PostBuildData :=
  sample_post "py" "Py" (mkDate 2024 3 3) None ["python"].

(** *** Staging of static assets: when it succeeds and what it leaves

    [src] is the assets directory in the source tree, [dst] the [static]
    directory of the item in the output tree. *)

(** What [copy_post_files] and [copy_project_files] do with an item that
    has assets. *)
Definition stage (src dst : Path) (fs : FS) : result FS :=
  fs1 ← (if negb (path_exists fs dst) then os_mkdir dst fs else Ok fs);
  copytree src dst fs1.

(** Neither tree lies inside the other. *)
Definition separate (src dst : Path) : bool :=
  negb (bool_decide (anchored src = anchored dst))
  || (bool_decide (strip_prefix (parts src) (parts dst) = None)
      && bool_decide (strip_prefix (parts dst) (parts src) = None)).

(** The source is a directory, the directories above the destination exist,
    the destination is absent or a directory, no file of one tree meets a
    directory of the other, and the trees are separate. *)
Definition can_stage (src dst : Path) (fs : FS) : bool :=
  is_dir fs src
  && forallb (λ p, bool_decide (p = dst) || is_dir fs p) (ancestors dst)
  && (negb (path_exists fs dst) || is_dir fs dst)
  && negb (existsb (kind_conflict fs) (copy_image src dst fs))
  && separate src dst.

(** [fs'] is [fs] with the tree below [src] copied below [dst]: every entry
    below [src] is at the same place below [dst], [dst] is a directory, and
    every other path is as it was. *)
Definition staged (src dst : Path) (fs fs' : FS) : Prop :=
  (∀ rel n, rel ≠ [] → fs !! extend src rel = Some n →
            fs' !! extend dst rel = Some n)
  ∧ fs' !! dst = Some Dir
  ∧ (∀ p, p ≠ dst →
          (∀ rel, rel ≠ [] → p = extend dst rel → fs !! extend src rel = None) →
          fs' !! p = fs !! p).

(** A post with assets, its sources, and an output tree in which the page of
    the post is written and an older copy of the assets is present. *)
Definition post_with_assets : PostBuildData :=
  let p := sample_post "trip" "Trip" (mkDate 2024 4 4) None [] in
  {| build_path := build_path p; build_directory := build_directory p;
     data := {| post_path := post_path (data p);
                post_directory := post_directory (data p);
                post_format := post_format (data p);
                post_static := Some (Path_of_string "static");
                title := title (data p); authors := authors (data p);
                post_date := post_date (data p);
                post_description := post_description (data p);
                post_thumbnail := post_thumbnail (data p);
                project := project (data p); tags := tags (data p) |} |}.

Definition fs_with_assets : FS :=
  list_to_map
    [(Path_of_string "blog_posts", Dir);
     (Path_of_string "blog_posts/trip", Dir);
     (Path_of_string "blog_posts/trip/post.md", File "text");
     (Path_of_string "blog_posts/trip/static", Dir);
     (Path_of_string "blog_posts/trip/static/map.png", File "new map");
     (Path_of_string "blog_posts/trip/static/day1", Dir);
     (Path_of_string "blog_posts/trip/static/day1/a.jpg", File "photo");
     (Path_of_string "site_out", Dir);
     (Path_of_string "site_out/posts", Dir);
     (Path_of_string "site_out/posts/trip", Dir);
     (Path_of_string "site_out/posts/trip/post.html", File "<html>");
     (Path_of_string "site_out/posts/trip/static", Dir);
     (Path_of_string "site_out/posts/trip/static/map.png", File "old map");
     (Path_of_string "site_out/posts/trip/static/old.png", File "kept")].

(** An output directory that is there and empty. *)
Definition fs_site_out : FS := {[ Path_of_string "site_out" := Dir ]}.

(** A runtime whose JSON decoder returns one given value. *)
Definition runtime_decoding (j : json) : Runtime := {|
  str_hash := λ _, 0;
  set_iter := λ s, s;
  set_iter_perm := λ s, reflexivity s;
  json_load := λ _, Ok j;
  pandoc_html := λ _ text, Ok text;
|}.

Definition fs_with_project : FS :=
  list_to_map
    [(Path_of_string "projects", Dir);
     (Path_of_string "projects/siteA", Dir);
     (Path_of_string "projects/siteA/proj.json", File "{...}");
     (Path_of_string "projects/siteA/proj.md", File "about A")].

(** ** The output directory, the site assets and the scaffolding commands *)

(** [os.remove(p)] *)
Definition os_remove (p : Path) (fs : FS) : result FS :=
  match parts p with
  | [] => Raise IsADirectoryError
  | _ =>
      match fs !! p with
      | Some (File _) => Ok (delete p fs)
      | Some Dir => Raise IsADirectoryError
      | None => Raise (lookup_error fs p)
      end
  end.

(** [make_build_dir]: an existing directory is left alone, a file of that
    name is removed first, and the directory is made with [os.mkdir]. *)
Definition make_build_dir (build_dir : Path) (fs : FS) : result FS :=
  if path_exists fs build_dir && is_dir fs build_dir then Ok fs
  else
    fs1 ← (if path_exists fs build_dir && negb (is_dir fs build_dir)
           then os_remove build_dir fs else Ok fs);
    os_mkdir build_dir fs1.

(** [k] is [p] or lies below it. *)
Definition within (p k : Path) : bool :=
  bool_decide (anchored k = anchored p)
  && bool_decide (is_Some (strip_prefix (parts p) (parts k))).

(** [shutil.rmtree(p)]: the directory and everything below it go.  The
    working directory and the root can not be removed; [os.rmdir] then
    raises a plain [OSError], for which [ShutilError] stands here. *)
Definition rmtree (p : Path) (fs : FS) : result FS :=
  match parts p with
  | [] => Raise ShutilError
  | _ =>
      match fs !! p with
      | Some Dir => Ok (filter (λ kn, within p kn.1 = false) fs)
      | Some (File _) => Raise NotADirectoryError
      | None => Raise (lookup_error fs p)
      end
  end.

(** [clean] *)
Definition clean (build_dir : Path) (fs : FS) : result FS :=
  if path_exists fs build_dir then rmtree build_dir fs else Ok fs.

(** A file system as the operating system keeps it: every entry has a name
    and lies in a directory. *)
Definition well_formed (fs : FS) : bool :=
  forallb (λ kn : Path * node,
             negb (bool_decide (parts kn.1 = [])) && is_dir fs (parent kn.1))
          (map_to_list fs).

(** [shutil.copytree(src, dst)] with [dirs_exist_ok] left at [False]: the
    destination must not exist, and no directory of the copy may be there
    already. *)
Definition copytree_new (src dst : Path) (fs : FS) : result FS :=
  if negb (path_exists fs src) then Raise (lookup_error fs src)
  else if negb (is_dir fs src) then Raise NotADirectoryError
  else if path_exists fs dst then Raise FileExistsError
  else
    fs1 ← mkdir_parents dst fs;
    let image := copy_target fs1 <$> copy_image src dst fs in
    if existsb (λ kn : Path * node,
                  bool_decide (kn.2 = Dir) && path_exists fs1 kn.1) image
       || existsb (kind_conflict fs1) image
    then Raise ShutilError
    else Ok (list_to_map image ∪ fs1).

(** [copy_static] *)
Definition copy_static (static_dir build_dir : Path) (fs : FS) : result FS :=
  fs1 ← make_build_dir build_dir fs;
  copytree_new static_dir (joinpath build_dir (Path_of_string "static")) fs1.

(** [shutil.copyfile(src, dst)] *)
Definition copyfile (src dst : Path) (fs : FS) : result FS :=
  if bool_decide (src = dst) then Raise ShutilError
  else text ← read_text src fs; write_text dst text fs.

Definition dquote : string := String "034"%char "".

(** The commands [n_post] and [n_proj] of [utils.py]: a new directory for a
    post or a project with an empty [static] directory and a copy of the
    descriptor template. *)
Definition n_post (name : string) (post_dir templates_dir : Path)
    (post_template : string) (fs : FS) : result FS :=
  let post_path := joinpath post_dir (Path_of_string name) in
  if path_exists fs post_path then
    Raise (ValueError ("Post already exists at " +:+ dquote
                       +:+ Path_str post_path +:+ dquote))
  else
    fs1 ← os_mkdir post_path fs;
    fs2 ← os_mkdir (joinpath post_path (Path_of_string "static")) fs1;
    copyfile (joinpath templates_dir (Path_of_string post_template))
             (joinpath post_path (Path_of_string "post.json")) fs2.

Definition n_proj (name : string) (proj_dir templates_dir : Path)
    (proj_template : string) (fs : FS) : result FS :=
  let proj_path := joinpath proj_dir (Path_of_string name) in
  if path_exists fs proj_path then
    Raise (ValueError ("Project already exists at " +:+ dquote
                       +:+ Path_str proj_path +:+ dquote))
  else
    fs1 ← os_mkdir proj_path fs;
    fs2 ← os_mkdir (joinpath proj_path (Path_of_string "static")) fs1;
    copyfile (joinpath templates_dir (Path_of_string proj_template))
             (joinpath proj_path (Path_of_string "proj.json")) fs2.

(** ** The projects listing and the projects build *)

(** The two templates of the projects listing: the block of a project
    (title, image link, link, date, summary) and the page (header, navbar,
    blocks). *)
Record ProjectTemplates : Type := {
  project_block_tmpl : string → string → string → string → string → string;
  projects_tmpl : string → string → string → string;
}.

Definition cron_sort (x : ProjectBuildData) : date := proj_date (proj_data x).

Definition render_project_block (PT : ProjectTemplates)
    (projects_build_dir : Path) (pb : ProjectBuildData) : string :=
  project_block_tmpl PT
    (name (proj_data pb))
    (Path_str (joinpaths projects_build_dir
                 [proj_directory (proj_data pb); proj_thumbnail (proj_data pb)]))
    (Path_str (joinpaths projects_build_dir
                 [proj_directory (proj_data pb);
                  Path_of_string (stem (proj_path (proj_data pb)) +:+ ".html")]))
    (render_date_string (proj_date (proj_data pb)))
    (proj_description (proj_data pb)).

(** The text of [projects.html]. *)
Definition projects_page_text (T : Templates) (PT : ProjectTemplates)
    (projects : list ProjectBuildData) (projects_build_dir : Path) : string :=
  let projects := sorted cron_sort false projects in
  let proj_blocks := render_project_block PT projects_build_dir <$> projects in
  projects_tmpl PT (header_tmpl T "Projects - Alia Lescoulie" None)
    (navbar_tmpl T None) (join newline proj_blocks).

Definition build_projects_page (T : Templates) (PT : ProjectTemplates)
    (projects : list ProjectBuildData) (site_build_dir projects_build_dir : Path)
    (fs : FS) : result FS :=
  write_text (joinpath site_build_dir (Path_of_string "projects.html"))
    (projects_page_text T PT projects projects_build_dir) fs.

Definition build_projects (T : Templates) (PT : ProjectTemplates) (R : Runtime)
    (posts : list PostBuildData)
    (projects_src_dir site_build_dir posts_build_dir projects_build_dir : Path)
    (fs : FS) : result FS :=
  projs_data ← collect_projects R projects_src_dir fs;
  proj_html ← mapR (λ proj,
                      build_project_page_html T R proj posts projects_src_dir
                        posts_build_dir fs) projs_data;
  '(proj_builds, fs1) ← mapS (write_project site_build_dir projects_build_dir)
                             proj_html fs;
  fs2 ← foldR (copy_project_files site_build_dir projects_src_dir
                 projects_build_dir) proj_builds fs1;
  build_projects_page T PT proj_builds site_build_dir projects_build_dir fs2.

(** ** Notions for the further properties *)

(** A date that [datetime.date] accepts. *)
Definition valid_date (d : date) : Prop :=
  1 ≤ year d ≤ 9999 ∧ 1 ≤ month d ≤ 12
  ∧ 1 ≤ day d ≤ days_in_month (year d) (month d).

(** The keys that [parse_post] and [parse_proj] read. *)
Definition post_keys : list string :=
  ["file_path"; "post_dir"; "format"; "static_dir"; "title"; "authors";
   "day"; "month"; "year"; "description"; "thumbnail"; "projects"; "tags"].
Definition proj_keys : list string :=
  ["file_path"; "proj_dir"; "format"; "static_dir"; "thumbnail"; "project";
   "day"; "month"; "year"; "description"].

Definition sample_post_json (static_dir authors_json : json) : json :=
  JObj [("file_path", JStr "post.md"); ("post_dir", JStr "trip");
        ("format", JStr "markdown"); ("static_dir", static_dir);
        ("title", JStr "Trip"); ("authors", authors_json);
        ("day", JInt 29); ("month", JInt 2); ("year", JInt 2024);
        ("description", JStr ""); ("thumbnail", JStr "thumb.png");
        ("projects", JNull); ("tags", JList [JStr "rust"])].

(** Where [build_post_page] puts the page of a post, and its text for a
    given author string. *)
Definition post_page_dir (site_build_dir post_build_dir : Path) (pd : PostData)
  : Path :=
  joinpaths site_build_dir [post_build_dir; post_directory pd].
Definition post_page_file (site_build_dir post_build_dir : Path) (pd : PostData)
  : Path :=
  joinpath (post_page_dir site_build_dir post_build_dir pd)
           (Path_of_string (stem (post_path pd) +:+ ".html")).
Definition post_page_text (T : Templates) (Post : PostHTML)
    (author : option string) : string :=
  post_tmpl T (header_tmpl T (post_header_title Post) (Some "../../"))
    (navbar_tmpl T (Some "../../")) (title (post_data Post)) author
    (render_date_string (post_date (post_data Post))) (post_src Post).



Definition january_html : PostHTML :=
  {| post_data := data january_post; post_src := "<p>snow</p>" |}.

(** A source tree with site assets and an output tree left by an earlier
    build. *)
Definition fs_site : FS :=
  list_to_map
    [(Path_of_string "site_src", Dir);
     (Path_of_string "site_src/static", Dir);
     (Path_of_string "site_src/static/style.css", File "body {}");
     (Path_of_string "site_src/static/img", Dir);
     (Path_of_string "site_src/static/img/logo.png", File "logo");
     (Path_of_string "site_out", Dir);
     (Path_of_string "site_out/static", Dir);
     (Path_of_string "site_out/static/old.css", File "stale");
     (Path_of_string "site_out/blog.html", File "<html>")].

(** The same source tree before the first build: no output directory. *)
Definition fs_site_src : FS :=
  list_to_map
    [(Path_of_string "site_src", Dir);
     (Path_of_string "site_src/static", Dir);
     (Path_of_string "site_src/static/style.css", File "body {}");
     (Path_of_string "site_src/static/img", Dir);
     (Path_of_string "site_src/static/img/logo.png", File "logo")].

(** An output path whose parent is a regular file. *)
Definition fs_file_above : FS :=
  {[ Path_of_string "out" := File "notes" ]}.

(** The common shape of [n_post] and [n_proj]. *)
Definition scaffold (what file : string) (name : string)
    (dir templates_dir : Path) (template : string) (fs : FS) : result FS :=
  let new_path := joinpath dir (Path_of_string name) in
  if path_exists fs new_path then
    Raise (ValueError (what +:+ " already exists at " +:+ dquote
                       +:+ Path_str new_path +:+ dquote))
  else
    fs1 ← os_mkdir new_path fs;
    fs2 ← os_mkdir (joinpath new_path (Path_of_string "static")) fs1;
    copyfile (joinpath templates_dir (Path_of_string template))
             (joinpath new_path (Path_of_string file)) fs2.

(** A source tree with the descriptor template and no post yet. *)
Definition fs_scaffold : FS :=
  list_to_map
    [(Path_of_string "blog_posts", Dir);
     (Path_of_string "projects", Dir);
     (Path_of_string "templates", Dir);
     (Path_of_string "templates/post_temp.json", File "{post}");
     (Path_of_string "templates/proj_temp.json", File "{proj}")].

Definition plain_project_templates : ProjectTemplates := {|
  project_block_tmpl := λ ttl img link dt summary,
    join "|" [ttl; img; link; dt; summary];
  projects_tmpl := λ h n blocks, join "|" [h; n; blocks];
|}.

(** The order of the projects listing. *)
Definition oldest_project_first (a b : ProjectBuildData) : Prop :=
  date_leb (cron_sort a) (cron_sort b) = true.

(** Two nodes of the same kind: two directories or two files. *)
Definition same_kind (a b : node) : bool :=
  match a, b with
  | Dir, Dir => true
  | File _, File _ => true
  | _, _ => false
  end.

(** [fs'] has every entry of [fs], each with its kind: directories are still
    directories and files are still files, maybe with another content. *)
Definition keeps (fs fs' : FS) : Prop :=
  ∀ p n, fs !! p = Some n → ∃ n', fs' !! p = Some n' ∧ same_kind n n' = true.

(** A source tree with one post, whose descriptor the decoder below returns;
    the post has the tag [blog]. *)
Definition blog_tagged_json : json :=
  JObj [("file_path", JStr "post.md"); ("post_dir", JStr "trip");
        ("format", JStr "markdown"); ("static_dir", JNull);
        ("title", JStr "Trip"); ("authors", JList [JStr "Ann"]);
        ("day", JInt 4); ("month", JInt 4); ("year", JInt 2024);
        ("description", JStr ""); ("thumbnail", JStr "thumb.png");
        ("projects", JNull); ("tags", JList [JStr "blog"])].

Definition fs_one_post : FS :=
  list_to_map
    [(Path_of_string "blog_posts", Dir);
     (Path_of_string "blog_posts/trip", Dir);
     (Path_of_string "blog_posts/trip/post.json", File "{...}");
     (Path_of_string "blog_posts/trip/post.md", File "text");
     (Path_of_string "site_out", Dir);
     (Path_of_string "site_out/index.html", File "<html>")].

Definition siteA_html : ProjectHTML :=
  {| proj_html_data := sample_project "siteA"; proj_src := "<h1>siteA</h1>" |}.

(** ** Results and binds *)

Lemma bind_Ok {A B} (m : result A) (f : A → result B) (b : B) :
  m ≫= f = Ok b ↔ ∃ a, m = Ok a ∧ f a = Ok b.
Proof.
  destruct m as [a|e]; simpl; split.
  - intros H. by exists a.
  - by intros (a' & [= ->] & H).
  - intros H. discriminate H.
  - by intros (a' & [=] & _).
Qed.

Lemma bind_raises_l {A B} (m : result A) (f : A → result B) :
  raises m → raises (m ≫= f).
Proof. by destruct m. Qed.

Lemma bind_raises_r {A B} (m : result A) (f : A → result B) :
  (∀ a, m = Ok a → raises (f a)) → raises (m ≫= f).
Proof. destruct m as [a|e]; simpl; [intros H; by apply H | done]. Qed.

Lemma mapR_Ok_length {A B} (f : A → result B) (l : list A) (l' : list B) :
  mapR f l = Ok l' → length l' = length l.
Proof.
  revert l'. induction l as [|x l IH]; intros l' H; simpl in H.
  - by injection H as <-.
  - apply bind_Ok in H as (y & _ & H).
    apply bind_Ok in H as (ys & Hys & [= <-]).
    simpl. f_equal. by apply IH.
Qed.

(** ** Authors *)


(** C1 (the code at the input of the claim): the list of the three authors
    Ann, Bo and Cy is not rendered as a string; the call returns [None],
    because the branch that joins the names is guarded by
    [len(author_list) < 1]. *)
Theorem render_authors_string_three :
  render_authors_string ["Ann"; "Bo"; "Cy"] = Ok None.
Proof. reflexivity. Qed.

(** What the unreachable branch computes for the same list: the names end in
    [", "] and are joined with [" "], which leaves two spaces between them. *)
Example join_authors_three :
  join_authors ["Ann"; "Bo"; "Cy"] = "Ann,  Bo, and Cy".
Proof. reflexivity. Qed.

Lemma render_authors_string_Ok (author_list : list string) :
  author_list ≠ [] → ∃ a, render_authors_string author_list = Ok a.
Proof.
  destruct author_list as [|a [|b l]]; [done|by eexists..].
Qed.

(** C8: a call with the empty author list raises [ValueError], and the empty
    list is the only one for which the call raises. *)
Theorem render_authors_string_empty :
  render_authors_string [] = Raise (ValueError "No authors provided")
  ∧ ∀ author_list, raises (render_authors_string author_list) ↔ author_list = [].
Proof.
  split; [reflexivity|].
  intros l. unfold render_authors_string.
  destruct l as [|a [|b l]]; simpl; split; done.
Qed.

(** ** The header of a project page *)

(** C3 (the code, for every project): whenever a project page is composed,
    its header is rendered with the fixed title
    ["project.name - Alia Lescoulie"], whatever the name of the project; the
    name only reaches the [project_name] value of the page template. *)
Theorem build_project_page_html_header_title
    (T : Templates) (R : Runtime) (proj : ProjectData)
    (posts : list PostBuildData) (projects_src_dir post_build_dir : Path)
    (fs : FS) :
  match build_project_page_html T R proj posts projects_src_dir post_build_dir fs with
  | Ok page =>
      ∃ proj_html blocks,
        proj_src page =
          project_page_tmpl T
            (header_tmpl T "project.name - Alia Lescoulie" (Some "../../"))
            (navbar_tmpl T (Some "../../")) (name proj) proj_html blocks
  | Raise _ => True
  end.
Proof.
  destruct (build_project_page_html _ _ _ _ _ _ _) as [page|e] eqn:H; [|done].
  unfold build_project_page_html in H.
  apply bind_Ok in H as (text & _ & H).
  apply bind_Ok in H as (html & _ & H).
  apply bind_Ok in H as (blocks & _ & [= <-]).
  by exists html, (join newline blocks).
Qed.

(** Two projects with distinct names get the same header on a file system
    that holds their sources. *)
Example project_pages_share_header :
  let fs : FS :=
    list_to_map
      [(Path_of_string "projects", Dir);
       (Path_of_string "projects/siteA", Dir);
       (Path_of_string "projects/siteA/proj.md", File "about A");
       (Path_of_string "projects/siteB", Dir);
       (Path_of_string "projects/siteB/proj.md", File "about B")] in
  let page nm :=
    build_project_page_html plain_templates plain_runtime (sample_project nm) []
      (Path_of_string "projects") (Path_of_string "posts") fs in
  page "siteA"
    = Ok (mkProjectHTML (sample_project "siteA")
            "<head ../../>project.name - Alia Lescoulie|<nav ../../>|siteA|about A|")
  ∧ page "siteB"
    = Ok (mkProjectHTML (sample_project "siteB")
            "<head ../../>project.name - Alia Lescoulie|<nav ../../>|siteB|about B|").
Proof. split; vm_compute; reflexivity. Qed.

(** ** Project descriptors *)

Lemma parse_proj_json_static (proj_json : json) (d : ProjectData) :
  parse_proj_json proj_json = Ok d → is_Some (proj_static d).
Proof.
  unfold parse_proj_json. intros H.
  repeat (apply bind_Ok in H as (? & _ & H)).
  injection H as <-. simpl. eauto.
Qed.

Lemma parse_proj_json_static_null (proj_json : json) :
  getitem proj_json "static_dir" = Ok JNull → raises (parse_proj_json proj_json).
Proof.
  intros Hnull. unfold parse_proj_json.
  do 3 (apply bind_raises_r; intros ? _).
  apply bind_raises_l. by rewrite Hnull.
Qed.

(** C9: a project descriptor whose [static_dir] is null makes [parse_proj]
    raise; every [ProjectData] that [parse_proj] returns, and so every one
    that [collect_projects] returns, has a static path, and
    [copy_project_files] then takes its copying branch. *)
Theorem parse_proj_static_never_None (R : Runtime) (proj_json_path : Path) (fs : FS) :
  (∀ text proj_json,
     read_text proj_json_path fs = Ok text →
     json_load R text = Ok proj_json →
     getitem proj_json "static_dir" = Ok JNull →
     raises (parse_proj R proj_json_path fs))
  ∧ (∀ d,
       parse_proj R proj_json_path fs = Ok d →
       ∃ static,
         proj_static d = Some static
         ∧ ∀ site_build_dir projects_src_dir projects_build_dir pb fs',
             proj_data pb = d →
             let new_static_dir :=
               joinpaths site_build_dir
                 [projects_build_dir; proj_directory d; Path_of_string "static"] in
             copy_project_files site_build_dir projects_src_dir
               projects_build_dir pb fs'
             = (fs1 ← (if negb (path_exists fs' new_static_dir)
                       then os_mkdir new_static_dir fs' else Ok fs');
                copytree (joinpaths projects_src_dir [proj_directory d; static])
                         new_static_dir fs1))
  ∧ (∀ proj_src_dir projs,
       collect_projects R proj_src_dir fs = Ok projs →
       Forall (λ d, is_Some (proj_static d)) projs).
Proof.
  split_and!.
  - intros text proj_json Hread Hload Hnull. unfold parse_proj.
    rewrite Hread. simpl. rewrite Hload. simpl.
    by apply parse_proj_json_static_null.
  - intros d H. unfold parse_proj in H.
    apply bind_Ok in H as (text & _ & H).
    apply bind_Ok in H as (proj_json & _ & H).
    apply parse_proj_json_static in H as [static Hs].
    exists static. split; [done|].
    intros site src bd pb fs' <-. unfold copy_project_files.
    by rewrite Hs.
  - intros dir projs. unfold collect_projects.
    generalize (glob_subdirs "proj.json" dir fs). intros l. revert projs.
    induction l as [|json_path l IH]; intros projs H; simpl in H.
    + injection H as <-. constructor.
    + apply bind_Ok in H as (d & Hd & H).
      apply bind_Ok in H as (ds & Hds & [= <-]).
      constructor; [|by apply IH].
      unfold parse_proj in Hd.
      apply bind_Ok in Hd as (text & _ & Hd).
      apply bind_Ok in Hd as (proj_json & _ & Hd).
      by apply parse_proj_json_static in Hd.
Qed.

(** The sample descriptor with and without a static directory. *)
Example parse_proj_json_sample :
  parse_proj_json (sample_proj_json (JStr "static")) = Ok (sample_project "siteA")
  ∧ parse_proj_json (sample_proj_json JNull) = Raise TypeError.
Proof. split; vm_compute; reflexivity. Qed.

(** C9 at the sample descriptor of project siteA. *)
Lemma parse_proj_static_never_None_witness :
  raises (parse_proj (runtime_decoding (sample_proj_json JNull))
            (Path_of_string "projects/siteA/proj.json") fs_with_project)
  ∧ ∃ static,
      proj_static (sample_project "siteA") = Some static.
Proof.
  split.
  - apply (parse_proj_static_never_None
             (runtime_decoding (sample_proj_json JNull))
             (Path_of_string "projects/siteA/proj.json") fs_with_project)
      with (text := "{...}") (proj_json := sample_proj_json JNull);
      reflexivity.
  - destruct (parse_proj_static_never_None
                (runtime_decoding (sample_proj_json (JStr "static")))
                (Path_of_string "projects/siteA/proj.json") fs_with_project)
      as (_ & H & _).
    destruct (H (sample_project "siteA")) as (static & Hstatic & _);
      [vm_compute; reflexivity|].
    by exists static.
Defined.

(** ** An empty collection of posts *)

(** C10: when the glob finds no [post.json], [build_blog] returns the empty
    list and leaves the file system as it was. *)
Theorem build_blog_no_posts (T : Templates) (R : Runtime)
    (post_src_dir post_build_dir site_build_dir : Path) (fs : FS) :
  glob_subdirs "post.json" post_src_dir fs = [] →
  collect_posts R post_src_dir fs = Ok []
  ∧ build_blog T R post_src_dir post_build_dir site_build_dir fs = Ok ([], fs).
Proof.
  intros Hglob.
  assert (collect_posts R post_src_dir fs = Ok []) as Hc.
  { unfold collect_posts. by rewrite Hglob. }
  split; [done|].
  unfold build_blog. by rewrite Hc.
Qed.

(** C10 at a source tree that holds drafts but no descriptor. *)
Lemma build_blog_no_posts_witness :
  build_blog plain_templates plain_runtime (Path_of_string "blog_posts")
    (Path_of_string "posts") (Path_of_string "site_out") fs_without_posts
  = Ok ([], fs_without_posts).
Proof.
  apply (build_blog_no_posts plain_templates plain_runtime
           (Path_of_string "blog_posts") (Path_of_string "posts")
           (Path_of_string "site_out") fs_without_posts).
  vm_compute. reflexivity.
Defined.

(** ** The posts of a project *)

Section proj_posts.
Context (R : Runtime) (proj : ProjectData).

Lemma pyset_contains_elem_of (h : string → Z) (s : list PostBuildData) x :
  pyset_contains h s x = bool_decide (x ∈ s).
Proof.
  unfold pyset_contains. induction s as [|y s IH]; simpl.
  - done.
  - rewrite IH. destruct (decide (y = x)) as [->|Hne].
    + rewrite Z.eqb_refl, (bool_decide_eq_true_2 (x = x) eq_refl). simpl.
      symmetry. apply bool_decide_eq_true_2. left.
    + rewrite (bool_decide_eq_false_2 (y = x) Hne), andb_false_r. simpl.
      apply bool_decide_ext. rewrite elem_of_cons. naive_solver.
Qed.

Lemma pyset_add_NoDup (h : string → Z) (s : list PostBuildData) x :
  NoDup s → NoDup (pyset_add h x s).
Proof.
  intros Hs. unfold pyset_add. rewrite pyset_contains_elem_of.
  case_bool_decide; [done|].
  apply NoDup_app. split_and!; [done| |apply NoDup_singleton].
  intros y Hy ->%list_elem_of_singleton. done.
Qed.

Lemma elem_of_pyset_add (h : string → Z) (s : list PostBuildData) x y :
  y ∈ pyset_add h x s ↔ y = x ∨ y ∈ s.
Proof.
  unfold pyset_add. rewrite pyset_contains_elem_of.
  case_bool_decide.
  - naive_solver.
  - rewrite elem_of_app, list_elem_of_singleton. naive_solver.
Qed.

Lemma pyset_add_hash (h h' : string → Z) (s : list PostBuildData) x :
  pyset_add h x s = pyset_add h' x s.
Proof. unfold pyset_add. by rewrite !pyset_contains_elem_of. Qed.

Lemma proj_posts_from (h : string → Z) (posts acc : list PostBuildData) :
  let add_if s post := if in_project proj post then pyset_add h post s else s in
  NoDup acc →
  NoDup (foldl add_if acc posts)
  ∧ ∀ p, p ∈ foldl add_if acc posts
         ↔ p ∈ acc ∨ (p ∈ posts ∧ in_project proj p = true).
Proof.
  intros add_if.
  revert acc. induction posts as [|post posts IH]; intros acc Hacc; simpl.
  - split; [done|]. intros p. rewrite elem_of_nil. naive_solver.
  - assert (NoDup (add_if acc post)) as Hnd.
    { unfold add_if. destruct (in_project proj post); [|done].
      by apply pyset_add_NoDup. }
    destruct (IH _ Hnd) as [IH1 IH2]. split; [done|].
    intros p. rewrite IH2, elem_of_cons. unfold add_if.
    destruct (in_project proj post) eqn:Hin.
    + rewrite elem_of_pyset_add.
      split; [intros [[->|?]|[? ?]]|intros [?|[[->|?] ?]]]; auto.
    + split; [intros [?|[? ?]]|intros [?|[[->|?] ?]]]; auto; congruence.
Qed.

Lemma proj_posts_NoDup (posts : list PostBuildData) :
  NoDup (proj_posts R proj posts).
Proof. apply (proj_posts_from (str_hash R) posts []), NoDup_nil_2. Qed.

Lemma elem_of_proj_posts (posts : list PostBuildData) p :
  p ∈ proj_posts R proj posts ↔ p ∈ posts ∧ in_project proj p = true.
Proof.
  destruct (proj_posts_from (str_hash R) posts [] (NoDup_nil_2)) as [_ H].
  split.
  - intros [Hp|Hp]%H; [by apply elem_of_nil in Hp|done].
  - intros Hp. apply H. by right.
Qed.

Lemma proj_posts_hash (R' : Runtime) (posts : list PostBuildData) :
  proj_posts R' proj posts = proj_posts R proj posts.
Proof.
  unfold proj_posts. generalize (@nil PostBuildData).
  induction posts as [|post posts IH]; intros acc; simpl; [done|].
  rewrite IH. do 2 f_equal.
  destruct (in_project proj post); [|done]. apply pyset_add_hash.
Qed.

Lemma in_project_spec (post : PostBuildData) :
  in_project proj post = true
  ↔ ∃ l, project (data post) = Some l ∧ name proj ∈ l.
Proof.
  unfold in_project. destruct (project (data post)) as [l|].
  - rewrite bool_decide_eq_true. naive_solver.
  - naive_solver.
Qed.
End proj_posts.

(** C4: a built post is in the set of a project exactly when the name of
    the project is a member of the post's [projects]; with [projects] absent
    or empty the post is in no project's set. *)
Theorem proj_posts_membership (R : Runtime) (proj : ProjectData)
    (posts : list PostBuildData) (p : PostBuildData) :
  p ∈ posts →
  (p ∈ proj_posts R proj posts
   ↔ ∃ l, project (data p) = Some l ∧ name proj ∈ l)
  ∧ (project (data p) = None → p ∉ proj_posts R proj posts)
  ∧ (project (data p) = Some [] → p ∉ proj_posts R proj posts).
Proof.
  intros Hp. rewrite elem_of_proj_posts, in_project_spec.
  split_and!.
  - naive_solver.
  - intros Hnone [_ (l & Hl & _)]. congruence.
  - intros Hnil [_ (l & Hl & Hin)].
    rewrite Hnil in Hl. injection Hl as <-. by apply elem_of_nil in Hin.
Qed.

(** C4 at a post of siteA: it is in the set of siteA and not in that of
    siteB. *)
Lemma proj_posts_membership_witness :
  let posts := [sample_post "a" "A" (mkDate 2024 1 1) (Some ["siteA"]) [];
                sample_post "b" "B" (mkDate 2024 1 2) None []] in
  let p := sample_post "a" "A" (mkDate 2024 1 1) (Some ["siteA"]) [] in
  p ∈ proj_posts plain_runtime (sample_project "siteA") posts
  ∧ p ∉ proj_posts plain_runtime (sample_project "siteB") posts.
Proof.
  intros posts p.
  assert (p ∈ posts) as Hp by (left).
  split.
  - apply (proj_posts_membership plain_runtime (sample_project "siteA") posts p Hp).
    exists ["siteA"]. split; [reflexivity|left].
  - intros Hin.
    apply (proj_posts_membership plain_runtime (sample_project "siteB") posts p Hp)
      in Hin as (l & [= <-] & Hl).
    apply list_elem_of_singleton in Hl. discriminate Hl.
Defined.

(** C2 (counterexample): two posts of a project that share their title but
    not their directory are two elements of the project's set, also when
    their hashes collide. *)
Lemma proj_posts_title_not_identity :
  ¬ title_is_identity
      (proj_posts plain_runtime (sample_project "siteA") [notes_2023; notes_2024]).
Proof.
  intros H.
  assert (notes_2023 = notes_2024) as Heq; [|discriminate Heq].
  apply H; [| |reflexivity].
  - apply elem_of_proj_posts. split; [left|reflexivity].
  - apply elem_of_proj_posts. split; [right; left|reflexivity].
Qed.

(** C2 (amended): the set of a project identifies two records exactly when
    they are equal in every field.  It holds every post of the project once,
    two posts of the project that differ in any field sit at two places of
    the set (equal titles or not), and the hash function has no influence on
    the set. *)
Theorem proj_posts_identity (R : Runtime) (proj : ProjectData)
    (posts : list PostBuildData) :
  (∀ p, p ∈ posts → in_project proj p = true →
        ∃ i, proj_posts R proj posts !! i = Some p
             ∧ ∀ j, proj_posts R proj posts !! j = Some p → j = i)
  ∧ (∀ p q, p ∈ posts → q ∈ posts →
            in_project proj p = true → in_project proj q = true →
              p ≠ q →
              ∃ i j, i ≠ j ∧ proj_posts R proj posts !! i = Some p
                     ∧ proj_posts R proj posts !! j = Some q)
  ∧ (∀ R', proj_posts R' proj posts = proj_posts R proj posts).
Proof.
  pose proof (proj_posts_NoDup R proj posts) as Hnd.
  assert (∀ p, p ∈ posts → in_project proj p = true →
               ∃ i, proj_posts R proj posts !! i = Some p) as Hidx.
  { intros p Hp Hin. apply list_elem_of_lookup, elem_of_proj_posts. done. }
  split_and!.
  - intros p Hp Hin. destruct (Hidx p Hp Hin) as [i Hi].
    exists i. split; [done|]. intros j Hj.
    by apply (NoDup_lookup _ j i p Hnd).
  - intros p q Hp Hq Hinp Hinq Hne.
    destruct (Hidx p Hp Hinp) as [i Hi], (Hidx q Hq Hinq) as [j Hj].
    exists i, j. split_and!; [|done..].
    intros ->. congruence.
  - intros R'. apply proj_posts_hash.
Qed.

(** C2 (amended) at the two posts titled "Notes". *)
Lemma proj_posts_identity_witness :
  ∃ i j, i ≠ j
    ∧ proj_posts plain_runtime (sample_project "siteA") [notes_2023; notes_2024] !! i
      = Some notes_2023
    ∧ proj_posts plain_runtime (sample_project "siteA") [notes_2023; notes_2024] !! j
      = Some notes_2024.
Proof.
  apply (proj_posts_identity plain_runtime (sample_project "siteA")
           [notes_2023; notes_2024]).
  - left.
  - right; left.
  - reflexivity.
  - reflexivity.
  - discriminate.
Defined.

(** ** Sorting by date *)

Lemma date_leb_refl (a : date) : date_leb a a = true.
Proof.
  unfold date_leb. rewrite !Z.eqb_refl, Z.leb_refl. simpl.
  by rewrite !orb_true_r.
Qed.

Lemma date_leb_total (a b : date) : date_leb a b = false → date_leb b a = true.
Proof.
  unfold date_leb.
  rewrite !orb_false_iff, !andb_false_iff, !orb_false_iff, !andb_false_iff.
  rewrite !orb_true_iff, !andb_true_iff, !orb_true_iff, !andb_true_iff.
  rewrite !Z.ltb_lt, !Z.ltb_ge, !Z.eqb_eq, !Z.eqb_neq, !Z.leb_le, !Z.leb_gt.
  lia.
Qed.

Lemma date_leb_trans (a b c : date) :
  date_leb a b = true → date_leb b c = true → date_leb a c = true.
Proof.
  unfold date_leb.
  rewrite !orb_true_iff, !andb_true_iff, !orb_true_iff, !andb_true_iff.
  rewrite !Z.ltb_lt, !Z.eqb_eq, !Z.leb_le.
  lia.
Qed.

Section sorted_facts.
Context {A : Type} (key : A → date) (reverse : bool).

Lemma goes_first_same_key (x y : A) :
  key x = key y → goes_first key reverse x y = true.
Proof.
  intros H. unfold goes_first. rewrite H.
  destruct reverse; apply date_leb_refl.
Qed.

Lemma goes_first_total (x y : A) :
  goes_first key reverse x y = false → goes_first key reverse y x = true.
Proof. unfold goes_first. destruct reverse; apply date_leb_total. Qed.

Lemma goes_first_trans (x y z : A) :
  goes_first key reverse x y = true → goes_first key reverse y z = true →
  goes_first key reverse x z = true.
Proof.
  unfold goes_first. destruct reverse; intros H1 H2.
  - by apply (date_leb_trans _ (key y)).
  - by apply (date_leb_trans _ (key y)).
Qed.

Lemma insert_sorted_perm (x : A) (l : list A) :
  insert_sorted key reverse x l ≡ₚ x :: l.
Proof.
  induction l as [|y l IH]; simpl; [done|].
  destruct (goes_first key reverse x y); [done|].
  rewrite IH. apply Permutation_swap.
Qed.

Lemma sorted_perm (l : list A) : sorted key reverse l ≡ₚ l.
Proof.
  induction l as [|x l IH]; simpl; [done|].
  fold (sorted key reverse l). by rewrite insert_sorted_perm, IH.
Qed.

Lemma insert_sorted_StronglySorted (x : A) (l : list A) :
  StronglySorted (λ a b, goes_first key reverse a b = true) l →
  StronglySorted (λ a b, goes_first key reverse a b = true)
                 (insert_sorted key reverse x l).
Proof.
  induction 1 as [|y l Hl IH Hy]; simpl.
  - repeat constructor.
  - destruct (goes_first key reverse x y) eqn:Hxy.
    + constructor; [by constructor|].
      constructor; [done|].
      eapply Forall_impl; [exact Hy|].
      intros z Hz. by apply (goes_first_trans x y z).
    + constructor; [done|].
      rewrite insert_sorted_perm. constructor; [|done].
      by apply goes_first_total.
Qed.

Lemma sorted_StronglySorted (l : list A) :
  StronglySorted (λ a b, goes_first key reverse a b = true) (sorted key reverse l).
Proof.
  induction l as [|x l IH]; simpl; [constructor|].
  by apply insert_sorted_StronglySorted.
Qed.

Lemma insert_sorted_stable (d : date) (x : A) (l : list A) :
  filter (λ a, key a = d) (insert_sorted key reverse x l)
  = filter (λ a, key a = d) (x :: l).
Proof.
  induction l as [|y l IH]; simpl; [done|].
  destruct (goes_first key reverse x y) eqn:Hxy; [done|].
  rewrite (filter_cons _ y), IH, !filter_cons.
  destruct (decide (key y = d)) as [Hy|Hy], (decide (key x = d)) as [Hx|Hx];
    try done.
  rewrite goes_first_same_key in Hxy by congruence. discriminate Hxy.
Qed.

Lemma sorted_stable (d : date) (l : list A) :
  filter (λ a, key a = d) (sorted key reverse l) = filter (λ a, key a = d) l.
Proof.
  induction l as [|x l IH]; simpl; [done|].
  fold (sorted key reverse l).
  by rewrite insert_sorted_stable, !filter_cons, IH.
Qed.
End sorted_facts.

Lemma bind_assoc {A B C} (m : result A) (f : A → result B) (g : B → result C) :
  (m ≫= f) ≫= g = m ≫= (λ a, f a ≫= g).
Proof. by destruct m. Qed.

Lemma write_text_Ok (p : Path) (text : string) (fs fs' : FS) :
  write_text p text fs = Ok fs' → fs' = <[p := File text]> fs.
Proof.
  unfold write_text. destruct (is_dir fs p); [done|].
  destruct (is_dir fs (parent p)); [|done]. by intros [= <-].
Qed.






(** The blog page of the January and the June post, written to an output
    directory: the June block is above the January block. *)
Example blog_page_june_first :
  match build_blog_page plain_templates [january_post; june_post]
          (Path_of_string "site_out") (Path_of_string "posts")
          (Path_of_string "blog.html") "Blog" fs_site_out with
  | Ok fs' =>
      fs' !! Path_of_string "site_out/blog.html"
      = Some (File ("<head None>Blog|<nav None>|Blog|"
                    +:+ "Summer|posts/june/thumb.png|posts/june/post.html|June 1, 2024|Ann||"
                    +:+ newline
                    +:+ "Winter|posts/january/thumb.png|posts/january/post.html|January 1, 2024|Ann||"))
  | Raise _ => False
  end.
Proof. vm_compute. reflexivity. Qed.

(** ** Tag pages *)

Lemma foldR_ext {A S} (f g : A → S → result S) (l : list A) (s : S) :
  (∀ x s', x ∈ l → f x s' = g x s') → foldR f l s = foldR g l s.
Proof.
  revert s. induction l as [|x l IH]; intros s H; simpl; [done|].
  rewrite (H x s) by left.
  destruct (g x s) as [s'|e]; simpl; [|done].
  apply IH. intros y s'' Hy. apply H. by right.
Qed.

Lemma elem_of_tagged_with (tag : string) (posts : list PostBuildData) post :
  post ∈ tagged_with tag posts ↔ post ∈ posts ∧ tag ∈ tags (data post).
Proof.
  unfold tagged_with. rewrite list_elem_of_bind. split.
  - intros (p & Hin & Hp).
    apply list_elem_of_fmap in Hin as (t & -> & Ht).
    apply list_elem_of_filter in Ht as [-> Ht]. done.
  - intros [Hp Ht]. exists post. split; [|done].
    apply list_elem_of_fmap. exists tag. split; [done|].
    by apply list_elem_of_filter.
Qed.

Lemma tagged_with_filter (tag : string) (posts : list PostBuildData) :
  (∀ post, post ∈ posts → NoDup (tags (data post))) →
  tagged_with tag posts = filter (λ post, tag ∈ tags (data post)) posts.
Proof.
  assert (∀ tgs : list string, NoDup tgs →
            filter (λ t, t = tag) tgs = if decide (tag ∈ tgs) then [tag] else [])
    as Hone.
  { induction 1 as [|t tgs Hnot _ IH]; [done|].
    rewrite filter_cons, IH.
    destruct (decide (t = tag)) as [->|Hne].
    - rewrite (decide_False (P := tag ∈ tgs)) by done.
      by rewrite (decide_True (P := tag ∈ tag :: tgs)) by left.
    - destruct (decide (tag ∈ tgs)) as [Hin|Hnin].
      + by rewrite (decide_True (P := tag ∈ t :: tgs)) by (by right).
      + rewrite (decide_False (P := tag ∈ t :: tgs)); [done|].
        intros [?|?]%elem_of_cons; congruence. }
  unfold tagged_with.
  induction posts as [|post posts IH]; intros Hnd; [done|].
  rewrite filter_cons, bind_cons.
  rewrite IH by (intros; apply Hnd; by right).
  rewrite Hone by (apply Hnd; left).
  by destruct (decide (tag ∈ tags (data post))).
Qed.

Lemma tags_map_append_all (post : PostBuildData) (tgs : list string)
    (m : gmap string (list PostBuildData)) :
  (∀ t, t ∈ tgs → is_Some (m !! t)) →
  ∃ m', foldR (tags_map_append post) tgs m = Ok m'
        ∧ ∀ t, m' !! t
               = (λ l, l ++ ((λ _, post) <$> filter (λ t', t' = t) tgs)) <$> m !! t.
Proof.
  revert m. induction tgs as [|tag tgs IH]; intros m Hm; simpl.
  - exists m. split; [done|]. intros t.
    destruct (m !! t); simpl; [|done]. by rewrite app_nil_r.
  - destruct (Hm tag) as [l Hl]; [left|].
    assert (tags_map_append post tag m = Ok (<[tag := l ++ [post]]> m)) as ->
      by (unfold tags_map_append; by rewrite Hl).
    simpl.
    destruct (IH (<[tag := l ++ [post]]> m)) as (m' & Hfold & Hm').
    { intros t Ht. rewrite lookup_insert_is_Some.
      destruct (decide (tag = t)); [by left|right]. split; [done|].
      apply Hm. by right. }
    exists m'. split; [done|]. intros t. rewrite Hm', filter_cons.
    destruct (decide (tag = t)) as [->|Hne].
    + rewrite lookup_insert_eq, Hl. simpl. by rewrite <- app_assoc.
    + by rewrite lookup_insert_ne.
Qed.

Lemma tags_map_fold (posts : list PostBuildData)
    (m : gmap string (list PostBuildData)) :
  (∀ post t, post ∈ posts → t ∈ tags (data post) → is_Some (m !! t)) →
  ∃ m', foldR (λ post m, foldR (tags_map_append post) (tags (data post)) m)
              posts m = Ok m'
        ∧ ∀ t, m' !! t = (λ l, l ++ tagged_with t posts) <$> m !! t.
Proof.
  revert m. induction posts as [|post posts IH]; intros m Hm; simpl.
  - exists m. split; [done|]. intros t.
    destruct (m !! t); simpl; [|done]. by rewrite app_nil_r.
  - destruct (tags_map_append_all post (tags (data post)) m) as (m1 & Hin & Hm1).
    { intros t Ht. apply (Hm post); [left|done]. }
    rewrite Hin. simpl.
    destruct (IH m1) as (m' & Hfold & Hm').
    { intros p t Hp Ht. rewrite Hm1, fmap_is_Some. apply (Hm p); [by right|done]. }
    exists m'. split; [done|]. intros t. rewrite Hm', Hm1.
    destruct (m !! t); simpl; [|done].
    unfold tagged_with. simpl. by rewrite <- app_assoc.
Qed.

Lemma elem_of_tags_set (posts : list PostBuildData) (tag : string) :
  tag ∈ tags_set posts ↔ ∃ post, post ∈ posts ∧ tag ∈ tags (data post).
Proof.
  unfold tags_set. rewrite elem_of_list_to_set, list_elem_of_bind.
  naive_solver.
Qed.

Lemma tags_map_lookup (posts : list PostBuildData) :
  ∃ m, tags_map posts = Ok m
       ∧ ∀ tag, m !! tag = if decide (tag ∈ tags_set posts)
                           then Some (tagged_with tag posts) else None.
Proof.
  destruct (tags_map_fold posts (gset_to_gmap [] (tags_set posts)))
    as (m & Hm & Hlookup).
  { intros post t Hp Ht. exists [].
    apply lookup_gset_to_gmap_Some. split; [|done].
    apply elem_of_tags_set. eauto. }
  exists m. split; [done|]. intros tag.
  rewrite Hlookup, lookup_gset_to_gmap.
  destruct (decide (tag ∈ tags_set posts)) as [Hin|Hnin].
  - by rewrite option_guard_True.
  - by rewrite option_guard_False.
Qed.

Lemma build_blog_page_Ok (T : Templates) (posts : list PostBuildData)
    (site_build_dir post_build_dir blog_page_path : Path) (page_title : string)
    (fs fs' : FS) :
  build_blog_page T posts site_build_dir post_build_dir blog_page_path
    page_title fs = Ok fs' →
  ∃ text, blog_page_text T posts post_build_dir page_title = Ok text
          ∧ fs' = <[joinpath site_build_dir blog_page_path := File text]> fs.
Proof.
  unfold build_blog_page. intros (text & Htext & Hw)%bind_Ok.
  exists text. split; [done|]. by apply write_text_Ok.
Qed.

Lemma build_tags_pages_fold (T : Templates) (posts : list PostBuildData)
    (site_build_dir post_build_dir : Path) (fs : FS) :
  build_tags_pages T posts site_build_dir post_build_dir fs
  = foldR (λ tag fs,
             build_blog_page T (tagged_with tag posts) site_build_dir
               post_build_dir (Path_of_string (tag +:+ ".html"))
               (tag +:+ " Blog Posts") fs)
          (elements (tags_set posts)) fs.
Proof.
  unfold build_tags_pages.
  destruct (tags_map_lookup posts) as (m & -> & Hm). simpl.
  apply foldR_ext. intros tag fs' Htag%elem_of_elements.
  by rewrite Hm, decide_True.
Qed.

Lemma tag_pages_written (T : Templates) (posts : list PostBuildData)
    (site_build_dir post_build_dir : Path) (l : list string) (fs fs' : FS) :
  NoDup l →
  foldR (λ tag fs,
           build_blog_page T (tagged_with tag posts) site_build_dir
             post_build_dir (Path_of_string (tag +:+ ".html"))
             (tag +:+ " Blog Posts") fs) l fs = Ok fs' →
  (∀ tag, tag ∈ l →
     ∃ text,
       blog_page_text T (tagged_with tag posts) post_build_dir
         (tag +:+ " Blog Posts") = Ok text
       ∧ ((∀ tag', tag' ∈ l →
             tag_page_path site_build_dir tag' = tag_page_path site_build_dir tag →
             tag' = tag) →
          fs' !! tag_page_path site_build_dir tag = Some (File text)))
  ∧ (∀ p, (∀ tag, tag ∈ l → p ≠ tag_page_path site_build_dir tag) →
          fs' !! p = fs !! p).
Proof.
  intros Hnd. revert fs.
  induction Hnd as [|tag0 l Hnotin Hnd IH]; intros fs H; simpl in H.
  - injection H as <-. split; [|done]. by intros tag ?%elem_of_nil.
  - apply bind_Ok in H as (fs1 & Hpage & H).
    apply build_blog_page_Ok in Hpage as (text0 & Htext0 & ->).
    fold (tag_page_path site_build_dir tag0) in H.
    destruct (IH _ H) as [IHa IHb]. split.
    + intros tag [->|Hin]%elem_of_cons.
      * exists text0. split; [done|]. intros Huniq.
        rewrite IHb; [apply lookup_insert_eq|].
        intros tag' Hin' Heq. apply Hnotin.
        rewrite <- (Huniq tag'); [done|by right|done].
      * destruct (IHa tag Hin) as (text & Htext & Hfs).
        exists text. split; [done|]. intros Huniq. apply Hfs.
        intros tag' Hin'. apply Huniq. by right.
    + intros p Hp. rewrite IHb by (intros; apply Hp; by right).
      apply lookup_insert_ne. apply not_eq_sym, Hp. left.
Qed.

Lemma mapR_Ok_all {A B} (f : A → result B) (l : list A) :
  (∀ x, x ∈ l → ∃ y, f x = Ok y) → ∃ l', mapR f l = Ok l'.
Proof.
  induction l as [|x l IH]; intros H; simpl; [by eexists|].
  destruct (H x) as [y ->]; [left|].
  destruct IH as [l' ->]; [intros; apply H; by right|].
  by eexists.
Qed.

Lemma blog_page_text_Ok (T : Templates) (posts : list PostBuildData)
    (post_build_dir : Path) (page_title : string) :
  (∀ post, post ∈ posts → authors (data post) ≠ []) →
  ∃ text, blog_page_text T posts post_build_dir page_title = Ok text.
Proof.
  intros Hauthors. unfold blog_page_text, build_post_blocks.
  destruct (mapR_Ok_all (render_block T post_build_dir 0)
              (sorted date_sort true posts)) as [blocks ->]; [|by eexists].
  intros post Hpost. rewrite sorted_perm in Hpost.
  unfold render_block.
  destruct (render_authors_string_Ok (authors (data post))) as [a ->];
    [by apply Hauthors|].
  by eexists.
Qed.

Lemma is_dir_insert_file (fs : FS) (p q : Path) (text : string) :
  is_dir fs p = false → is_dir (<[p := File text]> fs) q = is_dir fs q.
Proof.
  unfold is_dir. intros Hp. destruct (decide (p = q)) as [<-|Hne].
  - destruct (parts p); [done|]. rewrite Hp, lookup_insert_eq.
    by apply bool_decide_eq_false_2.
  - by rewrite lookup_insert_ne.
Qed.

Lemma tag_pages_succeed (T : Templates) (posts : list PostBuildData)
    (site_build_dir post_build_dir : Path) (l : list string) (fs : FS) :
  (∀ post, post ∈ posts → authors (data post) ≠ []) →
  (∀ tag, tag ∈ l →
     is_dir fs (tag_page_path site_build_dir tag) = false
     ∧ is_dir fs (parent (tag_page_path site_build_dir tag)) = true) →
  ∃ fs',
    foldR (λ tag fs,
             build_blog_page T (tagged_with tag posts) site_build_dir
               post_build_dir (Path_of_string (tag +:+ ".html"))
               (tag +:+ " Blog Posts") fs) l fs = Ok fs'.
Proof.
  intros Hauthors. revert fs.
  induction l as [|tag l IH]; intros fs Hfs; simpl; [by eexists|].
  destruct (blog_page_text_Ok T (tagged_with tag posts) post_build_dir
              (tag +:+ " Blog Posts")) as [text Htext].
  { intros post [Hpost _]%elem_of_tagged_with. by apply Hauthors. }
  destruct (Hfs tag) as [Hfile Hparent]; [left|].
  assert (build_blog_page T (tagged_with tag posts) site_build_dir
            post_build_dir (Path_of_string (tag +:+ ".html"))
            (tag +:+ " Blog Posts") fs
          = Ok (<[tag_page_path site_build_dir tag := File text]> fs)) as ->.
  { unfold build_blog_page. rewrite Htext. simpl.
    fold (tag_page_path site_build_dir tag).
    unfold write_text. by rewrite Hfile, Hparent. }
  simpl. apply IH. intros tag' Hin. rewrite !is_dir_insert_file by done.
  apply Hfs. by right.
Qed.

(** C6: the tag dictionary holds, for every tag carried by some post, the
    posts that carry it and no other post, so a post is in the lists of its
    own tags only; [build_tags_pages] builds one listing page for every
    distinct tag, titled ["<tag> Blog Posts"], from the posts of that tag,
    and writes it to [<tag>.html] in the output directory; no other file is
    touched.  The build succeeds when every post has an author and the page
    files can be written. *)
Theorem tag_pages_partition (T : Templates) (posts : list PostBuildData) :
  (∃ m, tags_map posts = Ok m
        ∧ (∀ tag, is_Some (m !! tag)
                  ↔ ∃ post, post ∈ posts ∧ tag ∈ tags (data post))
        ∧ (∀ tag l, m !! tag = Some l →
             l = tagged_with tag posts
             ∧ ∀ post, post ∈ l ↔ post ∈ posts ∧ tag ∈ tags (data post))
        ∧ ((∀ post, post ∈ posts → NoDup (tags (data post))) →
           ∀ tag l, m !! tag = Some l →
             l = filter (λ post, tag ∈ tags (data post)) posts))
  ∧ (∀ site_build_dir post_build_dir fs fs',
       build_tags_pages T posts site_build_dir post_build_dir fs = Ok fs' →
       (∀ tag post, post ∈ posts → tag ∈ tags (data post) →
          ∃ text,
            blog_page_text T (tagged_with tag posts) post_build_dir
              (tag +:+ " Blog Posts") = Ok text
            ∧ ((∀ tag', tag' ∈ tags_set posts →
                  joinpath site_build_dir (Path_of_string (tag' +:+ ".html"))
                  = joinpath site_build_dir (Path_of_string (tag +:+ ".html")) →
                  tag' = tag) →
               fs' !! joinpath site_build_dir (Path_of_string (tag +:+ ".html"))
               = Some (File text)))
       ∧ (∀ p,
            (∀ tag, tag ∈ tags_set posts →
               p ≠ joinpath site_build_dir (Path_of_string (tag +:+ ".html"))) →
            fs' !! p = fs !! p))
  ∧ (∀ site_build_dir post_build_dir fs,
       (∀ post, post ∈ posts → authors (data post) ≠ []) →
       (∀ tag, tag ∈ tags_set posts →
          is_dir fs (tag_page_path site_build_dir tag) = false
          ∧ is_dir fs (parent (tag_page_path site_build_dir tag)) = true) →
       ∃ fs', build_tags_pages T posts site_build_dir post_build_dir fs = Ok fs').
Proof.
  split_and!.
  - destruct (tags_map_lookup posts) as (m & Hm & Hlookup).
    exists m. split_and!; [done|..].
    + intros tag. rewrite Hlookup, <- elem_of_tags_set.
      destruct (decide (tag ∈ tags_set posts)); split; done.
    + intros tag l. rewrite Hlookup.
      destruct (decide (tag ∈ tags_set posts)); [|done].
      intros [= <-]. split; [done|]. intros post. apply elem_of_tagged_with.
    + intros Hnd tag l. rewrite Hlookup.
      destruct (decide (tag ∈ tags_set posts)); [|done].
      intros [= <-]. by apply tagged_with_filter.
  - intros site pb fs fs' H. rewrite build_tags_pages_fold in H.
    apply tag_pages_written in H as [Ha Hb]; [|apply NoDup_elements].
    split.
    + intros tag post Hpost Htag.
      destruct (Ha tag) as (text & Htext & Hfs).
      { apply elem_of_elements, elem_of_tags_set. eauto. }
      exists text. split; [done|]. intros Huniq. apply Hfs.
      intros tag' Hin'%elem_of_elements. by apply Huniq.
    + intros p Hp. apply Hb. intros tag Hin%elem_of_elements. by apply Hp.
  - intros site pb fs Hauthors Hfs. rewrite build_tags_pages_fold.
    apply tag_pages_succeed; [done|].
    intros tag Hin%elem_of_elements. by apply Hfs.
Qed.

(** The dictionary of two sample posts: the post tagged rust and webdev is
    in these two lists only. *)
Example tags_map_sample :
  match tags_map [rust_webdev_post; python_post] with
  | Ok m =>
      m !! "rust" = Some [rust_webdev_post]
      ∧ m !! "webdev" = Some [rust_webdev_post]
      ∧ m !! "python" = Some [python_post]
      ∧ size m = 3%nat
  | Raise _ => False
  end.
Proof. vm_compute. repeat split; reflexivity. Qed.

Lemma sample_tags (tag : string) :
  tag ∈ tags_set [rust_webdev_post; python_post] →
  tag = "rust" ∨ tag = "webdev" ∨ tag = "python".
Proof.
  intros (post & Hpost & Htag)%elem_of_tags_set.
  apply elem_of_cons in Hpost as [->|Hpost];
    [|apply list_elem_of_singleton in Hpost as ->].
  - change (tag ∈ ["rust"; "webdev"]) in Htag.
    apply elem_of_cons in Htag as [->|Htag]; [by left|].
    apply list_elem_of_singleton in Htag as ->. right. by left.
  - change (tag ∈ ["python"]) in Htag.
    apply list_elem_of_singleton in Htag as ->. right. by right.
Qed.

(** C6 at the two sample posts and an empty output directory. *)
Lemma tag_pages_partition_witness :
  match build_tags_pages plain_templates [rust_webdev_post; python_post]
          (Path_of_string "site_out") (Path_of_string "posts") fs_site_out with
  | Ok fs' =>
      fs' !! tag_page_path (Path_of_string "site_out") "rust"
        = Some (File "<head None>Blog|<nav None>|rust Blog Posts|Wasm|posts/wasm/thumb.png|posts/wasm/post.html|February 2, 2024|Ann||rust.html#rust, webdev.html#webdev")
      ∧ fs' !! Path_of_string "site_out/index.html"
        = fs_site_out !! Path_of_string "site_out/index.html"
  | Raise _ => False
  end.
Proof.
  destruct (build_tags_pages _ _ _ _ _) as [fs'|e] eqn:Hbuild.
  - destruct (tag_pages_partition plain_templates [rust_webdev_post; python_post])
      as (_ & Hpages & _).
    destruct (Hpages _ _ _ _ Hbuild) as [Hwritten Hframe]. split.
    + destruct (Hwritten "rust" rust_webdev_post) as (text & Htext & Hfs);
        [left|left|].
      vm_compute in Htext. injection Htext as <-.
      apply Hfs. intros tag' Htag Hpath.
      destruct (sample_tags tag' Htag) as [ -> | [ -> | -> ] ];
        [done|vm_compute in Hpath; discriminate Hpath..].
    + apply Hframe. intros tag Htag.
      destruct (sample_tags tag Htag) as [ -> | [ -> | -> ] ];
        vm_compute; discriminate.
  - assert (¬ raises (build_tags_pages plain_templates
                        [rust_webdev_post; python_post] (Path_of_string "site_out")
                        (Path_of_string "posts") fs_site_out)) as Hok
      by (vm_compute; intros []).
    apply Hok. rewrite Hbuild. exact I.
Defined.

(** ** Staging of static assets *)

Lemma strip_prefix_Some (pre l rel : list string) :
  strip_prefix pre l = Some rel ↔ l = pre ++ rel.
Proof.
  revert l. induction pre as [|a pre IH]; intros l; simpl.
  - split; [by intros [= ->]|by intros ->].
  - destruct l as [|b l]; [done|].
    destruct (decide (a = b)) as [->|Hne].
    + rewrite IH. split; [by intros ->|by intros [= ->]].
    + split; [done|]. intros [= -> _]. done.
Qed.

Lemma app_eq_prefix (l1 l2 r1 r2 : list string) :
  l1 ++ r1 = l2 ++ r2 →
  is_Some (strip_prefix l1 l2) ∨ is_Some (strip_prefix l2 l1).
Proof.
  revert l2. induction l1 as [|a l1 IH]; intros l2 H.
  - left. by eexists.
  - destruct l2 as [|b l2]; [right; by eexists|].
    injection H as -> H. simpl. rewrite !decide_True by done. by apply IH.
Qed.

Lemma separate_extend (src dst : Path) (r1 r2 : list string) :
  separate src dst = true → extend src r1 ≠ extend dst r2.
Proof.
  unfold separate, extend. intros Hsep [= Ha Hp].
  apply orb_true_iff in Hsep as [Hsep|Hsep].
  - apply negb_true_iff, bool_decide_eq_false in Hsep. done.
  - apply andb_true_iff in Hsep as [H1%bool_decide_eq_true H2%bool_decide_eq_true].
    destruct (app_eq_prefix _ _ _ _ Hp) as [[? H]|[? H]]; congruence.
Qed.

Lemma extend_inj (p : Path) (r1 r2 : list string) :
  extend p r1 = extend p r2 → r1 = r2.
Proof. unfold extend. intros [= H]. by apply app_inv_head in H. Qed.

Lemma extend_ne (p : Path) (rel : list string) : rel ≠ [] → extend p rel ≠ p.
Proof.
  destruct p as [a ps]. unfold extend. simpl. intros Hrel [= H].
  apply Hrel. apply (app_inv_head ps). by rewrite app_nil_r.
Qed.

Lemma reroot_Some (src dst k k' : Path) :
  reroot src dst k = Some k'
  ↔ ∃ rel, rel ≠ [] ∧ k = extend src rel ∧ k' = extend dst rel.
Proof.
  unfold reroot. split.
  - case_bool_decide as Ha; [|done].
    destruct (strip_prefix (parts src) (parts k)) as [[|c rel]|] eqn:Hs; try done.
    intros [= <-]. apply strip_prefix_Some in Hs.
    exists (c :: rel). split_and!; [done| |done].
    destruct k as [a ps]. simpl in *. unfold extend. by rewrite Ha, Hs.
  - intros (rel & Hrel & -> & ->). simpl.
    rewrite bool_decide_eq_true_2 by done.
    rewrite (proj2 (strip_prefix_Some _ _ rel)) by done.
    by destruct rel.
Qed.

Lemma elem_of_copy_image (src dst : Path) (fs : FS) (k' : Path) (n : node) :
  (k', n) ∈ copy_image src dst fs
  ↔ ∃ rel, rel ≠ [] ∧ fs !! extend src rel = Some n ∧ k' = extend dst rel.
Proof.
  unfold copy_image. rewrite list_elem_of_omap. split.
  - intros ([k m] & Hin & Hk). simpl in Hk.
    apply elem_of_map_to_list in Hin.
    destruct (reroot src dst k) as [k''|] eqn:Hr; [|done].
    injection Hk as -> ->.
    apply reroot_Some in Hr as (rel & Hrel & -> & ->). eauto.
  - intros (rel & Hrel & Hfs & ->).
    exists (extend src rel, n). split; [by apply elem_of_map_to_list|].
    simpl. rewrite (proj2 (reroot_Some src dst _ (extend dst rel))); [done|].
    eauto.
Qed.

Lemma copy_image_lookup (src dst : Path) (fs : FS) (rel : list string) (n : node) :
  rel ≠ [] → fs !! extend src rel = Some n →
  (list_to_map (copy_image src dst fs) : FS) !! extend dst rel = Some n.
Proof.
  intros Hrel Hfs. apply elem_of_list_to_map_1'.
  - intros n' (rel' & _ & Hfs' & Heq)%elem_of_copy_image.
    apply extend_inj in Heq as <-. congruence.
  - apply elem_of_copy_image. eauto.
Qed.

Lemma copy_image_lookup_None (src dst : Path) (fs : FS) (p : Path) :
  (∀ rel, rel ≠ [] → p = extend dst rel → fs !! extend src rel = None) →
  (list_to_map (copy_image src dst fs) : FS) !! p = None.
Proof.
  intros H. apply not_elem_of_list_to_map_1.
  intros ([k n] & -> & Hin)%list_elem_of_fmap. simpl.
  apply elem_of_copy_image in Hin as (rel & Hrel & Hfs & ->).
  rewrite (H rel) in Hfs; done.
Qed.

Lemma is_dir_path_exists (fs : FS) (p : Path) :
  is_dir fs p = true → path_exists fs p = true.
Proof.
  unfold is_dir, path_exists. destruct (parts p); [done|].
  intros H%bool_decide_eq_true. apply bool_decide_eq_true. by rewrite H.
Qed.

Lemma mkdir_parents_present (t : Path) (l : list Path) (fs : FS) :
  (∀ p, p ∈ l → is_dir fs p = true) → foldR (mkdir_exist_ok t) l fs = Ok fs.
Proof.
  induction l as [|p l IH]; intros H; simpl; [done|].
  assert (mkdir_exist_ok t p fs = Ok fs) as ->
    by (unfold mkdir_exist_ok; by rewrite (H p) by left).
  simpl. apply IH. intros q Hq. apply H. by right.
Qed.

Lemma is_dir_lookup_eq (fs fs1 : FS) (p : Path) :
  fs1 !! p = fs !! p → is_dir fs1 p = is_dir fs p.
Proof. unfold is_dir. intros ->. done. Qed.

Lemma extend_nil (p : Path) : extend p [] = p.
Proof. destruct p. unfold extend. simpl. by rewrite app_nil_r. Qed.

Lemma parent_is_dir (dst : Path) (fs : FS) :
  parts dst ≠ [] →
  forallb (λ p, bool_decide (p = dst) || is_dir fs p) (ancestors dst) = true →
  is_dir fs (parent dst) = true.
Proof.
  intros Hne Hall.
  destruct (parts (parent dst)) as [|c ps] eqn:Hparent.
  { unfold is_dir. by rewrite Hparent. }
  rewrite forallb_forall in Hall.
  assert (length (removelast (parts dst)) = pred (length (parts dst))) as Hlen.
  { rewrite removelast_firstn_len, length_take. lia. }
  assert (length (parts dst) ≠ 0%nat) as Hlen0 by (by destruct (parts dst)).
  specialize (Hall (parent dst)).
  apply orb_true_iff in Hall as [Heq%bool_decide_eq_true|Hdir]; [|done|].
  - apply (f_equal (λ p, length (parts p))) in Heq. simpl in Heq. lia.
  - apply list_elem_of_In, list_elem_of_fmap.
    exists (pred (length (parts dst))). split.
    + unfold parent. f_equal. apply removelast_firstn_len.
    + apply elem_of_seq. simpl in Hparent. rewrite Hparent in Hlen.
      simpl in Hlen. lia.
Qed.

Lemma stage_staged (src dst : Path) (fs : FS) :
  parts dst ≠ [] →
  can_stage src dst fs = true →
  ∃ fs', stage src dst fs = Ok fs' ∧ staged src dst fs fs'.
Proof.
  intros Hne Hcan. unfold can_stage in Hcan.
  repeat (apply andb_true_iff in Hcan as [Hcan ?]).
  rename Hcan into Hsrc, H into Hsep, H0 into Hconf, H1 into Hdst, H2 into Habove.
  apply negb_true_iff in Hconf.
  assert (∀ r1 r2, extend src r1 ≠ extend dst r2) as Hsep'
    by (intros; by apply separate_extend).
  assert (src ≠ dst) as Hsd.
  { specialize (Hsep' [] []). by rewrite !extend_nil in Hsep'. }
  (* the file system once the destination is there *)
  assert (∃ fs1, (if negb (path_exists fs dst) then os_mkdir dst fs else Ok fs)
                 = Ok fs1
                 ∧ fs1 !! dst = Some Dir
                 ∧ ∀ p, p ≠ dst → fs1 !! p = fs !! p) as (fs1 & Hfs1 & Hd & Hother).
  { destruct (path_exists fs dst) eqn:Hex; simpl.
    - exists fs. split_and!; [done| |done].
      simpl in Hdst. unfold is_dir in Hdst.
      destruct (parts dst); [done|]. by apply bool_decide_eq_true in Hdst.
    - exists (<[dst := Dir]> fs). split_and!.
      + unfold os_mkdir. rewrite Hex. by rewrite parent_is_dir.
      + apply lookup_insert_eq.
      + intros p Hp. by apply lookup_insert_ne. }
  assert (is_dir fs1 dst = true) as Hddir.
  { unfold is_dir. destruct (parts dst); [done|]. by apply bool_decide_eq_true. }
  assert (∀ rel, fs1 !! extend src rel = fs !! extend src rel) as Hsrc1.
  { intros rel. apply Hother. rewrite <- (extend_nil dst). apply Hsep'. }
  assert (is_dir fs1 src = true) as Hsrcdir.
  { rewrite (is_dir_lookup_eq fs); [done|]. by apply Hother. }
  assert (copy_target fs1 <$> copy_image src dst fs1 = copy_image src dst fs1)
    as Himage.
  { rewrite <- (list_fmap_id (copy_image src dst fs1)) at 2.
    apply list_fmap_ext. intros i [k n] Hin%list_elem_of_lookup_2.
    apply elem_of_copy_image in Hin as (rel & Hrel & Hfs & ->).
    rewrite Hsrc1 in Hfs.
    destruct (kind_conflict fs1 (extend dst rel, n)) eqn:Hk.
    - assert (existsb (kind_conflict fs) (copy_image src dst fs) = true) as Hyes;
        [|congruence].
      apply existsb_exists. exists (extend dst rel, n). split.
      + apply list_elem_of_In, elem_of_copy_image. eauto.
      + unfold kind_conflict in *. simpl in *.
        rewrite <- Hother; [done|by apply extend_ne].
    - unfold kind_conflict, copy_target in *. simpl in *.
      by destruct n, (fs1 !! extend dst rel) as [[]|]. }
  exists (list_to_map (copy_image src dst fs1) ∪ fs1). split.
  - unfold stage. rewrite Hfs1. simpl. unfold copytree.
    rewrite (is_dir_path_exists _ _ Hsrcdir), Hsrcdir. simpl.
    unfold mkdir_parents. rewrite mkdir_parents_present.
    + simpl. rewrite Himage.
      assert (existsb (kind_conflict fs1) (copy_image src dst fs1) = false) as ->;
        [|done].
      apply not_true_iff_false. intros ([k n] & Hin & Hk)%existsb_exists.
      apply list_elem_of_In in Hin.
      apply elem_of_copy_image in Hin as (rel & Hrel & Hfs & ->).
      rewrite Hsrc1 in Hfs.
      assert (existsb (kind_conflict fs) (copy_image src dst fs) = true) as Hyes;
        [|congruence].
      apply existsb_exists. exists (extend dst rel, n). split.
      * apply list_elem_of_In, elem_of_copy_image. eauto.
      * unfold kind_conflict in *. simpl in *.
        rewrite <- Hother; [done|by apply extend_ne].
    + intros p Hp. rewrite forallb_forall in Habove.
      specialize (Habove p (proj1 (list_elem_of_In _ _) Hp)).
      apply orb_true_iff in Habove as [->%bool_decide_eq_true|Hdir]; [done|].
      destruct (decide (p = dst)) as [->|Hpd]; [done|].
      rewrite (is_dir_lookup_eq fs); [done|]. by apply Hother.
  - split_and!.
    + intros rel n Hrel Hfs. apply lookup_union_Some_l.
      apply copy_image_lookup; [done|]. by rewrite Hsrc1.
    + rewrite lookup_union_r; [done|].
      apply copy_image_lookup_None. intros rel Hrel Heq.
      symmetry in Heq. by apply extend_ne in Heq.
    + intros p Hp Hnone. rewrite lookup_union_r; [by apply Hother|].
      apply copy_image_lookup_None. intros rel Hrel Heq.
      rewrite Hsrc1. by apply Hnone.
Qed.

Lemma static_dir_parts (site_build_dir build_dir directory : Path) :
  parts (joinpaths site_build_dir [build_dir; directory; Path_of_string "static"])
  ≠ [].
Proof.
  unfold joinpaths. simpl. unfold joinpath at 1. simpl.
  intros H. by apply app_eq_nil in H as [_ ?].
Qed.

(** C7: for an item without a static assets directory, staging returns at
    once with the file system unchanged and without raising.  For an item
    with one, the tree below [<src>/<directory>/<static>] is copied below
    [<outputRoot>/<kind_build_dir>/<directory>/static]: every entry of the
    source tree is at the same place below the destination (a file that was
    there is overwritten), the destination is a directory, and every other
    path, the earlier content of the destination included, is as it was.
    The copy succeeds when the source is a directory, the output directory
    of the item exists, no file meets a directory, and the source and output
    trees are separate. *)
Theorem copy_files_stage_assets :
  (∀ site_build_dir post_src_dir post_build_dir post fs,
     post_static (data post) = None →
     copy_post_files site_build_dir post_src_dir post_build_dir post fs = Ok fs)
  ∧ (∀ site_build_dir post_src_dir post_build_dir post static fs,
       post_static (data post) = Some static →
       let src := joinpaths post_src_dir [post_directory (data post); static] in
       let dst :=
         joinpaths site_build_dir
           [post_build_dir; post_directory (data post); Path_of_string "static"] in
       can_stage src dst fs = true →
       ∃ fs',
         copy_post_files site_build_dir post_src_dir post_build_dir post fs = Ok fs'
         ∧ staged src dst fs fs')
  ∧ (∀ site_build_dir projects_src_dir projects_build_dir pb fs,
       proj_static (proj_data pb) = None →
       copy_project_files site_build_dir projects_src_dir projects_build_dir pb fs
       = Ok fs)
  ∧ (∀ site_build_dir projects_src_dir projects_build_dir pb static fs,
       proj_static (proj_data pb) = Some static →
       let src :=
         joinpaths projects_src_dir [proj_directory (proj_data pb); static] in
       let dst :=
         joinpaths site_build_dir
           [projects_build_dir; proj_directory (proj_data pb);
            Path_of_string "static"] in
       can_stage src dst fs = true →
       ∃ fs',
         copy_project_files site_build_dir projects_src_dir projects_build_dir pb fs
         = Ok fs'
         ∧ staged src dst fs fs').
Proof.
  split_and!.
  - intros site src_dir build_dir post fs Hnone.
    unfold copy_post_files. by rewrite Hnone.
  - intros site src_dir build_dir post static fs Hsome src dst Hcan.
    destruct (stage_staged src dst fs) as (fs' & Hstage & Hstaged);
      [apply static_dir_parts|done|].
    exists fs'. split; [|done].
    unfold copy_post_files. rewrite Hsome. exact Hstage.
  - intros site src_dir build_dir pb fs Hnone.
    unfold copy_project_files. by rewrite Hnone.
  - intros site src_dir build_dir pb static fs Hsome src dst Hcan.
    destruct (stage_staged src dst fs) as (fs' & Hstage & Hstaged);
      [apply static_dir_parts|done|].
    exists fs'. split; [|done].
    unfold copy_project_files. rewrite Hsome. exact Hstage.
Qed.

(** C7 at a post without assets and at the sample post with assets. *)
Lemma copy_files_stage_assets_witness :
  (copy_post_files (Path_of_string "site_out") (Path_of_string "blog_posts")
     (Path_of_string "posts") january_post fs_with_assets
   = Ok fs_with_assets)
  ∧ ∃ fs',
      copy_post_files (Path_of_string "site_out") (Path_of_string "blog_posts")
        (Path_of_string "posts") post_with_assets fs_with_assets = Ok fs'
      ∧ staged (Path_of_string "blog_posts/trip/static")
               (Path_of_string "site_out/posts/trip/static") fs_with_assets fs'.
Proof.
  destruct copy_files_stage_assets as (Hnone & Hsome & _).
  split.
  - apply Hnone. reflexivity.
  - apply (Hsome (Path_of_string "site_out") (Path_of_string "blog_posts")
             (Path_of_string "posts") post_with_assets (Path_of_string "static")
             fs_with_assets).
    + reflexivity.
    + vm_compute. reflexivity.
Defined.

(** The output tree after the assets of the sample post are staged: the new
    map replaces the old one, the nested directory is copied, and the file
    that was only in the output stays. *)
Example copy_post_files_merges :
  match copy_post_files (Path_of_string "site_out") (Path_of_string "blog_posts")
          (Path_of_string "posts") post_with_assets fs_with_assets with
  | Ok fs' =>
      fs' !! Path_of_string "site_out/posts/trip/static/map.png"
        = Some (File "new map")
      ∧ fs' !! Path_of_string "site_out/posts/trip/static/day1/a.jpg"
        = Some (File "photo")
      ∧ fs' !! Path_of_string "site_out/posts/trip/static/old.png"
        = Some (File "kept")
      ∧ fs' !! Path_of_string "site_out/posts/trip/post.html"
        = Some (File "<html>")
      ∧ size fs' = 16%nat
  | Raise _ => False
  end.
Proof. vm_compute. repeat split; reflexivity. Qed.

(** * Further properties of the build *)

(** ** Descriptors *)

Lemma datetime_date_Ok (d m y : Z) (dt : date) :
  datetime_date d m y = Ok dt →
  dt = mkDate y m d ∧ valid_date dt.
Proof.
  unfold datetime_date, valid_date.
  destruct ((1 <=? y) && (y <=? 9999)) eqn:Hy; [|done].
  destruct ((1 <=? m) && (m <=? 12)) eqn:Hm; [|done].
  destruct ((1 <=? d) && (d <=? days_in_month y m)) eqn:Hd; [|done].
  simpl. intros [= <-]. simpl.
  apply andb_true_iff in Hy as [?%Z.leb_le ?%Z.leb_le].
  apply andb_true_iff in Hm as [?%Z.leb_le ?%Z.leb_le].
  apply andb_true_iff in Hd as [?%Z.leb_le ?%Z.leb_le].
  done.
Qed.

(** X1: a post descriptor may leave its static directory out: when
    [parse_post] succeeds, the post has no static path exactly when
    [static_dir] is null, and otherwise its static path is the path written
    in the descriptor. *)
Theorem parse_post_json_static (post_json : json) (pd : PostData) :
  parse_post_json post_json = Ok pd →
  (post_static pd = None ↔ getitem post_json "static_dir" = Ok JNull)
  ∧ (∀ p, post_static pd = Some p
          ↔ ∃ s, getitem post_json "static_dir" = Ok (JStr s)
                 ∧ p = Path_of_string s).
Proof.
  unfold parse_post_json. intros H.
  apply bind_Ok in H as (path & _ & H).
  apply bind_Ok in H as (directory & _ & H).
  apply bind_Ok in H as (fmt & _ & H).
  apply bind_Ok in H as (static & Hstatic & H).
  repeat (apply bind_Ok in H as (? & _ & H)).
  injection H as <-. simpl.
  apply bind_Ok in Hstatic as (v & -> & Hv).
  destruct v; simpl in Hv; try discriminate Hv; injection Hv as <-.
  - split; [done|]. intros p. split; [done|]. by intros (s & [=] & _).
  - split; [done|]. intros p. split.
    + intros [= <-]. eauto.
    + by intros (s' & [= <-] & ->).
Qed.

Lemma parse_post_json_static_witness :
  ∃ pd, parse_post_json (sample_post_json JNull (JList [JStr "Ann"])) = Ok pd
        ∧ post_static pd = None.
Proof.
  eexists. split; [vm_compute; reflexivity|].
  eapply (parse_post_json_static (sample_post_json JNull (JList [JStr "Ann"])));
    reflexivity.
Defined.

(** X2: every post and every project that is parsed carries a date of the
    calendar, made of the [day], [month] and [year] of its descriptor; a
    descriptor with a date such as 30 February is refused. *)
Theorem parsed_dates_valid (j : json) :
  (∀ pd, parse_post_json j = Ok pd →
     valid_date (post_date pd)
     ∧ ∃ d m y, getitem j "day" = Ok d ∧ getitem j "month" = Ok m
                ∧ getitem j "year" = Ok y
                ∧ int_of_json d = Ok (day (post_date pd))
                ∧ int_of_json m = Ok (month (post_date pd))
                ∧ int_of_json y = Ok (year (post_date pd)))
  ∧ (∀ d, parse_proj_json j = Ok d →
       valid_date (proj_date d)
       ∧ ∃ dd m y, getitem j "day" = Ok dd ∧ getitem j "month" = Ok m
                   ∧ getitem j "year" = Ok y
                   ∧ int_of_json dd = Ok (day (proj_date d))
                   ∧ int_of_json m = Ok (month (proj_date d))
                   ∧ int_of_json y = Ok (year (proj_date d))).
Proof.
  split.
  - intros pd H. unfold parse_post_json in H.
    do 6 (apply bind_Ok in H as (? & _ & H)).
    apply bind_Ok in H as (d & Hd & H).
    apply bind_Ok in H as (m & Hm & H).
    apply bind_Ok in H as (y & Hy & H).
    apply bind_Ok in H as (dt & Hdt & H).
    repeat (apply bind_Ok in H as (? & _ & H)).
    injection H as <-. simpl.
    apply bind_Ok in Hdt as (d' & Hd' & Hdt).
    apply bind_Ok in Hdt as (m' & Hm' & Hdt).
    apply bind_Ok in Hdt as (y' & Hy' & Hdt).
    apply datetime_date_Ok in Hdt as [-> Hvalid].
    split; [done|]. by exists d, m, y.
  - intros pd H. unfold parse_proj_json in H.
    do 6 (apply bind_Ok in H as (? & _ & H)).
    apply bind_Ok in H as (d & Hd & H).
    apply bind_Ok in H as (m & Hm & H).
    apply bind_Ok in H as (y & Hy & H).
    apply bind_Ok in H as (dt & Hdt & H).
    repeat (apply bind_Ok in H as (? & _ & H)).
    injection H as <-. simpl.
    apply bind_Ok in Hdt as (d' & Hd' & Hdt).
    apply bind_Ok in Hdt as (m' & Hm' & Hdt).
    apply bind_Ok in Hdt as (y' & Hy' & Hdt).
    apply datetime_date_Ok in Hdt as [-> Hvalid].
    split; [done|]. by exists d, m, y.
Qed.

Lemma parsed_dates_valid_witness :
  ∃ pd, parse_post_json (sample_post_json JNull (JList [JStr "Ann"])) = Ok pd
        ∧ valid_date (post_date pd) ∧ post_date pd = mkDate 2024 2 29.
Proof.
  eexists. split; [vm_compute; reflexivity|]. split; [|reflexivity].
  eapply (parsed_dates_valid (sample_post_json JNull (JList [JStr "Ann"]))).
  reflexivity.
Defined.

Lemma getitem_Ok_JObj (j : json) (key : string) (v : json) :
  getitem j key = Ok v → ∃ items, j = JObj items.
Proof. destruct j; try done. eauto. Qed.

(** X3: a descriptor is parsed only if it is a JSON object that has every
    key the parser reads, thirteen for a post and ten for a project; a value
    that is no object raises [TypeError] and an object without [file_path]
    raises [KeyError]. *)
Theorem parsed_descriptor_keys (j : json) :
  (∀ pd, parse_post_json j = Ok pd →
         Forall (λ key, ∃ v, getitem j key = Ok v) post_keys)
  ∧ (∀ d, parse_proj_json j = Ok d →
          Forall (λ key, ∃ v, getitem j key = Ok v) proj_keys)
  ∧ ((∀ items, j ≠ JObj items) →
     parse_post_json j = Raise TypeError ∧ parse_proj_json j = Raise TypeError)
  ∧ (getitem j "file_path" = Raise (KeyError "file_path") →
     parse_post_json j = Raise (KeyError "file_path")
     ∧ parse_proj_json j = Raise (KeyError "file_path")).
Proof.
  split_and!.
  - intros pd H. unfold parse_post_json in H.
    apply bind_Ok in H as (? & (? & H1 & _)%bind_Ok & H).
    apply bind_Ok in H as (? & (? & H2 & _)%bind_Ok & H).
    apply bind_Ok in H as (? & H3 & H).
    apply bind_Ok in H as (? & (? & H4 & _)%bind_Ok & H).
    apply bind_Ok in H as (? & H5 & H).
    apply bind_Ok in H as (? & H6 & H).
    apply bind_Ok in H as (? & H7 & H).
    apply bind_Ok in H as (? & H8 & H).
    apply bind_Ok in H as (? & H9 & H).
    apply bind_Ok in H as (? & _ & H).
    apply bind_Ok in H as (? & H10 & H).
    apply bind_Ok in H as (? & (? & H11 & _)%bind_Ok & H).
    apply bind_Ok in H as (? & H12 & H).
    apply bind_Ok in H as (? & H13 & H).
    unfold post_keys. repeat (constructor; [by eexists|]). constructor.
  - intros d H. unfold parse_proj_json in H.
    apply bind_Ok in H as (? & (? & H1 & _)%bind_Ok & H).
    apply bind_Ok in H as (? & (? & H2 & _)%bind_Ok & H).
    apply bind_Ok in H as (? & H3 & H).
    apply bind_Ok in H as (? & (? & H4 & _)%bind_Ok & H).
    apply bind_Ok in H as (? & (? & H5 & _)%bind_Ok & H).
    apply bind_Ok in H as (? & H6 & H).
    apply bind_Ok in H as (? & H7 & H).
    apply bind_Ok in H as (? & H8 & H).
    apply bind_Ok in H as (? & H9 & H).
    apply bind_Ok in H as (? & _ & H).
    apply bind_Ok in H as (? & H10 & H).
    unfold proj_keys. repeat (constructor; [by eexists|]). constructor.
  - intros Hj. destruct j; try done. by destruct (Hj items).
  - intros Hkey. unfold parse_post_json, parse_proj_json.
    by rewrite Hkey.
Qed.

Lemma parsed_descriptor_keys_witness :
  Forall (λ key, ∃ v, getitem (sample_proj_json (JStr "static")) key = Ok v)
         proj_keys
  ∧ parse_post_json (JList []) = Raise TypeError.
Proof.
  split.
  - eapply (parsed_descriptor_keys (sample_proj_json (JStr "static"))).
    vm_compute. reflexivity.
  - apply (parsed_descriptor_keys (JList [])). discriminate.
Defined.

(** ** Directories and files *)

Lemma ancestors_parts (p q : Path) : q ∈ ancestors p → parts q ≠ [].
Proof.
  intros (n & -> & Hn)%list_elem_of_fmap. apply elem_of_seq in Hn. simpl.
  destruct (parts p) as [|c ps]; simpl in *; [lia|].
  destruct n; [lia|done].
Qed.

Lemma is_dir_Some_Dir (fs : FS) (p : Path) :
  parts p ≠ [] → is_dir fs p = true ↔ fs !! p = Some Dir.
Proof.
  unfold is_dir. destruct (parts p); [done|]. intros _.
  apply bool_decide_eq_true.
Qed.

Lemma is_dir_mono (fs fs1 : FS) (p : Path) :
  (∀ q n, fs !! q = Some n → fs1 !! q = Some n) →
  is_dir fs p = true → is_dir fs1 p = true.
Proof.
  unfold is_dir. destruct (parts p); [done|].
  intros H Hp%bool_decide_eq_true. apply bool_decide_eq_true. by apply H.
Qed.

Lemma mkdir_exist_ok_Ok (t p : Path) (fs fs1 : FS) :
  mkdir_exist_ok t p fs = Ok fs1 →
  is_dir fs1 p = true
  ∧ (fs1 = fs ∨ (parts p ≠ [] ∧ fs !! p = None ∧ fs1 = <[p := Dir]> fs)).
Proof.
  unfold mkdir_exist_ok. destruct (is_dir fs p) eqn:Hd.
  - intros [= <-]. split; [done|by left].
  - destruct (path_exists fs p) eqn:He; [done|]. intros [= <-].
    unfold is_dir, path_exists in *. destruct (parts p) eqn:Hp; [done|].
    split.
    + apply bool_decide_eq_true, lookup_insert_eq.
    + right. split_and!; [done| |done].
      apply bool_decide_eq_false in He. by apply eq_None_not_Some.
Qed.

Lemma mkdir_parents_Ok (t : Path) (l : list Path) (fs fs1 : FS) :
  foldR (mkdir_exist_ok t) l fs = Ok fs1 →
  (∀ p, p ∈ l → is_dir fs1 p = true)
  ∧ (∀ p, p ∉ l → fs1 !! p = fs !! p)
  ∧ (∀ p n, fs !! p = Some n → fs1 !! p = Some n)
  ∧ (∀ p, fs !! p = None → is_Some (fs1 !! p) → fs1 !! p = Some Dir).
Proof.
  revert fs. induction l as [|q l IH]; intros fs H; simpl in H.
  - injection H as <-. split_and!; try done.
    + by intros p ?%elem_of_nil.
    + intros p -> [? ?]. done.
  - apply bind_Ok in H as (fs0 & Hq & H).
    apply mkdir_exist_ok_Ok in Hq as [Hdir Hfs0].
    destruct (IH _ H) as (IH1 & IH2 & IH3 & IH4).
    assert (∀ p n, fs !! p = Some n → fs0 !! p = Some n) as Hkeep0.
    { destruct Hfs0 as [->|(_ & Hnone & ->)]; [done|].
      intros p n Hp. rewrite lookup_insert_ne; [done|]. congruence. }
    split_and!.
    + intros p [->|Hp]%elem_of_cons; [|by apply IH1].
      by apply (is_dir_mono fs0).
    + intros p [Hne Hp]%not_elem_of_cons. rewrite IH2 by done.
      destruct Hfs0 as [->|(_ & _ & ->)]; [done|].
      by rewrite lookup_insert_ne.
    + intros p n Hp. by apply IH3, Hkeep0.
    + intros p Hnone Hsome.
      destruct (fs0 !! p) as [n|] eqn:Hp0; [|by apply IH4].
      destruct Hfs0 as [->|(_ & _ & ->)]; [congruence|].
      destruct (decide (q = p)) as [->|Hne].
      * apply IH3, lookup_insert_eq.
      * rewrite lookup_insert_ne in Hp0 by done. congruence.
Qed.

Lemma write_text_Ok_inv (p : Path) (text : string) (fs fs' : FS) :
  write_text p text fs = Ok fs' →
  is_dir fs p = false ∧ is_dir fs (parent p) = true
  ∧ fs' = <[p := File text]> fs.
Proof.
  unfold write_text. destruct (is_dir fs p); [done|].
  destruct (is_dir fs (parent p)); [|done]. by intros [= <-].
Qed.

(** ** The page of a post *)

Lemma build_post_page_Ok (T : Templates) (site_build_dir post_build_dir : Path)
    (Post : PostHTML) (fs fs' : FS) (b : PostBuildData) :
  build_post_page T site_build_dir post_build_dir Post fs = Ok (b, fs') →
  ∃ author fs1,
    render_authors_string (authors (post_data Post)) = Ok author
    ∧ mkdir_parents (post_page_dir site_build_dir post_build_dir (post_data Post))
        fs = Ok fs1
    ∧ write_text (post_page_file site_build_dir post_build_dir (post_data Post))
        (post_page_text T Post author) fs1 = Ok fs'
    ∧ b = mkPostBuildData
            (post_page_file site_build_dir post_build_dir (post_data Post))
            (post_page_dir site_build_dir post_build_dir (post_data Post))
            (post_data Post).
Proof.
  unfold build_post_page. intros H.
  apply bind_Ok in H as (author & Hauthor & H).
  apply bind_Ok in H as (fs1 & Hmk & H).
  apply bind_Ok in H as (fs2 & Hw & [= <- <-]).
  by exists author, fs1.
Qed.

Lemma post_page_on_disk (T : Templates)
    (site_build_dir post_build_dir : Path) (Post : PostHTML) (fs fs' : FS)
    (b : PostBuildData) :
  build_post_page T site_build_dir post_build_dir Post fs = Ok (b, fs') →
  let dir := post_page_dir site_build_dir post_build_dir (post_data Post) in
  let file := post_page_file site_build_dir post_build_dir (post_data Post) in
  b = mkPostBuildData file dir (post_data Post)
  ∧ (∃ author,
       render_authors_string (authors (post_data Post)) = Ok author
       ∧ fs' !! file = Some (File (post_page_text T Post author)))
  ∧ is_dir fs' dir = true
  ∧ (∀ p, p ∈ ancestors dir → fs' !! p = Some Dir)
  ∧ (∀ p, p ≠ file → p ∉ ancestors dir → fs' !! p = fs !! p)
  ∧ (∀ p n, p ≠ file → fs !! p = Some n → fs' !! p = Some n).
Proof.
  intros H dir file.
  apply build_post_page_Ok in H as (author & fs1 & Hauthor & Hmk & Hw & ->).
  fold dir in Hmk. fold file in Hw.
  apply mkdir_parents_Ok in Hmk as (Hdirs & Hframe & Hkeep & _).
  apply write_text_Ok_inv in Hw as (Hfile & Hparent & ->).
  assert (∀ p, p ∈ ancestors dir → p ≠ file) as Hne.
  { intros p Hp ->. apply Hdirs in Hp. congruence. }
  assert (∀ p, p ∈ ancestors dir → fs1 !! p = Some Dir) as Hdirs'.
  { intros p Hp. apply is_dir_Some_Dir; [by apply ancestors_parts in Hp|].
    by apply Hdirs. }
  split_and!.
  - done.
  - exists author. split; [done|]. apply lookup_insert_eq.
  - destruct (parts dir) as [|c ps] eqn:Hparts.
    { unfold is_dir. by rewrite Hparts. }
    assert (dir ∈ ancestors dir) as Hin.
    { apply list_elem_of_fmap. exists (length (parts dir)). split.
      - destruct dir as [a ps']. simpl. by rewrite firstn_all.
      - apply elem_of_seq. rewrite Hparts. simpl. lia. }
    apply is_dir_Some_Dir; [by rewrite Hparts|].
    rewrite lookup_insert_ne by (apply not_eq_sym; by apply Hne).
    by apply Hdirs'.
  - intros p Hp. rewrite lookup_insert_ne by (apply not_eq_sym; by apply Hne).
    by apply Hdirs'.
  - intros p Hp Hnot. rewrite lookup_insert_ne by done. by apply Hframe.
  - intros p n Hp Hfs. rewrite lookup_insert_ne by done. by apply Hkeep.
Qed.

(** X4: on success [build_post_page] returns the record of the post with the
    output file [<site>/<post_build_dir>/<directory>/<stem>.html] and its
    directory; that file holds the rendered page, the directory and the
    directories above it exist, and every other path is as it was. *)
Theorem build_post_page_effect (T : Templates)
    (site_build_dir post_build_dir : Path) (Post : PostHTML) (fs fs' : FS)
    (b : PostBuildData) :
  build_post_page T site_build_dir post_build_dir Post fs = Ok (b, fs') →
  let dir := post_page_dir site_build_dir post_build_dir (post_data Post) in
  let file := post_page_file site_build_dir post_build_dir (post_data Post) in
  b = mkPostBuildData file dir (post_data Post)
  ∧ (∃ author,
       render_authors_string (authors (post_data Post)) = Ok author
       ∧ fs' !! file = Some (File (post_page_text T Post author)))
  ∧ is_dir fs' dir = true
  ∧ (∀ p, p ∈ ancestors dir → fs' !! p = Some Dir)
  ∧ (∀ p, p ≠ file → p ∉ ancestors dir → fs' !! p = fs !! p)
  ∧ (∀ p n, p ≠ file → fs !! p = Some n → fs' !! p = Some n).
Proof. exact (post_page_on_disk T site_build_dir post_build_dir Post fs fs' b). Qed.

Lemma not_raises_Ok {A} (m : result A) : ¬ raises m → ∃ a, m = Ok a.
Proof. destruct m as [a|e]; [by exists a|]. intros H. by destruct H. Qed.

(** X4 at the sample post of January and an empty output directory. *)
Lemma build_post_page_effect_witness :
  ∃ b fs',
    build_post_page plain_templates (Path_of_string "site_out")
      (Path_of_string "posts") january_html fs_site_out = Ok (b, fs')
    ∧ is_dir fs' (post_page_dir (Path_of_string "site_out")
                    (Path_of_string "posts") (data january_post)) = true
    ∧ build_path b = Path_of_string "site_out/posts/january/post.html".
Proof.
  destruct (not_raises_Ok
              (build_post_page plain_templates (Path_of_string "site_out")
                 (Path_of_string "posts") january_html fs_site_out))
    as [[b fs'] H]; [vm_compute; tauto|].
  exists b, fs'. split; [done|].
  destruct (build_post_page_effect _ _ _ _ _ _ _ H) as (-> & _ & Hdir & _).
  split; [exact Hdir|reflexivity].
Defined.

(** ** Authors in pages and listings *)

Lemma parse_post_json_authors (post_json : json) (pd : PostData) :
  parse_post_json post_json = Ok pd →
  ∃ v, getitem post_json "authors" = Ok v
       ∧ as_str_list "authors" v = Ok (authors pd).
Proof.
  unfold parse_post_json. intros H.
  do 5 (apply bind_Ok in H as (? & _ & H)).
  apply bind_Ok in H as (v & Hv & H).
  do 10 (apply bind_Ok in H as (? & _ & H)).
  apply bind_Ok in H as (auth & Hauth & H).
  repeat (apply bind_Ok in H as (? & _ & H)).
  injection H as <-. simpl. by exists v.
Qed.

(** X5: [parse_post] does not look at the number of authors: a descriptor
    whose [authors] is the empty list is parsed, into a post without
    authors; the build then stops at the page of that post, and at every
    listing block of it, with [ValueError]. *)
Theorem post_without_authors (post_json : json) (pd : PostData) :
  parse_post_json post_json = Ok pd →
  getitem post_json "authors" = Ok (JList []) →
  authors pd = []
  ∧ (∀ T site_build_dir post_build_dir html fs,
       build_post_page T site_build_dir post_build_dir (mkPostHTML pd html) fs
       = Raise (ValueError "No authors provided"))
  ∧ (∀ T post_build_dir link_depth path dir,
       render_block T post_build_dir link_depth (mkPostBuildData path dir pd)
       = Raise (ValueError "No authors provided")).
Proof.
  intros (v & Hv & Hauth)%parse_post_json_authors Hnil.
  rewrite Hnil in Hv. injection Hv as <-. injection Hauth as Hauth.
  split_and!; [done|..].
  - intros. unfold build_post_page. simpl. by rewrite <- Hauth.
  - intros. unfold render_block. simpl. by rewrite <- Hauth.
Qed.

Lemma post_without_authors_witness :
  ∃ pd, parse_post_json (sample_post_json JNull (JList [])) = Ok pd
        ∧ build_post_page plain_templates (Path_of_string "site_out")
            (Path_of_string "posts") (mkPostHTML pd "") fs_site_out
          = Raise (ValueError "No authors provided").
Proof.
  destruct (not_raises_Ok (parse_post_json (sample_post_json JNull (JList []))))
    as [pd H]; [vm_compute; tauto|].
  exists pd. split; [done|].
  by apply (post_without_authors _ _ H).
Defined.



Lemma mapR_raises_iff {A B} (f : A → result B) (l : list A) :
  raises (mapR f l) ↔ ∃ x, x ∈ l ∧ raises (f x).
Proof.
  induction l as [|x l IH]; simpl.
  - split; [done|]. by intros (x & ?%elem_of_nil & _).
  - destruct (f x) as [y|e] eqn:Hx; simpl.
    + destruct (mapR f l) as [ys|e]; simpl in *.
      * split; [done|]. intros (z & [->|Hz]%elem_of_cons & Hr).
        -- by rewrite Hx in Hr.
        -- apply IH. eauto.
      * split; [|done]. intros _. destruct (proj1 IH I) as (z & Hz & Hr).
        exists z. split; [by right|done].
    + split; [|done]. intros _. exists x. split; [left|by rewrite Hx].
Qed.

Lemma mapR_Raise_from {A B} (f : A → result B) (l : list A) (e : exn) :
  mapR f l = Raise e → ∃ x, x ∈ l ∧ f x = Raise e.
Proof.
  induction l as [|x l IH]; simpl; [done|].
  destruct (f x) as [y|e'] eqn:Hx; simpl.
  - destruct (mapR f l) as [ys|e'']; simpl; [done|].
    intros [= ->]. destruct IH as (z & Hz & Hr); [done|].
    exists z. split; [by right|done].
  - intros [= ->]. exists x. split; [left|done].
Qed.

Lemma render_block_raises (T : Templates) (post_build_dir : Path)
    (link_depth : Z) (post : PostBuildData) :
  raises (render_block T post_build_dir link_depth post)
  ↔ authors (data post) = [].
Proof.
  unfold render_block.
  by destruct (authors (data post)) as [|a [|a' l]].
Qed.

(** X7: [build_post_blocks] returns one block for every post, whatever the
    sort key and direction; it raises exactly when one of the posts has no
    author, and the exception is then the [ValueError] of
    [render_authors_string]. *)
Theorem build_post_blocks_total (T : Templates) (posts : list PostBuildData)
    (post_build_dir : Path) (link_depth : Z)
    (post_sort_lambda : PostBuildData → date) (reverse_cron : bool) :
  (raises (build_post_blocks T posts post_build_dir link_depth
             post_sort_lambda reverse_cron)
   ↔ ∃ post, post ∈ posts ∧ authors (data post) = [])
  ∧ (∀ e, build_post_blocks T posts post_build_dir link_depth
            post_sort_lambda reverse_cron = Raise e →
          e = ValueError "No authors provided")
  ∧ (∀ blocks, build_post_blocks T posts post_build_dir link_depth
                 post_sort_lambda reverse_cron = Ok blocks →
               length blocks = length posts).
Proof.
  unfold build_post_blocks. split_and!.
  - rewrite mapR_raises_iff. split.
    + intros (post & Hin & Hr). exists post.
      rewrite sorted_perm in Hin. by apply render_block_raises in Hr.
    + intros (post & Hin & Hnil). exists post.
      rewrite sorted_perm. split; [done|]. by apply render_block_raises.
  - intros e (post & _ & Hr)%mapR_Raise_from. unfold render_block in Hr.
    destruct (authors (data post)) as [|a [|a' l]]; simpl in Hr;
      by try injection Hr as <-.
  - intros blocks Hb%mapR_Ok_length.
    by rewrite Hb, (Permutation_length (sorted_perm _ _ posts)).
Qed.

(** ** The order of a listing *)

Lemma date_leb_antisym (a b : date) :
  date_leb a b = true → date_leb b a = true → a = b.
Proof.
  destruct a as [y m d], b as [y' m' d']. unfold date_leb. simpl.
  rewrite !orb_true_iff, !andb_true_iff, !orb_true_iff, !andb_true_iff.
  rewrite !Z.ltb_lt, !Z.eqb_eq, !Z.leb_le.
  intros H1 H2. f_equal; lia.
Qed.

Section sorted_unique.
Context {A : Type} (key : A → date) (reverse : bool).

Lemma goes_first_antisym (x y : A) :
  goes_first key reverse x y = true → goes_first key reverse y x = true →
  key x = key y.
Proof.
  unfold goes_first. destruct reverse; intros H1 H2.
  - by apply date_leb_antisym.
  - by apply date_leb_antisym.
Qed.

Lemma NoDup_fmap_elem_inj (l : list A) (x y : A) :
  NoDup (key <$> l) → x ∈ l → y ∈ l → key x = key y → x = y.
Proof.
  induction l as [|z l IH]; simpl; [by intros _ ?%elem_of_nil|].
  intros [Hz Hnd]%NoDup_cons [->|Hx]%elem_of_cons [->|Hy]%elem_of_cons Heq.
  - done.
  - destruct Hz. rewrite Heq. apply list_elem_of_fmap. eauto.
  - destruct Hz. rewrite <- Heq. apply list_elem_of_fmap. eauto.
  - by apply IH.
Qed.

Lemma StronglySorted_perm_eq (l1 l2 : list A) :
  StronglySorted (λ a b, goes_first key reverse a b = true) l1 →
  StronglySorted (λ a b, goes_first key reverse a b = true) l2 →
  l1 ≡ₚ l2 → NoDup (key <$> l1) → l1 = l2.
Proof.
  intros H1. revert l2. induction H1 as [|x t1 Ht1 IH Hx]; intros l2 H2 Hp Hnd.
  - by apply Permutation_nil_l in Hp.
  - destruct H2 as [|y t2 Ht2 Hy].
    { by apply Permutation_nil_r in Hp. }
    assert (x = y) as ->.
    { assert (x ∈ y :: t2) as Hxin by (rewrite <- Hp; left).
      assert (y ∈ x :: t1) as Hyin by (rewrite Hp; left).
      apply elem_of_cons in Hxin as [?|Hxin]; [done|].
      apply elem_of_cons in Hyin as [?|Hyin]; [done|].
      apply (NoDup_fmap_elem_inj (x :: t1)); [done|left|by right|].
      apply goes_first_antisym.
      - rewrite Forall_forall in Hx. by apply Hx.
      - rewrite Forall_forall in Hy. by apply Hy. }
    f_equal. apply IH; [done|by apply Permutation_cons_inv in Hp|].
    by apply NoDup_cons in Hnd as [_ ?].
Qed.

Lemma sorted_perm_eq (l l' : list A) :
  l ≡ₚ l' → NoDup (key <$> l) → sorted key reverse l = sorted key reverse l'.
Proof.
  intros Hp Hnd. apply StronglySorted_perm_eq.
  - apply sorted_StronglySorted.
  - apply sorted_StronglySorted.
  - by rewrite !sorted_perm.
  - by rewrite sorted_perm.
Qed.

Lemma sorted_of_sorted (l : list A) :
  StronglySorted (λ a b, goes_first key reverse a b = true) l →
  sorted key reverse l = l.
Proof.
  induction 1 as [|x l Hl IH Hx]; [done|].
  simpl. fold (sorted key reverse l). rewrite IH.
  destruct l as [|y l]; [done|]. simpl.
  apply Forall_cons in Hx as [-> _]. done.
Qed.
End sorted_unique.

(** X8: when no two posts have the same date, a listing does not depend on
    the order in which the posts come in (the glob and the set give them in
    an arbitrary one): [build_post_blocks] and [build_blog_page] give the
    same result for every permutation of the posts. *)
Theorem listing_order_independent (T : Templates) (posts posts' : list PostBuildData)
    (post_build_dir : Path) (link_depth : Z) (reverse_cron : bool) :
  posts ≡ₚ posts' →
  NoDup (date_sort <$> posts) →
  build_post_blocks T posts post_build_dir link_depth date_sort reverse_cron
  = build_post_blocks T posts' post_build_dir link_depth date_sort reverse_cron
  ∧ ∀ site_build_dir blog_page_path page_title fs,
      build_blog_page T posts site_build_dir post_build_dir blog_page_path
        page_title fs
      = build_blog_page T posts' site_build_dir post_build_dir blog_page_path
          page_title fs.
Proof.
  intros Hp Hnd. split.
  - unfold build_post_blocks. by rewrite (sorted_perm_eq _ _ posts posts').
  - intros. unfold build_blog_page, blog_page_text, build_post_blocks.
    by rewrite (sorted_perm_eq _ _ posts posts').
Qed.

Lemma listing_order_independent_witness :
  build_post_blocks plain_templates [january_post; june_post]
    (Path_of_string "posts") 0 date_sort true
  = build_post_blocks plain_templates [june_post; january_post]
      (Path_of_string "posts") 0 date_sort true.
Proof.
  apply (listing_order_independent plain_templates [january_post; june_post]
           [june_post; january_post]).
  - apply Permutation_swap.
  - apply NoDup_cons. split; [|apply NoDup_singleton].
    intros Hin%list_elem_of_singleton. discriminate Hin.
Defined.

(** X9: sorting a listing again changes nothing: posts that are already in
    the order of the listing are rendered in the order given, and building
    the blocks from the sorted posts gives the blocks of the posts. *)
Theorem listing_sort_idempotent (T : Templates) (posts : list PostBuildData)
    (post_build_dir : Path) (link_depth : Z)
    (post_sort_lambda : PostBuildData → date) (reverse_cron : bool) :
  sorted post_sort_lambda reverse_cron (sorted post_sort_lambda reverse_cron posts)
  = sorted post_sort_lambda reverse_cron posts
  ∧ build_post_blocks T (sorted post_sort_lambda reverse_cron posts)
      post_build_dir link_depth post_sort_lambda reverse_cron
    = build_post_blocks T posts post_build_dir link_depth post_sort_lambda
        reverse_cron
  ∧ (StronglySorted
       (λ a b, goes_first post_sort_lambda reverse_cron a b = true) posts →
     build_post_blocks T posts post_build_dir link_depth post_sort_lambda
       reverse_cron
     = mapR (render_block T post_build_dir link_depth) posts).
Proof.
  assert (sorted post_sort_lambda reverse_cron
            (sorted post_sort_lambda reverse_cron posts)
          = sorted post_sort_lambda reverse_cron posts) as Hidem
    by apply sorted_of_sorted, sorted_StronglySorted.
  split_and!; [done|..].
  - unfold build_post_blocks. by rewrite Hidem.
  - intros Hs. unfold build_post_blocks. by rewrite sorted_of_sorted.
Qed.

(** ** Links *)

Lemma joinpath_assoc (p q r : Path) :
  joinpath p (joinpath q r) = joinpath (joinpath p q) r.
Proof.
  destruct p as [ap pp], q as [aq pq], r as [ar pr]. unfold joinpath. simpl.
  destruct ar, aq; simpl; try done.
  by rewrite app_assoc.
Qed.

Lemma joinpath_here (p : Path) : joinpath p (Path_of_string ".") = p.
Proof. destruct p. unfold joinpath. simpl. by rewrite app_nil_r. Qed.

Lemma concat_empty_cons (s : string) (l : list string) :
  String.concat "" (s :: l) = s +:+ String.concat "" l.
Proof.
  destruct l as [|s' l]; [|done].
  change (s = s +:+ "").
  induction s as [|a s IH]; [done|].
  change (String a s = String a (s +:+ "")). by f_equal.
Qed.

Lemma Path_of_string_up (n : nat) :
  Path_of_string (String.concat "" (replicate n "../"))
  = mkPath false (replicate n "..").
Proof.
  unfold Path_of_string. f_equal.
  - destruct n; [done|]. by rewrite replicate_S, concat_empty_cons.
  - induction n as [|n IH]; [done|].
    rewrite replicate_S, concat_empty_cons. simpl.
    f_equal. exact IH.
Qed.

(** X10: the root of the links of a page: at depth 0 or less it is the
    directory of the page itself, at depth [n] it goes up [n] directories
    (["../.."] at depth 2); it is never anchored. *)
Theorem link_root_parts (link_depth : Z) :
  link_root link_depth = mkPath false (replicate (Z.to_nat link_depth) "..")
  ∧ (link_depth ≤ 0 → Path_str (link_root link_depth) = ".")
  ∧ Path_str (link_root 2) = "../..".
Proof.
  split_and!; [|intros Hle|done].
  - unfold link_root. destruct (link_depth <=? 0) eqn:Hle.
    + apply Z.leb_le in Hle. by rewrite Z2Nat.nonpos.
    + apply Path_of_string_up.
  - unfold link_root. by rewrite (proj2 (Z.leb_le _ _) Hle).
Qed.

(** X11: the links of a listing at depth 0 lead to the files the build
    writes.  Such a page lies in [site_build_dir]; from there the link of
    the block of a post is the page file of [build_post_page], which holds
    the page once the post is built, and the link of a tag is the file of
    the page of this tag. *)
Theorem listing_links_resolve (T : Templates) (site_build_dir post_build_dir : Path) :
  (∀ Post fs b fs',
     build_post_page T site_build_dir post_build_dir Post fs = Ok (b, fs') →
     ∃ author link,
       render_block T post_build_dir 0 b
       = Ok (post_block_tmpl T (title (data b))
               (Path_str (joinpaths (link_root 0)
                  [post_build_dir; post_directory (data b);
                   post_thumbnail (data b)]))
               (Path_str link)
               (render_date_string (post_date (data b))) author
               (post_description (data b)) (render_tags T (tags (data b)) 0))
       ∧ joinpath site_build_dir link = build_path b
       ∧ fs' !! joinpath site_build_dir link
         = Some (File (post_page_text T Post author)))
  ∧ (∀ tag,
       render_tags T [tag] 0
       = tag_tmpl T
           (Path_str (joinpath (link_root 0) (Path_of_string (tag +:+ ".html"))))
           tag
       ∧ joinpath site_build_dir
           (joinpath (link_root 0) (Path_of_string (tag +:+ ".html")))
         = tag_page_path site_build_dir tag).
Proof.
  split.
  - intros Post fs b fs' H.
    apply post_page_on_disk in H
      as (-> & (author & Hauthor & Hfile) & _).
    exists author,
      (joinpaths (link_root 0)
         [post_build_dir; post_directory (post_data Post);
          Path_of_string (stem (post_path (post_data Post)) +:+ ".html")]).
    assert (joinpath site_build_dir
              (joinpaths (link_root 0)
                 [post_build_dir; post_directory (post_data Post);
                  Path_of_string (stem (post_path (post_data Post)) +:+ ".html")])
            = post_page_file site_build_dir post_build_dir (post_data Post))
      as Hlink.
    { unfold joinpaths, post_page_file, post_page_dir. simpl.
      change (link_root 0) with (Path_of_string ".").
      by rewrite !joinpath_assoc, joinpath_here. }
    split_and!.
    + unfold render_block. simpl. by rewrite Hauthor.
    + done.
    + by rewrite Hlink.
  - intros tag. split; [done|].
    change (link_root 0) with (Path_of_string ".").
    by rewrite joinpath_assoc, joinpath_here.
Qed.

Lemma listing_links_resolve_witness :
  ∃ b fs' link,
    build_post_page plain_templates (Path_of_string "site_out")
      (Path_of_string "posts") january_html fs_site_out = Ok (b, fs')
    ∧ joinpath (Path_of_string "site_out") link
      = Path_of_string "site_out/posts/january/post.html"
    ∧ is_Some (fs' !! joinpath (Path_of_string "site_out") link).
Proof.
  destruct (not_raises_Ok
              (build_post_page plain_templates (Path_of_string "site_out")
                 (Path_of_string "posts") january_html fs_site_out))
    as [[b fs'] H]; [vm_compute; tauto|].
  destruct (listing_links_resolve plain_templates (Path_of_string "site_out")
              (Path_of_string "posts")) as [Hlinks _].
  destruct (Hlinks _ _ _ _ H) as (author & link & _ & Hlink & Hfile).
  exists b, fs', link. split_and!; [done| |by rewrite Hfile].
  rewrite Hlink.
  apply build_post_page_Ok in H as (_ & _ & _ & _ & _ & ->). reflexivity.
Defined.

(** ** The output directory and the site assets *)

Lemma parent_ne (p : Path) : parts p ≠ [] → parent p ≠ p.
Proof.
  intros Hne Heq. apply (f_equal (λ q, length (parts q))) in Heq.
  simpl in Heq. rewrite removelast_firstn_len, length_take in Heq.
  destruct (parts p); [done|]. simpl in Heq. lia.
Qed.

Lemma is_dir_false_parts (fs : FS) (p : Path) :
  is_dir fs p = false → parts p ≠ [].
Proof. unfold is_dir. by destruct (parts p). Qed.

Lemma is_dir_insert_ne (fs : FS) (p q : Path) (n : node) :
  p ≠ q → is_dir (<[p := n]> fs) q = is_dir fs q.
Proof. intros Hne. apply is_dir_lookup_eq. by apply lookup_insert_ne. Qed.

Lemma is_dir_delete_ne (fs : FS) (p q : Path) :
  p ≠ q → is_dir (delete p fs) q = is_dir fs q.
Proof. intros Hne. apply is_dir_lookup_eq. by apply lookup_delete_ne. Qed.

Lemma path_exists_None (fs : FS) (p : Path) :
  parts p ≠ [] → fs !! p = None → path_exists fs p = false.
Proof.
  unfold path_exists. destruct (parts p); [done|]. intros _ ->.
  apply bool_decide_eq_false_2. by intros [? ?].
Qed.

Lemma ancestors_extend (p : Path) (c : string) :
  ancestors (extend p [c]) = ancestors p ++ [extend p [c]].
Proof.
  unfold ancestors, extend. simpl.
  rewrite length_app. simpl. rewrite Nat.add_1_r, seq_S, fmap_app. simpl.
  f_equal.
  - apply list_fmap_ext. intros i n Hn%list_elem_of_lookup_2.
    apply elem_of_seq in Hn. f_equal. rewrite take_app_le by lia. done.
  - rewrite take_ge by (rewrite length_app; simpl; lia). done.
Qed.

(** ** Well-formed file systems and the error of a failed lookup *)

Lemma extend_parts_ne (p : Path) (rel : list string) :
  rel ≠ [] → parts (extend p rel) ≠ [].
Proof. simpl. intros Hrel [_ ?]%app_eq_nil. done. Qed.

Lemma well_formed_lookup (fs : FS) (p : Path) (n : node) :
  well_formed fs = true → fs !! p = Some n →
  parts p ≠ [] ∧ is_dir fs (parent p) = true.
Proof.
  unfold well_formed. rewrite forallb_forall. intros Hwf Hp.
  assert (In (p, n) (map_to_list fs)) as Hin
    by (by apply list_elem_of_In, elem_of_map_to_list).
  apply Hwf in Hin. simpl in Hin.
  apply andb_true_iff in Hin as [Hparts Hdir]. split; [|done].
  by apply negb_true_iff, bool_decide_eq_false in Hparts.
Qed.

Lemma parent_extend (p : Path) (rel : list string) (c : string) :
  parent (extend p (rel ++ [c])) = extend p rel.
Proof.
  unfold parent, extend. simpl. f_equal.
  rewrite app_assoc. apply removelast_last.
Qed.

Lemma extend_parent (p : Path) :
  parts p ≠ [] → p = extend (parent p) [name_of p].
Proof.
  destruct p as [a ps]. unfold extend, parent, name_of. simpl. intros Hne.
  f_equal. by apply app_removelast_last.
Qed.

Lemma ancestors_parent (p : Path) :
  parts p ≠ [] → ancestors p = ancestors (parent p) ++ [p].
Proof.
  intros Hne. rewrite (extend_parent p Hne) at 1 3.
  apply ancestors_extend.
Qed.

Lemma well_formed_below (fs : FS) (p : Path) :
  well_formed fs = true → parts p ≠ [] → fs !! p = None →
  ∀ rel, fs !! extend p rel = None.
Proof.
  intros Hwf Hparts Hnone rel. induction rel as [|c rel IH] using rev_ind.
  - by rewrite extend_nil.
  - destruct (fs !! extend p (rel ++ [c])) as [n|] eqn:Hn; [|done].
    apply (well_formed_lookup _ _ _ Hwf) in Hn as [_ Hdir].
    rewrite parent_extend in Hdir.
    apply is_dir_Some_Dir in Hdir; [congruence|].
    simpl. intros [? _]%app_eq_nil. done.
Qed.

Lemma well_formed_above (fs : FS) (p : Path) :
  well_formed fs = true → is_dir fs p = true →
  ∀ q, q ∈ ancestors p → is_dir fs q = true.
Proof.
  intros Hwf. destruct p as [a ps].
  induction ps as [|c ps IH] using rev_ind; intros Hdir q Hq.
  - by apply elem_of_nil in Hq.
  - change (mkPath a (ps ++ [c])) with (extend (mkPath a ps) [c]) in *.
    rewrite ancestors_extend in Hq.
    apply elem_of_app in Hq as [Hq|Hq]; [|by apply list_elem_of_singleton in Hq as ->].
    apply IH; [|done].
    apply is_dir_Some_Dir in Hdir; [|by apply extend_parts_ne].
    apply (well_formed_lookup _ _ _ Hwf) in Hdir as [_ Hdir].
    rewrite (parent_extend (mkPath a ps) [] c
             : parent (extend (mkPath a ps) [c]) = extend (mkPath a ps) [])
      in Hdir.
    by rewrite extend_nil in Hdir.
Qed.

Lemma walk_error_ext (fs fs1 : FS) (l : list Path) :
  (∀ q, q ∈ l → fs1 !! q = fs !! q) → walk_error fs1 l = walk_error fs l.
Proof.
  induction l as [|q l IH]; intros H; simpl; [done|].
  rewrite (H q) by left. rewrite IH; [done|].
  intros q' Hq'. apply H. by right.
Qed.

Lemma walk_error_dirs (fs : FS) (l1 l2 : list Path) :
  (∀ q, q ∈ l1 → fs !! q = Some Dir) →
  walk_error fs (l1 ++ l2) = walk_error fs l2.
Proof.
  induction l1 as [|q l1 IH]; intros H; simpl; [done|].
  rewrite (H q) by left. apply IH. intros q' Hq'. apply H. by right.
Qed.

Lemma ancestors_parent_ne (p q : Path) : q ∈ ancestors (parent p) → q ≠ p.
Proof.
  intros (n & -> & Hn)%list_elem_of_fmap Heq. apply elem_of_seq in Hn.
  apply (f_equal (λ q, length (parts q))) in Heq. simpl in *.
  rewrite removelast_firstn_len, !length_take in *. lia.
Qed.

Lemma lookup_error_delete (fs : FS) (p : Path) :
  lookup_error (delete p fs) (parent p) = lookup_error fs (parent p).
Proof.
  apply walk_error_ext. intros q Hq%ancestors_parent_ne.
  by apply lookup_delete_ne.
Qed.

(** In a well-formed file system the error tells what is in the place of
    the path: a regular file, or nothing below an existing directory. *)
Lemma lookup_error_at (fs : FS) (p : Path) :
  well_formed fs = true → parts p ≠ [] → is_dir fs (parent p) = true →
  lookup_error fs p
  = match fs !! p with
    | Some Dir => FileNotFoundError
    | Some (File _) => NotADirectoryError
    | None => FileNotFoundError
    end.
Proof.
  intros Hwf Hparts Hparent. unfold lookup_error.
  rewrite (ancestors_parent p Hparts), walk_error_dirs.
  - simpl. by destruct (fs !! p) as [[|c]|].
  - intros q Hq. apply is_dir_Some_Dir; [by apply ancestors_parts in Hq|].
    by apply (well_formed_above fs (parent p)).
Qed.

Lemma output_dir_made (build_dir : Path) (fs : FS) :
  (is_dir fs build_dir = true → make_build_dir build_dir fs = Ok fs)
  ∧ (is_dir fs build_dir = false → is_dir fs (parent build_dir) = true →
     make_build_dir build_dir fs = Ok (<[build_dir := Dir]> fs))
  ∧ (is_dir fs build_dir = false → is_dir fs (parent build_dir) = false →
     make_build_dir build_dir fs = Raise (lookup_error fs (parent build_dir)))
  ∧ (∀ fs', make_build_dir build_dir fs = Ok fs' →
       is_dir fs' build_dir = true ∧ ∀ p, p ≠ build_dir → fs' !! p = fs !! p).
Proof.
  assert (is_dir fs build_dir = false →
          make_build_dir build_dir fs
          = if is_dir fs (parent build_dir) then Ok (<[build_dir := Dir]> fs)
            else Raise (lookup_error fs (parent build_dir))) as Hnodir.
  { intros Hd. pose proof (is_dir_false_parts _ _ Hd) as Hparts.
    pose proof (parent_ne _ Hparts) as Hparent.
    unfold make_build_dir. rewrite Hd, andb_false_r. simpl.
    rewrite andb_true_r.
    destruct (fs !! build_dir) as [[|c]|] eqn:Hlookup.
    - apply (is_dir_Some_Dir _ _ Hparts) in Hlookup. congruence.
    - assert (path_exists fs build_dir = true) as ->.
      { unfold path_exists. destruct (parts build_dir); [done|].
        apply bool_decide_eq_true. by rewrite Hlookup. }
      unfold os_remove. destruct (parts build_dir) eqn:Hp; [done|].
      rewrite Hlookup. simpl. unfold os_mkdir.
      rewrite path_exists_None;
        [|by rewrite Hp|apply lookup_delete_eq].
      rewrite is_dir_delete_ne by done.
      by rewrite insert_delete_eq, lookup_error_delete.
    - rewrite path_exists_None by done. simpl. unfold os_mkdir.
      by rewrite path_exists_None. }
  split_and!.
  - intros Hd. unfold make_build_dir.
    by rewrite (is_dir_path_exists _ _ Hd), Hd.
  - intros Hd Hp. by rewrite Hnodir, Hp.
  - intros Hd Hp. by rewrite Hnodir, Hp.
  - intros fs' H. destruct (is_dir fs build_dir) eqn:Hd.
    + unfold make_build_dir in H.
      rewrite (is_dir_path_exists _ _ Hd), Hd in H. by injection H as <-.
    + rewrite Hnodir in H by done.
      destruct (is_dir fs (parent build_dir)); [|done]. injection H as <-.
      split.
      * apply is_dir_Some_Dir; [by apply is_dir_false_parts in Hd|].
        apply lookup_insert_eq.
      * intros p Hp. by apply lookup_insert_ne.
Qed.

Lemma output_dir_errors (build_dir : Path) (fs : FS) :
  well_formed fs = true →
  (∀ c, fs !! parent build_dir = Some (File c) →
        make_build_dir build_dir fs = Raise NotADirectoryError)
  ∧ (parts (parent build_dir) ≠ [] → fs !! parent build_dir = None →
     is_dir fs (parent (parent build_dir)) = true →
     make_build_dir build_dir fs = Raise FileNotFoundError).
Proof.
  intros Hwf.
  assert (parts (parent build_dir) ≠ [] → fs !! parent build_dir ≠ Some Dir →
          is_dir fs build_dir = false ∧ is_dir fs (parent build_dir) = false)
    as Hno.
  { intros Hpp Hnodir.
    assert (is_dir fs (parent build_dir) = false) as Hp.
    { apply not_true_iff_false. by intros ?%is_dir_Some_Dir. }
    split; [|done]. apply not_true_iff_false. intros Hd.
    assert (parts build_dir ≠ []) as Hparts.
    { intros Heq. apply Hpp. simpl. by rewrite Heq. }
    apply is_dir_Some_Dir in Hd; [|done].
    apply (well_formed_lookup _ _ _ Hwf) in Hd as [_ Hd]. congruence. }
  destruct (output_dir_made build_dir fs) as (_ & _ & Herr & _).
  split.
  - intros c Hfile.
    destruct (well_formed_lookup _ _ _ Hwf Hfile) as [Hpp Hgp].
    destruct Hno as [Hd Hp]; [done|congruence|].
    rewrite Herr, lookup_error_at, Hfile by done. done.
  - intros Hpp Hnone Hgp.
    destruct Hno as [Hd Hp]; [done|congruence|].
    rewrite Herr, lookup_error_at, Hnone by done. done.
Qed.

(** X12: [make_build_dir] leaves an existing directory and all of the file
    system alone; when the path is absent or a file, it ends as an empty
    directory provided its parent directory exists (the directories above
    are not made).  Otherwise the call raises the error of [os.mkdir]: in a
    well-formed file system [NotADirectoryError] when the parent is a
    regular file, and [FileNotFoundError] when the parent is missing from an
    existing directory.  On success the path is a directory and no other
    path has changed. *)
Theorem make_build_dir_cases (build_dir : Path) (fs : FS) :
  (is_dir fs build_dir = true → make_build_dir build_dir fs = Ok fs)
  ∧ (is_dir fs build_dir = false → is_dir fs (parent build_dir) = true →
     make_build_dir build_dir fs = Ok (<[build_dir := Dir]> fs))
  ∧ (is_dir fs build_dir = false → is_dir fs (parent build_dir) = false →
     make_build_dir build_dir fs = Raise (lookup_error fs (parent build_dir)))
  ∧ (well_formed fs = true →
     (∀ c, fs !! parent build_dir = Some (File c) →
           make_build_dir build_dir fs = Raise NotADirectoryError)
     ∧ (parts (parent build_dir) ≠ [] → fs !! parent build_dir = None →
        is_dir fs (parent (parent build_dir)) = true →
        make_build_dir build_dir fs = Raise FileNotFoundError))
  ∧ (∀ fs', make_build_dir build_dir fs = Ok fs' →
       is_dir fs' build_dir = true ∧ ∀ p, p ≠ build_dir → fs' !! p = fs !! p).
Proof.
  destruct (output_dir_made build_dir fs) as (H1 & H2 & H3 & H4).
  split_and!; [done..| |done]. apply output_dir_errors.
Qed.

(** X12 at an output path below a regular file, and at one below a missing
    directory. *)
Lemma make_build_dir_cases_witness :
  make_build_dir (Path_of_string "out/site") fs_file_above
  = Raise NotADirectoryError
  ∧ make_build_dir (Path_of_string "site_out/pages") fs_site_src
    = Raise FileNotFoundError
  ∧ make_build_dir (Path_of_string "site_out") fs_site_src
    = Ok (<[Path_of_string "site_out" := Dir]> fs_site_src).
Proof.
  split_and!.
  - destruct (make_build_dir_cases (Path_of_string "out/site") fs_file_above)
      as (_ & _ & _ & H & _).
    destruct H as [H _]; [reflexivity|]. by apply (H "notes").
  - destruct (make_build_dir_cases (Path_of_string "site_out/pages") fs_site_src)
      as (_ & _ & _ & H & _).
    destruct H as [_ H]; [reflexivity|]. by apply H.
  - by apply (make_build_dir_cases (Path_of_string "site_out") fs_site_src).
Defined.

Lemma within_extend (p k : Path) :
  within p k = true ↔ ∃ rel, k = extend p rel.
Proof.
  unfold within. rewrite andb_true_iff, !bool_decide_eq_true. split.
  - intros [Ha [rel Hrel]]. exists rel.
    apply strip_prefix_Some in Hrel. destruct k as [ak pk]. simpl in *.
    unfold extend. by rewrite Ha, Hrel.
  - intros [rel ->]. simpl. split; [done|]. exists rel.
    by apply strip_prefix_Some.
Qed.

Lemma output_dir_removed (build_dir : Path) (fs : FS) :
  parts build_dir ≠ [] →
  (fs !! build_dir = None → clean build_dir fs = Ok fs)
  ∧ (∀ c, fs !! build_dir = Some (File c) →
          clean build_dir fs = Raise NotADirectoryError)
  ∧ (fs !! build_dir = Some Dir →
     ∃ fs', clean build_dir fs = Ok fs'
            ∧ (∀ rel, fs' !! extend build_dir rel = None)
            ∧ (∀ k, within build_dir k = false → fs' !! k = fs !! k)).
Proof.
  intros Hparts. unfold clean, rmtree, path_exists.
  destruct (parts build_dir) eqn:Hp; [done|]. split_and!.
  - intros ->. rewrite bool_decide_eq_false_2; [done|]. by intros [? ?].
  - intros c ->. by rewrite bool_decide_eq_true_2.
  - intros ->. rewrite bool_decide_eq_true_2 by done.
    eexists. split_and!; [done|..].
    + intros rel. apply map_lookup_filter_None. right. intros n _. simpl.
      rewrite (proj2 (within_extend build_dir (extend build_dir rel))); [done|].
      by exists rel.
    + intros k Hk. destruct (fs !! k) as [n|] eqn:Hlookup.
      * by apply map_lookup_filter_Some.
      * apply map_lookup_filter_None. by left.
Qed.

(** X13: [clean] does nothing when the directory is absent and raises
    [NotADirectoryError] when a file has its name; when the directory is
    there, the directory and everything below it are removed and every
    path outside of it is as it was. *)
Theorem clean_cases (build_dir : Path) (fs : FS) :
  parts build_dir ≠ [] →
  (fs !! build_dir = None → clean build_dir fs = Ok fs)
  ∧ (∀ c, fs !! build_dir = Some (File c) →
          clean build_dir fs = Raise NotADirectoryError)
  ∧ (fs !! build_dir = Some Dir →
     ∃ fs', clean build_dir fs = Ok fs'
            ∧ (∀ rel, fs' !! extend build_dir rel = None)
            ∧ (∀ k, within build_dir k = false → fs' !! k = fs !! k)).
Proof. exact (output_dir_removed build_dir fs). Qed.

Lemma clean_cases_witness :
  ∃ fs', clean (Path_of_string "site_out") fs_site = Ok fs'
         ∧ fs' !! Path_of_string "site_out/static/old.css" = None
         ∧ fs' !! Path_of_string "site_src/static/style.css"
           = Some (File "body {}").
Proof.
  destruct (clean_cases (Path_of_string "site_out") fs_site) as (_ & _ & H);
    [done|].
  destruct H as (fs' & Hclean & Hgone & Hkept); [reflexivity|].
  exists fs'. split_and!; [done|..].
  - apply (Hgone ["static"; "old.css"]).
  - rewrite Hkept; reflexivity.
Defined.

Lemma foldR_app {A S} (f : A → S → result S) (l1 l2 : list A) (s : S) :
  foldR f (l1 ++ l2) s = foldR f l1 s ≫= foldR f l2.
Proof.
  revert s. induction l1 as [|x l1 IH]; intros s; simpl; [done|].
  destruct (f x s) as [s'|e]; simpl; [apply IH|done].
Qed.

Lemma copy_static_fresh (static_dir build_dir : Path) (fs : FS) :
  parts build_dir ≠ [] →
  (∀ rel, fs !! extend build_dir rel = None) →
  (∀ p, p ∈ ancestors build_dir → p ≠ build_dir → is_dir fs p = true) →
  is_dir fs static_dir = true →
  separate static_dir build_dir = true →
  let dst := joinpath build_dir (Path_of_string "static") in
  ∃ fs',
    copy_static static_dir build_dir fs = Ok fs'
    ∧ fs' !! build_dir = Some Dir
    ∧ fs' !! dst = Some Dir
    ∧ (∀ rel, rel ≠ [] → fs' !! extend dst rel = fs !! extend static_dir rel)
    ∧ (∀ k, k ≠ build_dir → (∀ rel, k ≠ extend dst rel) → fs' !! k = fs !! k).
Proof.
  intros Hparts Hfresh Habove Hsrc Hsep dst.
  assert (dst = extend build_dir ["static"]) as Hdst by done.
  assert (∀ rel, extend dst rel = extend build_dir ("static" :: rel)) as Hdstrel.
  { intros rel. rewrite Hdst. unfold extend. simpl. by rewrite <- app_assoc. }
  assert (fs !! build_dir = None) as Hnone.
  { specialize (Hfresh []). by rewrite extend_nil in Hfresh. }
  assert (dst ≠ build_dir) as Hdb by (rewrite Hdst; by apply extend_ne).
  assert (∀ r1 r2, extend static_dir r1 ≠ extend build_dir r2) as Hsep'
    by (intros; by apply separate_extend).
  (* the output directory is made *)
  set (fs1 := <[build_dir := Dir]> fs).
  assert (make_build_dir build_dir fs = Ok fs1) as Hmake.
  { apply output_dir_made.
    - unfold is_dir. destruct (parts build_dir); [done|].
      apply bool_decide_eq_false_2. by rewrite Hnone.
    - destruct (parts (parent build_dir)) eqn:Hpp.
      { unfold is_dir. by rewrite Hpp. }
      apply Habove; [|by apply parent_ne].
      apply list_elem_of_fmap. exists (pred (length (parts build_dir))). split.
      + unfold parent. f_equal. apply removelast_firstn_len.
      + apply elem_of_seq. simpl in Hpp.
        assert (length (removelast (parts build_dir))
                = pred (length (parts build_dir))) as Hlen
          by (rewrite removelast_firstn_len, length_take; lia).
        rewrite Hpp in Hlen. simpl in Hlen.
        destruct (parts build_dir); [done|]. simpl in *. lia. }
  assert (∀ rel, fs1 !! extend static_dir rel = fs !! extend static_dir rel)
    as Hsrc1.
  { intros rel. apply lookup_insert_ne. rewrite <- (extend_nil build_dir).
    apply not_eq_sym, Hsep'. }
  assert (is_dir fs1 static_dir = true) as Hsrcdir.
  { rewrite (is_dir_lookup_eq fs); [done|].
    specialize (Hsrc1 []). by rewrite extend_nil in Hsrc1. }
  assert (∀ rel, fs1 !! extend dst rel = None) as Hbelow.
  { intros rel. unfold fs1. rewrite lookup_insert_ne, Hdstrel; [done|].
    rewrite Hdstrel. apply not_eq_sym, extend_ne. done. }
  (* the directories of the destination *)
  set (fs2 := <[dst := Dir]> fs1).
  assert (mkdir_parents dst fs1 = Ok fs2) as Hmk.
  { unfold mkdir_parents. rewrite Hdst, ancestors_extend, foldR_app.
    rewrite mkdir_parents_present.
    - simpl. unfold mkdir_exist_ok. rewrite <- Hdst.
      specialize (Hbelow []). rewrite extend_nil in Hbelow.
      assert (parts dst ≠ []) as Hdparts
        by (rewrite Hdst; by apply extend_parts_ne).
      assert (is_dir fs1 dst = false) as ->.
      { unfold is_dir. destruct (parts dst); [done|].
        apply bool_decide_eq_false_2. by rewrite Hbelow. }
      by rewrite path_exists_None.
    - intros p Hp. destruct (decide (p = build_dir)) as [->|Hne].
      + apply is_dir_Some_Dir; [done|]. apply lookup_insert_eq.
      + unfold fs1. rewrite is_dir_insert_ne by done. by apply Habove. }
  assert (∀ rel, rel ≠ [] → fs2 !! extend dst rel = None) as Hbelow2.
  { intros rel Hrel. unfold fs2.
    rewrite lookup_insert_ne by (by apply not_eq_sym, extend_ne). apply Hbelow. }
  assert (copy_target fs2 <$> copy_image static_dir dst fs1
          = copy_image static_dir dst fs1) as Himage.
  { rewrite <- (list_fmap_id (copy_image static_dir dst fs1)) at 2.
    apply list_fmap_ext. intros i [k n] Hin%list_elem_of_lookup_2.
    apply elem_of_copy_image in Hin as (rel & Hrel & _ & ->).
    unfold copy_target. simpl. rewrite Hbelow2 by done. by destruct n. }
  exists (list_to_map (copy_image static_dir dst fs1) ∪ fs2). split_and!.
  - unfold copy_static. rewrite Hmake. simpl. fold dst. unfold copytree_new.
    rewrite (is_dir_path_exists _ _ Hsrcdir), Hsrcdir. simpl.
    rewrite path_exists_None;
      [|rewrite Hdst; by apply extend_parts_ne
       |specialize (Hbelow []); by rewrite extend_nil in Hbelow].
    rewrite Hmk. simpl. rewrite Himage.
    assert (existsb (λ kn : Path * node,
                       bool_decide (kn.2 = Dir) && path_exists fs2 kn.1)
              (copy_image static_dir dst fs1) = false) as ->.
    { apply not_true_iff_false. intros ([k n] & Hin & Hk)%existsb_exists.
      apply list_elem_of_In, elem_of_copy_image in Hin as (rel & Hrel & _ & ->).
      simpl in Hk. apply andb_true_iff in Hk as [_ Hk].
      rewrite path_exists_None in Hk;
        [done|by apply extend_parts_ne|by apply Hbelow2]. }
    assert (existsb (kind_conflict fs2) (copy_image static_dir dst fs1) = false)
      as ->; [|done].
    apply not_true_iff_false. intros ([k n] & Hin & Hk)%existsb_exists.
    apply list_elem_of_In, elem_of_copy_image in Hin as (rel & Hrel & _ & ->).
    unfold kind_conflict in Hk. simpl in Hk. by rewrite Hbelow2 in Hk.
  - rewrite lookup_union_r.
    + unfold fs2, fs1. rewrite lookup_insert_ne by done. apply lookup_insert_eq.
    + apply copy_image_lookup_None. intros rel Hrel Heq.
      rewrite Hdstrel in Heq. symmetry in Heq. by apply extend_ne in Heq.
  - rewrite lookup_union_r; [apply lookup_insert_eq|].
    apply copy_image_lookup_None. intros rel Hrel Heq.
    symmetry in Heq. by apply extend_ne in Heq.
  - intros rel Hrel. rewrite <- Hsrc1.
    destruct (fs1 !! extend static_dir rel) as [n|] eqn:Hn.
    + apply lookup_union_Some_l. by apply copy_image_lookup.
    + rewrite lookup_union_r; [by apply Hbelow2|].
      apply copy_image_lookup_None. intros rel' Hrel' Heq.
      apply extend_inj in Heq as <-. done.
  - intros k Hkb Hk. rewrite lookup_union_r.
    + unfold fs2, fs1. rewrite !lookup_insert_ne; [done..|].
      specialize (Hk []). rewrite extend_nil in Hk. done.
    + apply copy_image_lookup_None. intros rel _ ->. by destruct (Hk rel).
Qed.


Lemma ancestor_within (p q : Path) :
  q ∈ ancestors p → q ≠ p → within p q = false.
Proof.
  intros (n & -> & Hn)%list_elem_of_fmap Hne.
  apply not_true_iff_false. intros (rel & Heq)%within_extend.
  apply Hne. unfold extend in Heq. injection Heq as Heq.
  assert (rel = []) as ->.
  { apply (f_equal length) in Heq. rewrite length_app, length_take in Heq.
    destruct rel; [done|]. simpl in Heq. lia. }
  rewrite app_nil_r in Heq. rewrite Heq. by destruct p.
Qed.

Lemma static_extend (build_dir : Path) (rel : list string) :
  extend (joinpath build_dir (Path_of_string "static")) rel
  = extend build_dir ("static" :: rel).
Proof. unfold extend, joinpath. simpl. by rewrite <- app_assoc. Qed.

(** X14: after [clean], [copy_static] succeeds and the output directory
    holds the site assets and nothing else: [build_dir] and
    [build_dir/static] are directories, below [build_dir/static] there is
    exactly the tree of the assets directory, and every path outside of
    [build_dir] is as it was before [clean].  This holds on a first build,
    where the output directory is absent and [clean] does nothing, as well
    as over the output of an earlier build.  It takes a well-formed file
    system in which the parent of the output directory exists and the output
    path is absent or a directory, an assets directory, and separate source
    and output trees. *)
Theorem copy_static_after_clean (static_dir build_dir : Path) (fs : FS) :
  well_formed fs = true →
  parts build_dir ≠ [] →
  is_dir fs (parent build_dir) = true →
  negb (path_exists fs build_dir) || is_dir fs build_dir = true →
  is_dir fs static_dir = true →
  separate static_dir build_dir = true →
  let dst := joinpath build_dir (Path_of_string "static") in
  ∃ fs0 fs',
    clean build_dir fs = Ok fs0
    ∧ copy_static static_dir build_dir fs0 = Ok fs'
    ∧ fs' !! build_dir = Some Dir
    ∧ fs' !! dst = Some Dir
    ∧ (∀ rel, rel ≠ [] → fs' !! extend dst rel = fs !! extend static_dir rel)
    ∧ (∀ c rel, c ≠ "static" → fs' !! extend build_dir (c :: rel) = None)
    ∧ (∀ k, within build_dir k = false → fs' !! k = fs !! k).
Proof.
  intros Hwf Hparts Hparent Hout Hsrc Hsep dst.
  assert (∀ p, p ∈ ancestors build_dir → p ≠ build_dir → is_dir fs p = true)
    as Habove.
  { intros p Hp Hne. rewrite (ancestors_parent _ Hparts) in Hp.
    apply elem_of_app in Hp as [Hp|Hp].
    - by apply (well_formed_above fs (parent build_dir)).
    - by apply list_elem_of_singleton in Hp. }
  (* the file system once the output is cleaned *)
  assert (∃ fs0, clean build_dir fs = Ok fs0
                 ∧ (∀ rel, fs0 !! extend build_dir rel = None)
                 ∧ (∀ k, within build_dir k = false → fs0 !! k = fs !! k))
    as (fs0 & Hfs0 & Hgone & Hkept).
  { destruct (output_dir_removed build_dir fs Hparts)
      as (Habsent & _ & Hclean).
    destruct (fs !! build_dir) as [[|c]|] eqn:Hlookup.
    - by apply Hclean.
    - assert (path_exists fs build_dir = true) as Hex.
      { unfold path_exists. destruct (parts build_dir); [done|].
        apply bool_decide_eq_true. by rewrite Hlookup. }
      assert (is_dir fs build_dir = false) as Hd.
      { apply not_true_iff_false. intros Hd%is_dir_Some_Dir; [congruence|done]. }
      by rewrite Hex, Hd in Hout.
    - exists fs. split_and!; [by apply Habsent| |done].
      by apply well_formed_below. }
  assert (∀ r1 r2, extend static_dir r1 ≠ extend build_dir r2) as Hsep'
    by (intros; by apply separate_extend).
  assert (∀ rel, fs0 !! extend static_dir rel = fs !! extend static_dir rel)
    as Hsrc0.
  { intros rel. apply Hkept, not_true_iff_false.
    intros (rel' & Heq)%within_extend. by apply Hsep' in Heq. }
  destruct (copy_static_fresh static_dir build_dir fs0)
    as (fs' & Hcopy & Hb & Hd & Htree & Hrest); [done|done| | |done|].
  { intros p Hp Hne. rewrite (is_dir_lookup_eq fs); [by apply Habove|].
    by apply Hkept, ancestor_within. }
  { rewrite (is_dir_lookup_eq fs); [done|].
    specialize (Hsrc0 []). by rewrite extend_nil in Hsrc0. }
  exists fs0, fs'. split_and!; [done..| | |].
  - intros rel Hrel. by rewrite Htree, Hsrc0.
  - intros c rel Hc. rewrite Hrest; [apply Hgone|by apply extend_ne|].
    intros rel' Heq. unfold dst in Heq. rewrite static_extend in Heq.
    apply extend_inj in Heq. congruence.
  - intros k Hk. rewrite Hrest; [by apply Hkept| |].
    + intros ->. rewrite (proj2 (within_extend build_dir build_dir)) in Hk;
        [done|]. exists []. by rewrite extend_nil.
    + intros rel ->. unfold dst in Hk. rewrite static_extend in Hk.
      rewrite (proj2 (within_extend build_dir _)) in Hk; [done|]. eauto.
Qed.

(** X14 on a first build, without an output directory, and over the output
    of an earlier build, whose stale files are gone. *)
Lemma copy_static_after_clean_witness :
  (∃ fs',
     clean (Path_of_string "site_out") fs_site_src = Ok fs_site_src
     ∧ copy_static (Path_of_string "site_src/static")
         (Path_of_string "site_out") fs_site_src = Ok fs'
     ∧ fs' !! Path_of_string "site_out" = Some Dir
     ∧ fs' !! Path_of_string "site_out/static/img/logo.png"
       = Some (File "logo"))
  ∧ ∃ fs0 fs',
      clean (Path_of_string "site_out") fs_site = Ok fs0
      ∧ copy_static (Path_of_string "site_src/static")
          (Path_of_string "site_out") fs0 = Ok fs'
      ∧ fs' !! Path_of_string "site_out/static/img/logo.png"
        = Some (File "logo")
      ∧ fs' !! Path_of_string "site_out/static/old.css" = None
      ∧ fs' !! Path_of_string "site_out/blog.html" = None.
Proof.
  split.
  - destruct (copy_static_after_clean (Path_of_string "site_src/static")
                (Path_of_string "site_out") fs_site_src)
      as (fs0 & fs' & Hclean & Hcopy & Hout & _ & Htree & _);
      [reflexivity|done|reflexivity|reflexivity|reflexivity|reflexivity|].
    assert (clean (Path_of_string "site_out") fs_site_src = Ok fs_site_src)
      as Hnoop by reflexivity.
    rewrite Hnoop in Hclean. injection Hclean as <-.
    exists fs'. split_and!; [done|done|done|].
    apply (Htree ["img"; "logo.png"]). done.
  - destruct (copy_static_after_clean (Path_of_string "site_src/static")
                (Path_of_string "site_out") fs_site)
      as (fs0 & fs' & Hclean & Hcopy & _ & _ & Htree & Hnone & _);
      [reflexivity|done|reflexivity|reflexivity|reflexivity|reflexivity|].
    exists fs0, fs'. split_and!; [done|done|..].
    + apply (Htree ["img"; "logo.png"]). done.
    + apply (Htree ["old.css"]). done.
    + apply (Hnone "blog.html" []). done.
Defined.

Lemma copytree_new_exists (src dst : Path) (fs fs' : FS) :
  copytree_new src dst fs = Ok fs' → path_exists fs' dst = true.
Proof.
  unfold copytree_new.
  destruct (negb (path_exists fs src)); [done|].
  destruct (negb (is_dir fs src)); [done|].
  destruct (path_exists fs dst); [done|].
  intros (fs1 & Hmk & H)%bind_Ok.
  destruct (_ || _); [done|]. injection H as <-.
  unfold path_exists. destruct (parts dst) eqn:Hp; [done|].
  apply bool_decide_eq_true, lookup_union_is_Some. right.
  apply mkdir_parents_Ok in Hmk as (Hdirs & _).
  assert (is_dir fs1 dst = true) as Hd.
  { apply Hdirs. apply list_elem_of_fmap. exists (length (parts dst)). split.
    - destruct dst as [a ps]. simpl. by rewrite firstn_all.
    - apply elem_of_seq. rewrite Hp. simpl. lia. }
  apply is_dir_Some_Dir in Hd; [by rewrite Hd|by rewrite Hp].
Qed.

Lemma copy_static_exists_raises (static_dir build_dir : Path) (fs : FS) :
  path_exists fs (joinpath build_dir (Path_of_string "static")) = true →
  raises (copy_static static_dir build_dir fs).
Proof.
  intros Hex. unfold copy_static. apply bind_raises_r. intros fs1 Hmake.
  assert (path_exists fs1 (joinpath build_dir (Path_of_string "static")) = true)
    as Hex1.
  { apply output_dir_made in Hmake as [_ Hframe].
    unfold path_exists in *.
    destruct (parts (joinpath build_dir (Path_of_string "static"))); [done|].
    rewrite Hframe; [done|].
    change (joinpath build_dir (Path_of_string "static"))
      with (extend build_dir ["static"]).
    by apply extend_ne. }
  unfold copytree_new. rewrite Hex1.
  destruct (negb (path_exists fs1 static_dir)); [done|].
  by destruct (negb (is_dir fs1 static_dir)).
Qed.

(** X15: [copy_static] does not merge: when [build_dir/static] exists the
    call raises, with [FileExistsError] if the output and the assets
    directory are there; so a second [copy_static] after a successful one
    always raises, and the output has to be cleaned first. *)
Theorem copy_static_not_twice (static_dir build_dir : Path) (fs : FS) :
  (path_exists fs (joinpath build_dir (Path_of_string "static")) = true →
   raises (copy_static static_dir build_dir fs))
  ∧ (path_exists fs (joinpath build_dir (Path_of_string "static")) = true →
     is_dir fs build_dir = true → is_dir fs static_dir = true →
     copy_static static_dir build_dir fs = Raise FileExistsError)
  ∧ (∀ fs', copy_static static_dir build_dir fs = Ok fs' →
            raises (copy_static static_dir build_dir fs')).
Proof.
  split_and!.
  - apply copy_static_exists_raises.
  - intros Hex Hb Hs. unfold copy_static.
    rewrite (proj1 (output_dir_made build_dir fs) Hb). simpl.
    unfold copytree_new. by rewrite (is_dir_path_exists _ _ Hs), Hs, Hex.
  - intros fs' (fs1 & _ & Hcopy)%bind_Ok.
    by apply copy_static_exists_raises, (copytree_new_exists static_dir _ fs1).
Qed.

Lemma copy_static_not_twice_witness :
  copy_static (Path_of_string "site_src/static") (Path_of_string "site_out")
    fs_site = Raise FileExistsError.
Proof.
  apply (copy_static_not_twice (Path_of_string "site_src/static")
           (Path_of_string "site_out") fs_site); reflexivity.
Defined.

(** ** New posts and projects *)

Lemma scaffold_n_post name dir templates_dir template fs :
  n_post name dir templates_dir template fs
  = scaffold "Post" "post.json" name dir templates_dir template fs.
Proof. reflexivity. Qed.

Lemma scaffold_n_proj name dir templates_dir template fs :
  n_proj name dir templates_dir template fs
  = scaffold "Project" "proj.json" name dir templates_dir template fs.
Proof. reflexivity. Qed.

Lemma os_mkdir_Ok (p : Path) (fs fs' : FS) :
  os_mkdir p fs = Ok fs' →
  parts p ≠ [] ∧ fs !! p = None ∧ is_dir fs (parent p) = true
  ∧ fs' = <[p := Dir]> fs.
Proof.
  unfold os_mkdir. destruct (path_exists fs p) eqn:He; [done|].
  destruct (is_dir fs (parent p)) eqn:Hd; [|done]. intros [= <-].
  unfold path_exists in He. destruct (parts p) eqn:Hp; [done|].
  apply bool_decide_eq_false in He. split_and!; try done.
  by apply eq_None_not_Some.
Qed.

Lemma read_text_Ok (p : Path) (fs : FS) (text : string) :
  read_text p fs = Ok text ↔ parts p ≠ [] ∧ fs !! p = Some (File text).
Proof.
  unfold read_text. destruct (parts p); [naive_solver|].
  destruct (fs !! p) as [[|c]|]; naive_solver.
Qed.

Lemma scaffold_Ok (what file name : string) (dir templates_dir : Path)
    (template : string) (fs fs' : FS) :
  path_component file = true → starts_with_slash file = false →
  split_on "/" file = [file] →
  scaffold what file name dir templates_dir template fs = Ok fs' →
  let new_path := joinpath dir (Path_of_string name) in
  ∃ text,
    fs !! joinpath templates_dir (Path_of_string template) = Some (File text)
    ∧ fs !! new_path = None
    ∧ fs' = <[extend new_path [file] := File text]>
              (<[extend new_path ["static"] := Dir]> (<[new_path := Dir]> fs)).
Proof.
  intros Hcomp Hrel Hsplit H new_path. unfold scaffold in H. fold new_path in H.
  destruct (path_exists fs new_path); [done|].
  apply bind_Ok in H as (fs1 & H1 & H).
  apply bind_Ok in H as (fs2 & H2 & H).
  apply os_mkdir_Ok in H1 as (Hp1 & Hnone1 & _ & ->).
  apply os_mkdir_Ok in H2 as (_ & Hnone2 & _ & ->).
  unfold copyfile in H. case_bool_decide as Hsame; [done|].
  apply bind_Ok in H as (text & Hread & Hw).
  apply read_text_Ok in Hread as [Htp Hread].
  apply write_text_Ok in Hw as ->.
  assert (joinpath new_path (Path_of_string file) = extend new_path [file])
    as Hfile.
  { unfold joinpath, Path_of_string, extend. simpl.
    by rewrite Hrel, Hsplit; simpl; rewrite Hcomp. }
  exists text. split_and!.
  - destruct (decide (extend new_path ["static"]
                      = joinpath templates_dir (Path_of_string template)))
      as [Heq|Hne1].
    { rewrite <- Heq in Hread.
      change (joinpath new_path (Path_of_string "static"))
        with (extend new_path ["static"]) in Hread.
      by rewrite lookup_insert_eq in Hread. }
    change (joinpath new_path (Path_of_string "static"))
      with (extend new_path ["static"]) in Hread.
    rewrite lookup_insert_ne in Hread by done.
    destruct (decide (new_path
                      = joinpath templates_dir (Path_of_string template)))
      as [Heq|Hne2].
    { rewrite <- Heq in Hread. by rewrite lookup_insert_eq in Hread. }
    by rewrite lookup_insert_ne in Hread.
  - done.
  - by rewrite Hfile.
Qed.

(** X16: [n_post] and [n_proj] refuse a name that is taken, with
    [ValueError].  When they succeed, the new directory
    was absent, and the result is the file system with three more entries:
    the directory, its empty [static] directory and the descriptor, a copy
    of the template; nothing else has changed.  A second call with the same
    name raises. *)
Theorem scaffold_effect (name : string) (dir templates_dir : Path)
    (template : string) (fs : FS) :
  let new_path := joinpath dir (Path_of_string name) in
  (path_exists fs new_path = true →
   n_post name dir templates_dir template fs
   = Raise (ValueError ("Post already exists at " +:+ dquote
                        +:+ Path_str new_path +:+ dquote))
   ∧ n_proj name dir templates_dir template fs
     = Raise (ValueError ("Project already exists at " +:+ dquote
                          +:+ Path_str new_path +:+ dquote)))
  ∧ (∀ fs', n_post name dir templates_dir template fs = Ok fs' →
       (∃ text,
          fs !! joinpath templates_dir (Path_of_string template)
            = Some (File text)
          ∧ fs !! new_path = None
          ∧ fs' = <[extend new_path ["post.json"] := File text]>
                    (<[extend new_path ["static"] := Dir]>
                       (<[new_path := Dir]> fs)))
       ∧ raises (n_post name dir templates_dir template fs'))
  ∧ (∀ fs', n_proj name dir templates_dir template fs = Ok fs' →
       (∃ text,
          fs !! joinpath templates_dir (Path_of_string template)
            = Some (File text)
          ∧ fs !! new_path = None
          ∧ fs' = <[extend new_path ["proj.json"] := File text]>
                    (<[extend new_path ["static"] := Dir]>
                       (<[new_path := Dir]> fs)))
       ∧ raises (n_proj name dir templates_dir template fs')).
Proof.
  intros new_path.
  assert (∀ what file fs',
            path_component file = true → starts_with_slash file = false →
            split_on "/" file = [file] →
            scaffold what file name dir templates_dir template fs = Ok fs' →
            raises (scaffold what file name dir templates_dir template fs'))
    as Hagain.
  { intros what file fs' Hc Hr Hs H.
    pose proof H as Hfirst. unfold scaffold in Hfirst. fold new_path in Hfirst.
    destruct (path_exists fs new_path) eqn:Hex; [done|].
    apply (scaffold_Ok _ _ _ _ _ _ _ _ Hc Hr Hs) in H as (text & _ & _ & ->).
    fold new_path. unfold scaffold. fold new_path.
    assert (path_exists
              (<[extend new_path [file] := File text]>
                 (<[extend new_path ["static"] := Dir]>
                    (<[new_path := Dir]> fs))) new_path = true) as ->; [|done].
    unfold path_exists. destruct (parts new_path) eqn:Hp; [done|].
    apply bool_decide_eq_true.
    rewrite lookup_insert_ne by (by apply extend_ne).
    rewrite lookup_insert_ne by (by apply extend_ne).
    by rewrite lookup_insert_eq. }
  split_and!.
  - intros Hex. split.
    + unfold n_post. fold new_path. by rewrite Hex.
    + unfold n_proj. fold new_path. by rewrite Hex.
  - intros fs' H. rewrite scaffold_n_post in H. split.
    + by apply (scaffold_Ok "Post" "post.json") in H.
    + rewrite scaffold_n_post. by apply Hagain.
  - intros fs' H. rewrite scaffold_n_proj in H. split.
    + by apply (scaffold_Ok "Project" "proj.json") in H.
    + rewrite scaffold_n_proj. by apply Hagain.
Qed.

Lemma scaffold_effect_witness :
  ∃ fs',
    n_post "trip" (Path_of_string "blog_posts") (Path_of_string "templates")
      "post_temp.json" fs_scaffold = Ok fs'
    ∧ raises (n_post "trip" (Path_of_string "blog_posts")
                (Path_of_string "templates") "post_temp.json" fs').
Proof.
  destruct (not_raises_Ok
              (n_post "trip" (Path_of_string "blog_posts")
                 (Path_of_string "templates") "post_temp.json" fs_scaffold))
    as [fs' H]; [vm_compute; tauto|].
  exists fs'. split; [done|].
  by apply (scaffold_effect "trip" (Path_of_string "blog_posts")
              (Path_of_string "templates") "post_temp.json" fs_scaffold).
Defined.

Lemma split_on_not_nil (a : ascii) (s : string) : split_on a s ≠ [].
Proof.
  destruct s as [|b s]; simpl; [done|].
  destruct (Ascii.eqb b a); [done|]. by destruct (split_on a s).
Qed.

Lemma split_on_word (a : ascii) (s w : string) :
  w ∈ split_on a s → split_on a w = [w].
Proof.
  revert w. induction s as [|b s IH]; intros w; simpl.
  - by intros ->%list_elem_of_singleton.
  - destruct (Ascii.eqb b a) eqn:Hb.
    + intros [->|Hw]%elem_of_cons; [done|]. by apply IH.
    + destruct (split_on a s) as [|w0 ws] eqn:Hs.
      { by destruct (split_on_not_nil a s). }
      intros [->|Hw]%elem_of_cons.
      * simpl. rewrite Hb. rewrite (IH w0) by left. done.
      * apply IH. by right.
Qed.

Lemma split_on_app_sep (a : ascii) (w rest : string) :
  split_on a w = [w] →
  split_on a (w +:+ String a rest) = w :: split_on a rest.
Proof.
  induction w as [|b w IH]; simpl.
  - intros _. by rewrite Ascii.eqb_refl.
  - destruct (Ascii.eqb b a) eqn:Hb.
    + intros [=].
    + destruct (split_on a w) as [|w0 ws] eqn:Hs.
      { by destruct (split_on_not_nil a w). }
      intros [= -> ->]. by rewrite IH.
Qed.

Lemma extend_extend (p : Path) (a b : list string) :
  extend (extend p a) b = extend p (a ++ b).
Proof. unfold extend. simpl. by rewrite <- app_assoc. Qed.

Lemma glob_subdirs_elem (file : string) (root : Path) (fs : FS) (s : string) :
  s ∈ glob_subdirs file root fs
  ↔ is_dir fs root = true
    ∧ ∃ k, fs !! k = Some Dir ∧ parts k ≠ [] ∧ parent k = root
           ∧ hidden (name_of k) = false
           ∧ path_exists fs (extend k [file]) = true
           ∧ s = name_of k +:+ "/" +:+ file.
Proof.
  unfold glob_subdirs. destruct (is_dir fs root); simpl.
  - rewrite list_elem_of_omap. split.
    + intros ([k n] & Hin%elem_of_map_to_list & Hk). simpl in Hk.
      destruct (bool_decide _ && _ && _) eqn:Hc; [|done].
      injection Hk as <-.
      apply andb_true_iff in Hc as [Hc Hex].
      apply andb_true_iff in Hc as [Hc Hh].
      apply bool_decide_eq_true in Hc as (Hp & Hpar & ->).
      apply negb_true_iff in Hh.
      split; [done|]. by exists k.
    + intros (_ & k & Hk & Hp & Hpar & Hh & Hex & ->).
      exists (k, Dir). split; [by apply elem_of_map_to_list|]. simpl.
      rewrite bool_decide_eq_true_2 by done. by rewrite Hh, Hex.
  - split; [by intros ?%elem_of_nil|]. by intros [? _].
Qed.

(** X17: a post made by [n_post] is found by the next build.  For a name
    that is one visible path component, the glob of [collect_posts] over the
    posts directory returns [<name>/post.json] after [n_post], and the file
    [parse_post] then opens holds the text of the descriptor template. *)
Theorem n_post_then_collect (name c : string) (post_dir templates_dir : Path)
    (post_template : string) (fs fs' : FS) :
  n_post name post_dir templates_dir post_template fs = Ok fs' →
  Path_of_string name = mkPath false [c] →
  hidden c = false →
  is_dir fs post_dir = true →
  (c +:+ "/post.json") ∈ glob_subdirs "post.json" post_dir fs'
  ∧ ∃ text,
      fs !! joinpath templates_dir (Path_of_string post_template)
        = Some (File text)
      ∧ read_text (joinpath post_dir (Path_of_string (c +:+ "/post.json"))) fs'
        = Ok text.
Proof.
  intros H Hname Hvisible Hdir.
  rewrite scaffold_n_post in H.
  apply (scaffold_Ok "Post" "post.json") in H as (text & Htmpl & Hnone & ->);
    [|done..].
  rewrite Hname in *.
  assert (joinpath post_dir (mkPath false [c]) = extend post_dir [c]) as Hnew
    by done.
  rewrite Hnew in *. set (new_path := extend post_dir [c]).
  assert (c ∈ split_on "/" name ∧ path_component c = true) as [Hc Hcomp].
  { assert (c ∈ List.filter path_component (split_on "/" name)) as Hin.
    { apply (f_equal parts) in Hname. simpl in Hname. rewrite Hname. left. }
    apply list_elem_of_In, filter_In in Hin as [Hin Hcomp].
    by apply list_elem_of_In in Hin. }
  apply split_on_word in Hc.
  assert (Path_of_string (c +:+ "/post.json") = mkPath false [c; "post.json"])
    as Hjson.
  { unfold Path_of_string. f_equal.
    - destruct c as [|b c']; [done|]. simpl in *.
      destruct (Ascii.eqb b "/") eqn:Hb; [|done].
      injection Hc as _ Hnil. by destruct (split_on_not_nil "/" c').
    - change (c +:+ "/post.json") with (c +:+ String "/" "post.json").
      rewrite split_on_app_sep by done. simpl. by rewrite Hcomp. }
  assert (joinpath post_dir (mkPath false [c; "post.json"])
          = extend new_path ["post.json"]) as Hfile.
  { unfold joinpath, new_path, extend. simpl. by rewrite <- app_assoc. }
  assert (parent new_path = post_dir ∧ name_of new_path = c) as [Hpar Hlast].
  { unfold parent, name_of, new_path, extend. simpl.
    rewrite removelast_last, last_last. by destruct post_dir. }
  split.
  - apply glob_subdirs_elem. split.
    + rewrite !is_dir_insert_ne; [done|by apply extend_ne|..].
      * unfold new_path. rewrite extend_extend. by apply extend_ne.
      * unfold new_path. rewrite extend_extend. by apply extend_ne.
    + exists new_path. split_and!.
      * rewrite !lookup_insert_ne by (by apply extend_ne).
        apply lookup_insert_eq.
      * by apply extend_parts_ne.
      * done.
      * by rewrite Hlast.
      * unfold path_exists.
        destruct (parts (extend new_path ["post.json"])); [done|].
        apply bool_decide_eq_true. by rewrite lookup_insert_eq.
      * by rewrite Hlast.
  - exists text. split; [done|].
    rewrite Hjson, Hfile. apply read_text_Ok. split.
    + by apply extend_parts_ne.
    + apply lookup_insert_eq.
Qed.

Lemma n_post_then_collect_witness :
  ∃ fs',
    n_post "trip" (Path_of_string "blog_posts") (Path_of_string "templates")
      "post_temp.json" fs_scaffold = Ok fs'
    ∧ "trip/post.json" ∈ glob_subdirs "post.json" (Path_of_string "blog_posts") fs'.
Proof.
  destruct (not_raises_Ok
              (n_post "trip" (Path_of_string "blog_posts")
                 (Path_of_string "templates") "post_temp.json" fs_scaffold))
    as [fs' H]; [vm_compute; tauto|].
  exists fs'. split; [done|].
  by apply (n_post_then_collect "trip" "trip" _ _ _ _ _ H).
Defined.

(** ** The projects listing and the projects build *)

Lemma write_text_raises (p : Path) (text : string) (fs : FS) :
  raises (write_text p text fs)
  ↔ is_dir fs p = true ∨ is_dir fs (parent p) = false.
Proof.
  unfold write_text. destruct (is_dir fs p); simpl; [naive_solver|].
  destruct (is_dir fs (parent p)); simpl; naive_solver.
Qed.

(** X18: [build_projects_page] writes [projects.html] in the output
    directory and changes no other path.  The page has one block for every
    project, the oldest project first, projects of the same date in the
    order given.  Rendering can not fail: the call raises only when the file
    can not be written. *)
Theorem build_projects_page_effect (T : Templates) (PT : ProjectTemplates)
    (projects : list ProjectBuildData) (site_build_dir projects_build_dir : Path)
    (fs : FS) :
  let file := joinpath site_build_dir (Path_of_string "projects.html") in
  let listed := sorted cron_sort false projects in
  (∀ fs', build_projects_page T PT projects site_build_dir projects_build_dir fs
          = Ok fs' →
     fs' = <[file :=
               File (projects_tmpl PT
                       (header_tmpl T "Projects - Alia Lescoulie" None)
                       (navbar_tmpl T None)
                       (join newline
                          (render_project_block PT projects_build_dir
                             <$> listed)))]> fs)
  ∧ (raises (build_projects_page T PT projects site_build_dir
               projects_build_dir fs)
     ↔ is_dir fs file = true ∨ is_dir fs (parent file) = false)
  ∧ listed ≡ₚ projects
  ∧ StronglySorted oldest_project_first listed
  ∧ (∀ d, filter (λ p, cron_sort p = d) listed
          = filter (λ p, cron_sort p = d) projects).
Proof.
  intros file listed. split_and!.
  - intros fs' H. unfold build_projects_page in H.
    by apply write_text_Ok in H.
  - apply write_text_raises.
  - apply sorted_perm.
  - apply (sorted_StronglySorted cron_sort false).
  - intros d. apply sorted_stable.
Qed.



(** Without any project, [build_projects] still writes the projects
    listing, with an empty list of blocks, and does nothing else: the call
    is the write of [projects.html], and raises only if that write does. *)
Theorem build_projects_no_projects (T : Templates) (PT : ProjectTemplates)
    (R : Runtime) (posts : list PostBuildData)
    (projects_src_dir site_build_dir posts_build_dir projects_build_dir : Path)
    (fs : FS) :
  glob_subdirs "proj.json" projects_src_dir fs = [] →
  build_projects T PT R posts projects_src_dir site_build_dir posts_build_dir
    projects_build_dir fs
  = write_text (joinpath site_build_dir (Path_of_string "projects.html"))
      (projects_tmpl PT (header_tmpl T "Projects - Alia Lescoulie" None)
         (navbar_tmpl T None) "") fs.
Proof.
  intros Hglob. unfold build_projects, collect_projects. by rewrite Hglob.
Qed.

Lemma build_projects_no_projects_witness :
  match build_projects plain_templates plain_project_templates plain_runtime []
          (Path_of_string "projects") (Path_of_string "site_out")
          (Path_of_string "posts") (Path_of_string "projects") fs_site_out with
  | Ok fs' =>
      fs' !! Path_of_string "site_out/projects.html"
      = Some (File "<head None>Projects - Alia Lescoulie|<nav None>|")
  | Raise _ => False
  end.
Proof.
  rewrite (build_projects_no_projects plain_templates plain_project_templates
             plain_runtime [] (Path_of_string "projects")
             (Path_of_string "site_out") (Path_of_string "posts")
             (Path_of_string "projects") fs_site_out);
    [|vm_compute; reflexivity].
  vm_compute. reflexivity.
Defined.

(** ** Tag pages at the edges *)

(** X20: when no post has a tag, [build_tags_pages] writes no page and
    returns the file system as it is. *)
Theorem build_tags_pages_no_tags (T : Templates) (posts : list PostBuildData)
    (site_build_dir post_build_dir : Path) (fs : FS) :
  (∀ post, post ∈ posts → tags (data post) = []) →
  build_tags_pages T posts site_build_dir post_build_dir fs = Ok fs.
Proof.
  intros Hnone. rewrite build_tags_pages_fold.
  assert (elements (tags_set posts) = []) as ->; [|done].
  apply elements_empty_iff, elem_of_equiv_empty. intros tag.
  rewrite elem_of_tags_set. intros (post & Hpost & Htag).
  rewrite (Hnone post Hpost) in Htag. by apply elem_of_nil in Htag.
Qed.

Lemma build_tags_pages_no_tags_witness :
  build_tags_pages plain_templates [january_post; june_post]
    (Path_of_string "site_out") (Path_of_string "posts") fs_site_out
  = Ok fs_site_out.
Proof.
  apply build_tags_pages_no_tags.
  intros post [->|Hin]%elem_of_cons; [done|].
  by apply list_elem_of_singleton in Hin as ->.
Defined.

(** ** What a build never removes *)

Lemma same_kind_refl (n : node) : same_kind n n = true.
Proof. by destruct n. Qed.

Lemma same_kind_trans (a b c : node) :
  same_kind a b = true → same_kind b c = true → same_kind a c = true.
Proof. by destruct a, b, c. Qed.

Lemma keeps_refl (fs : FS) : keeps fs fs.
Proof. intros p n H. exists n. split; [done|apply same_kind_refl]. Qed.

Lemma keeps_trans (fs1 fs2 fs3 : FS) :
  keeps fs1 fs2 → keeps fs2 fs3 → keeps fs1 fs3.
Proof.
  intros H12 H23 p n Hp.
  destruct (H12 p n Hp) as (n2 & Hp2 & Hk2).
  destruct (H23 p n2 Hp2) as (n3 & Hp3 & Hk3).
  exists n3. split; [done|]. by apply (same_kind_trans _ n2).
Qed.

Lemma keeps_exact (fs fs' : FS) :
  (∀ p n, fs !! p = Some n → fs' !! p = Some n) → keeps fs fs'.
Proof.
  intros H p n Hp. exists n. split; [by apply H|apply same_kind_refl].
Qed.

Lemma keeps_write_text (p : Path) (text : string) (fs fs' : FS) :
  write_text p text fs = Ok fs' → keeps fs fs'.
Proof.
  intros (Hfile & _ & ->)%write_text_Ok_inv q n Hq.
  destruct (decide (p = q)) as [<-|Hne].
  - exists (File text). split; [apply lookup_insert_eq|].
    destruct n; [|done].
    apply is_dir_Some_Dir in Hq; [congruence|by apply is_dir_false_parts in Hfile].
  - exists n. split; [by rewrite lookup_insert_ne|apply same_kind_refl].
Qed.

Lemma keeps_os_mkdir (p : Path) (fs fs' : FS) :
  os_mkdir p fs = Ok fs' → keeps fs fs'.
Proof.
  intros (_ & Hnone & _ & ->)%os_mkdir_Ok. apply keeps_exact.
  intros q n Hq. rewrite lookup_insert_ne; [done|]. congruence.
Qed.

Lemma keeps_mkdir_parents (p : Path) (fs fs' : FS) :
  mkdir_parents p fs = Ok fs' → keeps fs fs'.
Proof.
  intros (_ & _ & H & _)%mkdir_parents_Ok. by apply keeps_exact.
Qed.

Lemma existsb_false {A} (f : A → bool) (l : list A) (x : A) :
  existsb f l = false → x ∈ l → f x = false.
Proof.
  intros H Hx. apply not_true_iff_false. intros Hf.
  assert (existsb f l = true); [|congruence].
  apply existsb_exists. exists x. split; [by apply list_elem_of_In|done].
Qed.

Lemma keeps_copytree (src dst : Path) (fs fs' : FS) :
  copytree src dst fs = Ok fs' → keeps fs fs'.
Proof.
  unfold copytree.
  destruct (negb (path_exists fs src)); [done|].
  destruct (negb (is_dir fs src)); [done|].
  intros (fs1 & Hmk & H)%bind_Ok.
  destruct (existsb _ _) eqn:Hconf; [done|]. injection H as <-.
  apply (keeps_trans _ fs1); [by apply keeps_mkdir_parents in Hmk|].
  intros p n Hp.
  destruct ((list_to_map (copy_target fs1 <$> copy_image src dst fs) : FS) !! p)
    as [n'|] eqn:Himg.
  - exists n'. split; [by apply lookup_union_Some_l|].
    apply elem_of_list_to_map_2 in Himg.
    apply (existsb_false _ _ _ Hconf) in Himg.
    unfold kind_conflict in Himg. simpl in Himg. rewrite Hp in Himg.
    by destruct n, n'.
  - exists n. split; [|apply same_kind_refl].
    by rewrite lookup_union_r.
Qed.

Lemma keeps_stage (src dst : Path) (fs fs' : FS) :
  stage src dst fs = Ok fs' → keeps fs fs'.
Proof.
  unfold stage. intros (fs1 & H1 & H2)%bind_Ok.
  apply (keeps_trans _ fs1); [|by apply keeps_copytree in H2].
  destruct (negb (path_exists fs dst)).
  - by apply keeps_os_mkdir in H1.
  - injection H1 as <-. apply keeps_refl.
Qed.

Lemma foldR_keeps {A} (f : A → FS → result FS) (l : list A) (fs fs' : FS) :
  (∀ x s s', f x s = Ok s' → keeps s s') →
  foldR f l fs = Ok fs' → keeps fs fs'.
Proof.
  intros Hf. revert fs. induction l as [|x l IH]; intros fs H; simpl in H.
  - injection H as <-. apply keeps_refl.
  - apply bind_Ok in H as (s & Hx & H).
    apply (keeps_trans _ s); [by apply Hf in Hx|by apply IH].
Qed.

Lemma mapS_keeps {A B} (f : A → FS → result (B * FS)) (l : list A)
    (fs fs' : FS) (ys : list B) :
  (∀ x s y s', f x s = Ok (y, s') → keeps s s') →
  mapS f l fs = Ok (ys, fs') → keeps fs fs'.
Proof.
  intros Hf. revert fs ys. induction l as [|x l IH]; intros fs ys H; simpl in H.
  - injection H as <- <-. apply keeps_refl.
  - apply bind_Ok in H as ([y s] & Hx & H).
    apply bind_Ok in H as ([ys' s'] & Hl & [= <- <-]).
    apply (keeps_trans _ s); [by apply Hf in Hx|by apply IH in Hl].
Qed.

Lemma keeps_build_post_page (T : Templates) (site_build_dir post_build_dir : Path)
    (Post : PostHTML) (fs fs' : FS) (b : PostBuildData) :
  build_post_page T site_build_dir post_build_dir Post fs = Ok (b, fs') →
  keeps fs fs'.
Proof.
  intros (author & fs1 & _ & Hmk & Hw & _)%build_post_page_Ok.
  apply (keeps_trans _ fs1).
  - by apply keeps_mkdir_parents in Hmk.
  - by apply keeps_write_text in Hw.
Qed.

Lemma keeps_copy_post_files (site_build_dir post_src_dir post_build_dir : Path)
    (post : PostBuildData) (fs fs' : FS) :
  copy_post_files site_build_dir post_src_dir post_build_dir post fs = Ok fs' →
  keeps fs fs'.
Proof.
  unfold copy_post_files. destruct (post_static (data post)) as [static|].
  - apply keeps_stage.
  - intros [= <-]. apply keeps_refl.
Qed.

Lemma keeps_copy_project_files
    (site_build_dir projects_src_dir projects_build_dir : Path)
    (pb : ProjectBuildData) (fs fs' : FS) :
  copy_project_files site_build_dir projects_src_dir projects_build_dir pb fs
  = Ok fs' →
  keeps fs fs'.
Proof.
  unfold copy_project_files. destruct (proj_static (proj_data pb)) as [static|].
  - apply keeps_stage.
  - intros [= <-]. apply keeps_refl.
Qed.

Lemma keeps_build_blog_page (T : Templates) (posts : list PostBuildData)
    (site_build_dir post_build_dir blog_page_path : Path) (page_title : string)
    (fs fs' : FS) :
  build_blog_page T posts site_build_dir post_build_dir blog_page_path
    page_title fs = Ok fs' →
  keeps fs fs'.
Proof.
  unfold build_blog_page. intros (text & _ & Hw)%bind_Ok.
  by apply keeps_write_text in Hw.
Qed.

Lemma keeps_build_tags_pages (T : Templates) (posts : list PostBuildData)
    (site_build_dir post_build_dir : Path) (fs fs' : FS) :
  build_tags_pages T posts site_build_dir post_build_dir fs = Ok fs' →
  keeps fs fs'.
Proof.
  rewrite build_tags_pages_fold. apply foldR_keeps.
  intros tag s s'. apply keeps_build_blog_page.
Qed.

Lemma keeps_write_project (site_build_dir projects_build_dir : Path)
    (ph : ProjectHTML) (fs fs' : FS) (pb : ProjectBuildData) :
  write_project site_build_dir projects_build_dir ph fs = Ok (pb, fs') →
  keeps fs fs'.
Proof.
  unfold write_project. intros (fs1 & Hmk & H)%bind_Ok.
  apply bind_Ok in H as (fs2 & Hw & [= _ <-]).
  apply (keeps_trans _ fs1).
  - by apply keeps_mkdir_parents in Hmk.
  - by apply keeps_write_text in Hw.
Qed.

(** X21: a build only adds and overwrites.  After a successful [build_blog]
    or [build_projects] every path that was there is still there, a
    directory is still a directory and a file is still a file (its content
    may be new); nothing, in the output or elsewhere, has been removed. *)
Theorem build_keeps_entries (T : Templates) (PT : ProjectTemplates) (R : Runtime) :
  (∀ post_src_dir post_build_dir site_build_dir fs built fs',
     build_blog T R post_src_dir post_build_dir site_build_dir fs
     = Ok (built, fs') →
     keeps fs fs')
  ∧ (∀ posts projects_src_dir site_build_dir posts_build_dir
       projects_build_dir fs fs',
       build_projects T PT R posts projects_src_dir site_build_dir
         posts_build_dir projects_build_dir fs = Ok fs' →
       keeps fs fs').
Proof.
  split.
  - intros src pb site fs built fs' H. unfold build_blog in H.
    apply bind_Ok in H as (posts & _ & H).
    case_bool_decide.
    { injection H as <- <-. apply keeps_refl. }
    apply bind_Ok in H as (htmls & _ & H).
    apply bind_Ok in H as ([built' fs1] & H1 & H).
    apply bind_Ok in H as (fs2 & H2 & H).
    apply bind_Ok in H as (fs3 & H3 & H).
    apply bind_Ok in H as (fs4 & H4 & [= <- <-]).
    apply (keeps_trans _ fs1).
    { apply (mapS_keeps _ _ _ _ _ (λ x s y s', keeps_build_post_page T site pb x s s' y)
               H1). }
    apply (keeps_trans _ fs2).
    { apply (foldR_keeps _ _ _ _ (keeps_copy_post_files site src pb) H2). }
    apply (keeps_trans _ fs3).
    { by apply keeps_build_blog_page in H3. }
    by apply keeps_build_tags_pages in H4.
  - intros posts src site pbd prbd fs fs' H. unfold build_projects in H.
    apply bind_Ok in H as (projs & _ & H).
    apply bind_Ok in H as (htmls & _ & H).
    apply bind_Ok in H as ([builds fs1] & H1 & H).
    apply bind_Ok in H as (fs2 & H2 & H).
    apply (keeps_trans _ fs1).
    { apply (mapS_keeps _ _ _ _ _
               (λ x s y s', keeps_write_project site prbd x s s' y) H1). }
    apply (keeps_trans _ fs2).
    { apply (foldR_keeps _ _ _ _ (keeps_copy_project_files site src prbd) H2). }
    unfold build_projects_page in H. by apply keeps_write_text in H.
Qed.

(** X21 at a source tree with one post: the build succeeds and the page
    that was in the output is still there. *)
Lemma build_keeps_entries_witness :
  ∃ built fs',
    build_blog plain_templates (runtime_decoding blog_tagged_json)
      (Path_of_string "blog_posts") (Path_of_string "posts")
      (Path_of_string "site_out") fs_one_post = Ok (built, fs')
    ∧ ∃ n', fs' !! Path_of_string "site_out/index.html" = Some n'
            ∧ same_kind (File "<html>") n' = true.
Proof.
  destruct (not_raises_Ok
              (build_blog plain_templates (runtime_decoding blog_tagged_json)
                 (Path_of_string "blog_posts") (Path_of_string "posts")
                 (Path_of_string "site_out") fs_one_post))
    as [[built fs'] H]; [vm_compute; tauto|].
  exists built, fs'. split; [done|].
  destruct (build_keeps_entries plain_templates plain_project_templates
              (runtime_decoding blog_tagged_json)) as [Hblog _].
  apply (Hblog _ _ _ _ _ _ H). reflexivity.
Defined.

(** ** The result of [build_blog] *)

Lemma mapR_Forall2 {A B} (f : A → result B) (l : list A) (l' : list B) :
  mapR f l = Ok l' → Forall2 (λ x y, f x = Ok y) l l'.
Proof.
  revert l'. induction l as [|x l IH]; intros l' H; simpl in H.
  - injection H as <-. constructor.
  - apply bind_Ok in H as (y & Hy & H).
    apply bind_Ok in H as (ys & Hys & [= <-]).
    constructor; [done|by apply IH].
Qed.

Lemma mapS_Forall2 {A B S} (f : A → S → result (B * S)) (l : list A)
    (s s' : S) (ys : list B) :
  mapS f l s = Ok (ys, s') →
  Forall2 (λ x y, ∃ s1 s2, f x s1 = Ok (y, s2)) l ys.
Proof.
  revert s ys. induction l as [|x l IH]; intros s ys H; simpl in H.
  - injection H as <- <-. constructor.
  - apply bind_Ok in H as ([y s1] & Hy & H).
    apply bind_Ok in H as ([ys' s2] & Hys & [= <- <-]).
    constructor; [by exists s, s1|by apply IH in Hys].
Qed.

Lemma Forall2_fmap_eq {A B C} (g : B → C) (h : A → C) (l : list A) (l' : list B) :
  Forall2 (λ x y, g y = h x) l l' → g <$> l' = h <$> l.
Proof.
  induction 1 as [|x y l l' Hxy _ IH]; [done|].
  rewrite !fmap_cons. by f_equal.
Qed.

Lemma build_blog_steps (T : Templates) (R : Runtime)
    (post_src_dir post_build_dir site_build_dir : Path) (fs fs' : FS)
    (built : list PostBuildData) :
  build_blog T R post_src_dir post_build_dir site_build_dir fs = Ok (built, fs') →
  ∃ posts,
    collect_posts R post_src_dir fs = Ok posts
    ∧ ((posts = [] ∧ built = [] ∧ fs' = fs)
       ∨ (posts ≠ []
          ∧ ∃ htmls fs1 fs2 fs3,
              mapR (build_post_html R post_src_dir fs) posts = Ok htmls
              ∧ mapS (build_post_page T site_build_dir post_build_dir) htmls fs
                = Ok (built, fs1)
              ∧ foldR (copy_post_files site_build_dir post_src_dir
                         post_build_dir) built fs1 = Ok fs2
              ∧ build_blog_page T built site_build_dir post_build_dir
                  (Path_of_string "blog.html") "Blog" fs2 = Ok fs3
              ∧ build_tags_pages T built site_build_dir post_build_dir fs3
                = Ok fs')).
Proof.
  unfold build_blog. intros (posts & Hc & H)%bind_Ok.
  exists posts. split; [done|]. case_bool_decide as Hlen.
  - injection H as <- <-. left. by destruct posts.
  - right. split; [by intros ->|].
    apply bind_Ok in H as (htmls & Hh & H).
    apply bind_Ok in H as ([built' fs1] & H1 & H).
    apply bind_Ok in H as (fs2 & H2 & H).
    apply bind_Ok in H as (fs3 & H3 & H).
    apply bind_Ok in H as (fs4 & H4 & [= <- <-]).
    by exists htmls, fs1, fs2, fs3.
Qed.

(** X22: what [build_blog] returns.  The list has one record for every
    descriptor the glob found, in the order of the glob; the data of each
    record is the parsed descriptor, its path and directory are those of the
    page written for it, and it has at least one author, since a post
    without an author ends the build with an exception. *)
Theorem build_blog_result (T : Templates) (R : Runtime)
    (post_src_dir post_build_dir site_build_dir : Path) (fs fs' : FS)
    (built : list PostBuildData) :
  build_blog T R post_src_dir post_build_dir site_build_dir fs = Ok (built, fs') →
  ∃ posts,
    collect_posts R post_src_dir fs = Ok posts
    ∧ data <$> built = posts
    ∧ length built = length (glob_subdirs "post.json" post_src_dir fs)
    ∧ Forall (λ b,
                authors (data b) ≠ []
                ∧ build_path b
                  = post_page_file site_build_dir post_build_dir (data b)
                ∧ build_directory b
                  = post_page_dir site_build_dir post_build_dir (data b))
             built.
Proof.
  intros (posts & Hc & Hsteps)%build_blog_steps.
  exists posts. split; [done|].
  assert (length posts = length (glob_subdirs "post.json" post_src_dir fs))
    as Hlen.
  { unfold collect_posts in Hc. case_bool_decide as Hg.
    - injection Hc as <-. by rewrite Hg.
    - by apply mapR_Ok_length in Hc. }
  destruct Hsteps as [(-> & -> & _)|(_ & htmls & fs1 & _ & _ & Hh & Hb & _)].
  { split_and!; [done|done|constructor]. }
  apply mapR_Forall2 in Hh. apply mapS_Forall2 in Hb.
  assert (post_data <$> htmls = posts) as Hposts.
  { rewrite <- (list_fmap_id posts). apply Forall2_fmap_eq.
    eapply Forall2_impl; [exact Hh|].
    intros pd h Hpd. unfold build_post_html in Hpd.
    apply bind_Ok in Hpd as (? & _ & Hpd).
    by apply bind_Ok in Hpd as (? & _ & [= <-]). }
  assert (Forall2 (λ h b,
                     b = mkPostBuildData
                           (post_page_file site_build_dir post_build_dir
                              (post_data h))
                           (post_page_dir site_build_dir post_build_dir
                              (post_data h))
                           (post_data h)
                     ∧ authors (post_data h) ≠ []) htmls built) as Hrec.
  { eapply Forall2_impl; [exact Hb|].
    intros h b (s1 & s2 & Hp).
    apply build_post_page_Ok in Hp as (author & _ & Hauthor & _ & _ & ->).
    split; [done|]. intros Hnil. by rewrite Hnil in Hauthor. }
  assert (data <$> built = post_data <$> htmls) as Hdata.
  { apply Forall2_fmap_eq. eapply Forall2_impl; [exact Hrec|].
    by intros h b [-> _]. }
  split_and!.
  - by rewrite Hdata.
  - rewrite <- Hlen, <- Hposts, <- Hdata. by rewrite !length_fmap.
  - clear -Hrec. induction Hrec as [|h b htmls built [-> Ha] _ IH];
      constructor; done.
Qed.

Lemma build_blog_result_witness :
  ∃ built fs',
    build_blog plain_templates (runtime_decoding blog_tagged_json)
      (Path_of_string "blog_posts") (Path_of_string "posts")
      (Path_of_string "site_out") fs_one_post = Ok (built, fs')
    ∧ length built = 1%nat.
Proof.
  destruct (not_raises_Ok
              (build_blog plain_templates (runtime_decoding blog_tagged_json)
                 (Path_of_string "blog_posts") (Path_of_string "posts")
                 (Path_of_string "site_out") fs_one_post))
    as [[built fs'] H]; [vm_compute; tauto|].
  exists built, fs'. split; [done|].
  destruct (build_blog_result _ _ _ _ _ _ _ _ H) as (posts & _ & _ & Hlen & _).
  rewrite Hlen. vm_compute. reflexivity.
Defined.

(** X23: the page of a tag named [blog] takes the place of the blog listing.
    [build_blog] writes the listing of all posts to [blog.html] and then the
    tag pages, and the page of the tag [blog] goes to [blog.html] as well:
    after the build this file holds the page titled ["blog Blog Posts"] with
    the posts of that tag only. *)
Theorem tag_named_blog (T : Templates) (R : Runtime)
    (post_src_dir post_build_dir site_build_dir : Path) (fs fs' : FS)
    (built : list PostBuildData) :
  build_blog T R post_src_dir post_build_dir site_build_dir fs = Ok (built, fs') →
  (∃ post, post ∈ built ∧ "blog" ∈ tags (data post)) →
  (∀ tag, tag ∈ tags_set built →
          tag_page_path site_build_dir tag
          = tag_page_path site_build_dir "blog" →
          tag = "blog") →
  ∃ text,
    blog_page_text T (tagged_with "blog" built) post_build_dir "blog Blog Posts"
    = Ok text
    ∧ fs' !! joinpath site_build_dir (Path_of_string "blog.html")
      = Some (File text).
Proof.
  intros (posts & _ & Hsteps)%build_blog_steps (post & Hpost & Htag) Huniq.
  destruct Hsteps as [(_ & -> & _)|(_ & htmls & fs1 & fs2 & fs3 & _ & _ & _ & _ & H)].
  { by apply elem_of_nil in Hpost. }
  rewrite build_tags_pages_fold in H.
  apply tag_pages_written in H as [Hwritten _]; [|apply NoDup_elements].
  destruct (Hwritten "blog") as (text & Htext & Hfs).
  { apply elem_of_elements, elem_of_tags_set. eauto. }
  exists text. split; [done|].
  apply Hfs. intros tag Hin%elem_of_elements. by apply Huniq.
Qed.

Lemma tag_named_blog_witness :
  ∃ built fs',
    build_blog plain_templates (runtime_decoding blog_tagged_json)
      (Path_of_string "blog_posts") (Path_of_string "posts")
      (Path_of_string "site_out") fs_one_post = Ok (built, fs')
    ∧ ∃ text,
        blog_page_text plain_templates (tagged_with "blog" built)
          (Path_of_string "posts") "blog Blog Posts" = Ok text
        ∧ fs' !! Path_of_string "site_out/blog.html" = Some (File text).
Proof.
  destruct (not_raises_Ok
              (build_blog plain_templates (runtime_decoding blog_tagged_json)
                 (Path_of_string "blog_posts") (Path_of_string "posts")
                 (Path_of_string "site_out") fs_one_post))
    as [[built fs'] H]; [vm_compute; tauto|].
  exists built, fs'. split; [done|].
  assert (match build_blog plain_templates (runtime_decoding blog_tagged_json)
                  (Path_of_string "blog_posts") (Path_of_string "posts")
                  (Path_of_string "site_out") fs_one_post with
          | Ok (bl, _) => ∃ b, bl = [b] ∧ tags (data b) = ["blog"]
          | Raise _ => False
          end) as Hone.
  { vm_compute. eexists. split; reflexivity. }
  rewrite H in Hone. destruct Hone as (b & -> & Hb).
  apply (tag_named_blog _ _ _ _ _ _ _ _ H).
  - exists b. split; [left|]. rewrite Hb. left.
  - intros tag (post & ->%list_elem_of_singleton & Htag)%elem_of_tags_set _.
    rewrite Hb in Htag. by apply list_elem_of_singleton in Htag.
Defined.



(** ** Pages written twice *)

Lemma page_written (dir file : Path) (text : string) (fs fs1 fs' : FS) :
  mkdir_parents dir fs = Ok fs1 →
  write_text file text fs1 = Ok fs' →
  fs' !! file = Some (File text)
  ∧ (∀ p, p ∈ ancestors dir → fs' !! p = Some Dir)
  ∧ (∀ p, p ≠ file → p ∉ ancestors dir → fs' !! p = fs !! p)
  ∧ is_dir fs' (parent file) = true.
Proof.
  intros Hmk Hw.
  apply mkdir_parents_Ok in Hmk as (Hdirs & Hframe & Hkeep & _).
  apply write_text_Ok_inv in Hw as (Hfile & Hparent & ->).
  assert (∀ p, p ∈ ancestors dir → p ≠ file) as Hne.
  { intros p Hp ->. apply Hdirs in Hp. congruence. }
  split_and!.
  - apply lookup_insert_eq.
  - intros p Hp. rewrite lookup_insert_ne by (apply not_eq_sym; by apply Hne).
    apply is_dir_Some_Dir; [by apply ancestors_parts in Hp|by apply Hdirs].
  - intros p Hp Hnot. rewrite lookup_insert_ne by done. by apply Hframe.
  - rewrite is_dir_insert_ne; [done|].
    apply not_eq_sym, parent_ne. by apply is_dir_false_parts in Hfile.
Qed.

Lemma page_written_again (dir file : Path) (text : string) (fs fs1 fs' : FS) :
  mkdir_parents dir fs = Ok fs1 →
  write_text file text fs1 = Ok fs' →
  mkdir_parents dir fs' = Ok fs' ∧ write_text file text fs' = Ok fs'.
Proof.
  intros Hmk Hw.
  destruct (page_written _ _ _ _ _ _ Hmk Hw) as (Hfile & Hdirs & _ & Hparent).
  assert (parts file ≠ []) as Hparts.
  { apply write_text_Ok_inv in Hw as (Hf & _). by apply is_dir_false_parts in Hf. }
  split.
  - apply mkdir_parents_present. intros p Hp.
    apply is_dir_Some_Dir; [by apply ancestors_parts in Hp|by apply Hdirs].
  - unfold write_text. rewrite Hparent.
    assert (is_dir fs' file = false) as ->.
    { apply not_true_iff_false. intros Hd%is_dir_Some_Dir; [congruence|done]. }
    by rewrite insert_id.
Qed.

(** X25: on success [write_project] returns the record of the project with
    the output file [<site>/<projects_build_dir>/<directory>/<stem>.html];
    that file holds the composed page, the directory and the directories
    above it exist, and every other path is as it was. *)
Theorem write_project_effect (site_build_dir projects_build_dir : Path)
    (ph : ProjectHTML) (fs fs' : FS) (pb : ProjectBuildData) :
  write_project site_build_dir projects_build_dir ph fs = Ok (pb, fs') →
  let dir :=
    joinpaths site_build_dir
      [projects_build_dir; proj_directory (proj_html_data ph)] in
  let file :=
    joinpath dir
      (Path_of_string (stem (proj_path (proj_html_data ph)) +:+ ".html")) in
  pb = mkProjectBuildData file dir (proj_html_data ph)
  ∧ fs' !! file = Some (File (proj_src ph))
  ∧ (∀ p, p ∈ ancestors dir → fs' !! p = Some Dir)
  ∧ (∀ p, p ≠ file → p ∉ ancestors dir → fs' !! p = fs !! p).
Proof.
  intros H dir file. unfold write_project in H. fold dir in H. fold file in H.
  apply bind_Ok in H as (fs1 & Hmk & H).
  apply bind_Ok in H as (fs2 & Hw & [= <- <-]).
  destruct (page_written _ _ _ _ _ _ Hmk Hw) as (Hfile & Hdirs & Hframe & _).
  done.
Qed.

Lemma write_project_effect_witness :
  ∃ pb fs',
    write_project (Path_of_string "site_out") (Path_of_string "projects")
      siteA_html fs_site_out = Ok (pb, fs')
    ∧ fs' !! Path_of_string "site_out/projects/siteA/proj.html"
      = Some (File "<h1>siteA</h1>").
Proof.
  destruct (not_raises_Ok
              (write_project (Path_of_string "site_out")
                 (Path_of_string "projects") siteA_html fs_site_out))
    as [[pb fs'] H]; [vm_compute; tauto|].
  exists pb, fs'. split; [done|].
  by apply (write_project_effect _ _ _ _ _ _ H).
Defined.

(** X26: writing a page a second time changes nothing: [build_post_page] and
    [write_project], run again on the file system they returned, succeed
    and return the same record and the same file system. *)
Theorem pages_written_twice (T : Templates) (site_build_dir build_dir : Path) :
  (∀ Post fs b fs',
     build_post_page T site_build_dir build_dir Post fs = Ok (b, fs') →
     build_post_page T site_build_dir build_dir Post fs' = Ok (b, fs'))
  ∧ (∀ ph fs pb fs',
       write_project site_build_dir build_dir ph fs = Ok (pb, fs') →
       write_project site_build_dir build_dir ph fs' = Ok (pb, fs')).
Proof.
  split.
  - intros Post fs b fs' H.
    apply build_post_page_Ok in H as (author & fs1 & Hauthor & Hmk & Hw & ->).
    destruct (page_written_again _ _ _ _ _ _ Hmk Hw) as [Hmk' Hw'].
    unfold build_post_page. rewrite Hauthor.
    change ((fs1 ← mkdir_parents
                    (post_page_dir site_build_dir build_dir (post_data Post)) fs';
             fs2 ← write_text
                    (post_page_file site_build_dir build_dir (post_data Post))
                    (post_page_text T Post author) fs1;
             Ok (mkPostBuildData
                  (post_page_file site_build_dir build_dir (post_data Post))
                  (post_page_dir site_build_dir build_dir (post_data Post))
                  (post_data Post), fs2))
            = Ok (mkPostBuildData
                    (post_page_file site_build_dir build_dir (post_data Post))
                    (post_page_dir site_build_dir build_dir (post_data Post))
                    (post_data Post), fs')).
    rewrite Hmk'.
    change ((fs2 ← write_text
                    (post_page_file site_build_dir build_dir (post_data Post))
                    (post_page_text T Post author) fs';
             Ok (mkPostBuildData
                  (post_page_file site_build_dir build_dir (post_data Post))
                  (post_page_dir site_build_dir build_dir (post_data Post))
                  (post_data Post), fs2))
            = Ok (mkPostBuildData
                    (post_page_file site_build_dir build_dir (post_data Post))
                    (post_page_dir site_build_dir build_dir (post_data Post))
                    (post_data Post), fs')).
    by rewrite Hw'.
  - intros ph fs pb fs' H. unfold write_project in *.
    apply bind_Ok in H as (fs1 & Hmk & H).
    apply bind_Ok in H as (fs2 & Hw & [= <- <-]).
    destruct (page_written_again _ _ _ _ _ _ Hmk Hw) as [Hmk' Hw'].
    apply bind_Ok. exists fs2. split; [exact Hmk'|].
    apply bind_Ok. exists fs2. by split.
Qed.

Lemma pages_written_twice_witness :
  ∃ b fs',
    build_post_page plain_templates (Path_of_string "site_out")
      (Path_of_string "posts") january_html fs_site_out = Ok (b, fs')
    ∧ build_post_page plain_templates (Path_of_string "site_out")
        (Path_of_string "posts") january_html fs' = Ok (b, fs').
Proof.
  destruct (not_raises_Ok
              (build_post_page plain_templates (Path_of_string "site_out")
                 (Path_of_string "posts") january_html fs_site_out))
    as [[b fs'] H]; [vm_compute; tauto|].
  exists b, fs'. split; [done|].
  exact (proj1 (pages_written_twice plain_templates _ _) _ _ _ _ H).
Defined.

(** ** Assets staged twice *)

Lemma staged_again (src dst : Path) (fs fs' : FS) :
  parts dst ≠ [] →
  can_stage src dst fs = true →
  staged src dst fs fs' →
  can_stage src dst fs' = true
  ∧ ∀ fs'', staged src dst fs' fs'' → fs'' = fs'.
Proof.
  intros Hne Hcan (Hcopy & Hdst & Hrest). unfold can_stage in Hcan.
  repeat (apply andb_true_iff in Hcan as [Hcan ?]).
  rename Hcan into Hsrc, H into Hsep, H0 into Hconf, H1 into Hd, H2 into Habove.
  assert (∀ r1 r2, extend src r1 ≠ extend dst r2) as Hsep'
    by (intros; by apply separate_extend).
  assert (∀ rel, fs' !! extend src rel = fs !! extend src rel) as Hsame.
  { intros rel. apply Hrest.
    - rewrite <- (extend_nil dst). apply Hsep'.
    - intros rel' _ Heq. by apply Hsep' in Heq. }
  assert (is_dir fs' dst = true) as Hddir.
  { unfold is_dir. destruct (parts dst); [done|]. by apply bool_decide_eq_true. }
  split.
  - unfold can_stage. repeat (apply andb_true_iff; split).
    + rewrite (is_dir_lookup_eq fs); [done|].
      rewrite <- (extend_nil src). apply Hsame.
    + apply forallb_forall. intros p Hp.
      rewrite forallb_forall in Habove. specialize (Habove p Hp).
      apply orb_true_iff in Habove as [Heq|Hdir]; [by rewrite Heq|].
      destruct (decide (p = dst)) as [->|Hpd]; [by rewrite Hddir, orb_true_r|].
      apply orb_true_iff. right.
      rewrite (is_dir_lookup_eq fs); [done|]. apply Hrest; [done|].
      intros rel Hrel Heq.
      apply list_elem_of_In in Hp.
      apply ancestor_within in Hp; [|done].
      assert (within dst p = true) by (apply within_extend; eauto). congruence.
    + by rewrite Hddir, orb_true_r.
    + apply negb_true_iff, not_true_iff_false.
      intros ([k n] & Hin & Hk)%existsb_exists.
      apply list_elem_of_In in Hin.
      apply elem_of_copy_image in Hin as (rel & Hrel & Hfs & ->).
      rewrite Hsame in Hfs. apply Hcopy in Hfs; [|done].
      unfold kind_conflict in Hk. simpl in Hk. rewrite Hfs in Hk.
      by destruct n.
    + done.
  - intros fs'' (Hcopy' & Hdst' & Hrest'). apply map_eq. intros p.
    destruct (decide (p = dst)) as [->|Hpd]; [congruence|].
    destruct (reroot dst src p) as [k|] eqn:Hr.
    + apply reroot_Some in Hr as (rel & Hrel & -> & ->).
      destruct (fs' !! extend src rel) as [n|] eqn:Hn.
      * rewrite (Hcopy' rel n) by done. symmetry. apply Hcopy; [done|].
        by rewrite <- Hsame.
      * apply Hrest'; [done|]. intros rel' _ Heq.
        apply extend_inj in Heq as <-. done.
    + apply Hrest'; [done|]. intros rel Hrel ->.
      rewrite (proj2 (reroot_Some dst src (extend dst rel) (extend src rel)))
        in Hr; [done|eauto].
Qed.

Lemma stage_twice (src dst : Path) (fs fs' : FS) :
  parts dst ≠ [] →
  can_stage src dst fs = true →
  stage src dst fs = Ok fs' →
  stage src dst fs' = Ok fs'.
Proof.
  intros Hne Hcan Hstage.
  destruct (stage_staged src dst fs Hne Hcan) as (fs1 & Hstage1 & Hstaged).
  rewrite Hstage in Hstage1. injection Hstage1 as <-.
  destruct (staged_again src dst fs fs' Hne Hcan Hstaged) as [Hcan' Huniq].
  destruct (stage_staged src dst fs' Hne Hcan') as (fs2 & Hstage2 & Hstaged2).
  by rewrite (Huniq fs2 Hstaged2) in Hstage2.
Qed.

(** X27: staging the assets of an item a second time changes nothing: when
    [copy_post_files] or [copy_project_files] has succeeded on a file system
    where the copy was possible (or for an item without assets), running it
    again on the result succeeds and returns that same file system.  So,
    unlike the site's static directory, assets can be staged over an
    existing output tree. *)
Theorem copy_files_twice
    (site_build_dir src_dir build_dir : Path) (fs fs' : FS) :
  (∀ post,
     (∀ static, post_static (data post) = Some static →
        can_stage (joinpaths src_dir [post_directory (data post); static])
          (joinpaths site_build_dir
             [build_dir; post_directory (data post); Path_of_string "static"])
          fs = true) →
     copy_post_files site_build_dir src_dir build_dir post fs = Ok fs' →
     copy_post_files site_build_dir src_dir build_dir post fs' = Ok fs')
  ∧ (∀ pb,
       (∀ static, proj_static (proj_data pb) = Some static →
          can_stage (joinpaths src_dir [proj_directory (proj_data pb); static])
            (joinpaths site_build_dir
               [build_dir; proj_directory (proj_data pb); Path_of_string "static"])
            fs = true) →
       copy_project_files site_build_dir src_dir build_dir pb fs = Ok fs' →
       copy_project_files site_build_dir src_dir build_dir pb fs' = Ok fs').
Proof.
  split.
  - intros post Hcan. unfold copy_post_files.
    destruct (post_static (data post)) as [static|]; [|done].
    apply stage_twice; [apply static_dir_parts|by apply Hcan].
  - intros pb Hcan. unfold copy_project_files.
    destruct (proj_static (proj_data pb)) as [static|]; [|done].
    apply stage_twice; [apply static_dir_parts|by apply Hcan].
Qed.

Lemma copy_files_twice_witness :
  ∃ fs',
    copy_post_files (Path_of_string "site_out") (Path_of_string "blog_posts")
      (Path_of_string "posts") post_with_assets fs_with_assets = Ok fs'
    ∧ copy_post_files (Path_of_string "site_out") (Path_of_string "blog_posts")
        (Path_of_string "posts") post_with_assets fs' = Ok fs'.
Proof.
  destruct (not_raises_Ok
              (copy_post_files (Path_of_string "site_out")
                 (Path_of_string "blog_posts") (Path_of_string "posts")
                 post_with_assets fs_with_assets))
    as [fs' H]; [vm_compute; tauto|].
  exists fs'. split; [done|].
  apply (proj1 (copy_files_twice (Path_of_string "site_out")
                  (Path_of_string "blog_posts") (Path_of_string "posts")
                  fs_with_assets fs') post_with_assets); [|done].
  intros static [= <-]. vm_compute. reflexivity.
Defined.
